(** * Snapshot time-point selection of DISCO, embedded in Rocq

    Source: [disco/analysis/feeder_analysis/timepoint_selection.py]
    (with the exception classes of [disco/exceptions.py]).  Embedded after
    it: the error codes of [disco/exceptions.py], the table of return codes
    of [docs/generate_tables.py], [pydss_solve_and_check] of
    [disco/extensions/upgrade_simulation/upgrades/pydss_parameters.py] and
    the class [PipelineTemplate] of [disco/pipelines/base.py].

    The selection routine is written against three outside libraries:
    OpenDSS (through [opendssdirect]), pandas/numpy and [jade]'s
    [dump_data].  Their behaviour, as far as the routine depends on it, is
    written out below next to the routine itself:
    - numbers are IEEE-754 binary64 values, as numpy's [float64] and
      Python's [float] are: Rocq's primitive floats;
    - a timestamp is a naive datetime counted in microseconds;
    - a pandas [Series] is its dtype and its (label, value) pairs in index
      order, a [DataFrame] a list of labelled rows;
    - an exception ends the call and is the call's outcome. *)

From Stdlib Require Import ZArith Floats Lia.
From stdpp Require Import base option list sorting gmap strings pretty.

Set Warnings "-inexact-float,-register-all".
Local Open Scope Z_scope.

(** ** Timestamps

    A naive [datetime] is the number of microseconds since 1970-01-01T00:00,
    a [timedelta] a number of microseconds. *)
Definition Timestamp := Z.
Definition Timedelta := Z.

Definition MICROS_PER_DAY : Z := 86400000000.

(** Days from 1970-01-01 to the civil date [y]-[m]-[d] (proleptic
    Gregorian calendar, as [datetime] uses). *)
Definition days_from_civil (y m d : Z) : Z :=
  let y' := if m <=? 2 then y - 1 else y in
  let era := y' / 400 in
  let yoe := y' - era * 400 in
  let mp := (m + 9) mod 12 in
  let doy := (153 * mp + 2) / 5 + d - 1 in
  let doe := yoe * 365 + yoe / 4 - yoe / 100 + doy in
  era * 146097 + doe - 719468.

(** [datetime(y, m, d, hh, mm)] *)
Definition datetime (y m d hh mm : Z) : Timestamp :=
  days_from_civil y m d * MICROS_PER_DAY + (hh * 3600 + mm * 60) * 1000000.

(** [datetime.time(hh, mm)], as microseconds after midnight; the strings
    ['8:00'] and ['17:00'] denote [time_of_day 8 0] and [time_of_day 17 0]. *)
Definition time_of_day (hh mm : Z) : Z := (hh * 3600 + mm * 60) * 1000000.

(** The time of day of a timestamp, in microseconds after midnight. *)
Definition time_micros (t : Timestamp) : Z := t mod MICROS_PER_DAY.

(** ** Exceptions *)

(** The classes of [disco/exceptions.py], lines 1-60. *)
Inductive DiscoExceptionClass :=
| DiscoBaseException
| AnalysisRunException
| AnalysisConfigurationException
| ExceededParallelLinesLimit
| ExceededParallelTransformersLimit
| UpgradesInvalidViolationIncrease
| OpenDssCompileError
| OpenDssConvergenceError
| PyDssConvergenceError
| PyDssConvergenceErrorCountExceeded
| PyDssConvergenceMaxError
| UpgradesExternalCatalogRequired
| UpgradesExternalCatalogMissingEquipmentType
| InvalidOpenDssElementError.

Definition disco_class_name (c : DiscoExceptionClass) : string :=
  match c with
  | DiscoBaseException => "DiscoBaseException"
  | AnalysisRunException => "AnalysisRunException"
  | AnalysisConfigurationException => "AnalysisConfigurationException"
  | ExceededParallelLinesLimit => "ExceededParallelLinesLimit"
  | ExceededParallelTransformersLimit => "ExceededParallelTransformersLimit"
  | UpgradesInvalidViolationIncrease => "UpgradesInvalidViolationIncrease"
  | OpenDssCompileError => "OpenDssCompileError"
  | OpenDssConvergenceError => "OpenDssConvergenceError"
  | PyDssConvergenceError => "PyDssConvergenceError"
  | PyDssConvergenceErrorCountExceeded => "PyDssConvergenceErrorCountExceeded"
  | PyDssConvergenceMaxError => "PyDssConvergenceMaxError"
  | UpgradesExternalCatalogRequired => "UpgradesExternalCatalogRequired"
  | UpgradesExternalCatalogMissingEquipmentType =>
      "UpgradesExternalCatalogMissingEquipmentType"
  | InvalidOpenDssElementError => "InvalidOpenDssElementError"
  end.

(** What a call can raise: Python's built-in exceptions that [assert] and
    pandas raise, and the classes of DISCO. *)
Inductive PyException :=
| AssertionError (msg : string)
| KeyError (key : string)
| TypeError (msg : string)
| ValueError (msg : string)
| DiscoException (cls : DiscoExceptionClass) (msg : string).

Definition exception_class (e : PyException) : string :=
  match e with
  | AssertionError _ => "AssertionError"
  | KeyError _ => "KeyError"
  | TypeError _ => "TypeError"
  | ValueError _ => "ValueError"
  | DiscoException c _ => disco_class_name c
  end.

(** The outcome of a computation that can raise. *)
Inductive Outcome (A : Type) :=
| Return (a : A)
| Raise (e : PyException).
Arguments Return {A} a.
Arguments Raise {A} e.

Definition obind {A B} (o : Outcome A) (k : A -> Outcome B) : Outcome B :=
  match o with
  | Return a => k a
  | Raise e => Raise e
  end.

Declare Scope outcome_scope.
Delimit Scope outcome_scope with outcome.
Notation "'let!' x ':=' c 'in' k" := (obind c (fun x => k))
  (at level 10, x pattern, c at level 100, k at level 200) : outcome_scope.

Definition raised {A} (o : Outcome A) : bool :=
  match o with Return _ => false | Raise _ => true end.

(** ** The selection modes (lines 23-30) *)
Inductive SnapshotTimePointSelectionMode :=
| MAX_PV_LOAD_RATIO
| MAX_LOAD
| DAYTIME_MIN_LOAD
| MAX_PV_MINUS_LOAD
| NONE.

Definition mode_value (m : SnapshotTimePointSelectionMode) : string :=
  match m with
  | MAX_PV_LOAD_RATIO => "max_pv_load_ratio"
  | MAX_LOAD => "max_load"
  | DAYTIME_MIN_LOAD => "daytime_min_load"
  | MAX_PV_MINUS_LOAD => "pv_minus_load"
  | NONE => "none"
  end.

(** [str(mode)] of an [enum.Enum] member. *)
Definition mode_str (m : SnapshotTimePointSelectionMode) : string :=
  match m with
  | MAX_PV_LOAD_RATIO => "SnapshotTimePointSelectionMode.MAX_PV_LOAD_RATIO"
  | MAX_LOAD => "SnapshotTimePointSelectionMode.MAX_LOAD"
  | DAYTIME_MIN_LOAD => "SnapshotTimePointSelectionMode.DAYTIME_MIN_LOAD"
  | MAX_PV_MINUS_LOAD => "SnapshotTimePointSelectionMode.MAX_PV_MINUS_LOAD"
  | NONE => "SnapshotTimePointSelectionMode.NONE"
  end.

Definition mode_eqb (a b : SnapshotTimePointSelectionMode) : bool :=
  match a, b with
  | MAX_PV_LOAD_RATIO, MAX_PV_LOAD_RATIO
  | MAX_LOAD, MAX_LOAD
  | DAYTIME_MIN_LOAD, DAYTIME_MIN_LOAD
  | MAX_PV_MINUS_LOAD, MAX_PV_MINUS_LOAD
  | NONE, NONE => true
  | _, _ => false
  end.

(** ** pandas and numpy, as far as the routine uses them *)

(** The dtype of a column: a column of a frame made by
    [pd.DataFrame(columns=[...])] is [object] until numbers are stored. *)
Inductive Dtype := object | float64.

Definition result_dtype (a b : Dtype) : Dtype :=
  match a, b with
  | float64, float64 => float64
  | _, _ => object
  end.

(** A [Series] over a datetime index: (label, value) pairs in index order. *)
Record Series := mkSeries {
  dtype : Dtype;
  items : list (Timestamp * float)
}.

(** A cell of the [Timepoints] column: a timestamp, or [NaT]. *)
Definition Cell := option Timestamp.
Definition NaT : Cell := None.

Definition labels {A} (l : list (Timestamp * A)) : list Timestamp := map fst l.
Definition values (l : list (Timestamp * float)) : list float := map snd l.

Fixpoint index_equals (a b : list Timestamp) : bool :=
  match a, b with
  | [], [] => true
  | x :: a', y :: b' => (x =? y) && index_equals a' b'
  | _, _ => false
  end.

(** The value at label [t] (the first, should [t] occur twice). *)
Fixpoint lookup_label (t : Timestamp) (l : list (Timestamp * float)) : option float :=
  match l with
  | [] => None
  | (t', v) :: l' => if t' =? t then Some v else lookup_label t l'
  end.

(** numpy's [argmax] on a non-empty array without NaN: the scan keeps the
    first position of the greatest value, replacing it only by a value that
    is not [<=] it. *)
Fixpoint argmax_scan (mp : float) (max_ind i : nat) (ip : list float) : nat :=
  match ip with
  | [] => max_ind
  | x :: ip' =>
      if negb (PrimFloat.leb x mp) then argmax_scan x i (S i) ip'
      else argmax_scan mp max_ind (S i) ip'
  end.

Definition np_argmax (a : list float) : Outcome nat :=
  match a with
  | [] => Raise (ValueError "attempt to get argmax of an empty sequence")
  | x :: rest => Return (argmax_scan x 0 1 rest)
  end.

(** numpy's [argmin]: replaces the minimum only by a value that is not [>=] it. *)
Fixpoint argmin_scan (mp : float) (min_ind i : nat) (ip : list float) : nat :=
  match ip with
  | [] => min_ind
  | x :: ip' =>
      if negb (PrimFloat.leb mp x) then argmin_scan x i (S i) ip'
      else argmin_scan mp min_ind (S i) ip'
  end.

Definition np_argmin (a : list float) : Outcome nat :=
  match a with
  | [] => Raise (ValueError "attempt to get argmin of an empty sequence")
  | x :: rest => Return (argmin_scan x 0 1 rest)
  end.

(** [nanops.nanargmax(values, skipna=True)]: NaN is filled with [-inf], the
    filled array is scanned, and the result is [None] (pandas' [-1]) when
    every value was NaN. *)
Definition fill_nan (fill v : float) : float :=
  if PrimFloat.is_nan v then fill else v.

Definition nanargmax (vs : list float) : Outcome (option nat) :=
  (let! result := np_argmax (map (fill_nan neg_infinity) vs) in
   if forallb PrimFloat.is_nan vs then Return None else Return (Some result))%outcome.

Definition nanargmin (vs : list float) : Outcome (option nat) :=
  (let! result := np_argmin (map (fill_nan infinity) vs) in
   if forallb PrimFloat.is_nan vs then Return None else Return (Some result))%outcome.

(** [Series.idxmax()] and [Series.idxmin()]: the label at the position
    found; the reductions are not allowed on [object] columns; an all-NaN
    series gives the index's missing value. *)
Definition label_at (l : list (Timestamp * float)) (i : nat) : Cell :=
  fst <$> l !! i.

Definition Series_idxmax (s : Series) : Outcome Cell :=
  match dtype s with
  | object =>
      Raise (TypeError "reduction operation 'argmax' not allowed for this dtype")
  | float64 =>
      (let! i := nanargmax (values (items s)) in
       match i with
       | None => Return NaT
       | Some i => Return (label_at (items s) i)
       end)%outcome
  end.

Definition Series_idxmin (s : Series) : Outcome Cell :=
  match dtype s with
  | object =>
      Raise (TypeError "reduction operation 'argmin' not allowed for this dtype")
  | float64 =>
      (let! i := nanargmin (values (items s)) in
       match i with
       | None => Return NaT
       | Some i => Return (label_at (items s) i)
       end)%outcome
  end.

(** Arithmetic of two series aligns them on their labels: position by
    position when the indexes are equal, otherwise over the union of the
    labels with NaN where one side has no value.  (Two different indexes
    are aligned as indexes of distinct labels are; the properties below
    that depend on it ask for shapes of a positive interval.) *)
Definition Series_binop (op : float -> float -> float) (a b : Series) : Series :=
  {| dtype := result_dtype (dtype a) (dtype b);
     items :=
       if index_equals (labels (items a)) (labels (items b)) then
         zip_with (fun p q => (fst p, op (snd p) (snd q))) (items a) (items b)
       else
         map (fun p => (fst p, op (snd p) (default nan (lookup_label (fst p) (items b)))))
             (items a)
         ++ map (fun q => (fst q, op nan (snd q)))
             (filter (fun q => lookup_label (fst q) (items a) = None) (items b)) |}.

(** The frame [aggregate_profiles]: columns ['Load'] and ['PV'] from its
    creation, ['PV to Load Ratio'] and ['PV minus Load'] once they are
    assigned.  A column that does not exist has no dtype, and its cells in
    [Row] are not read. *)
Inductive Column := Load | PV | PV_to_Load_Ratio | PV_minus_Load.

Definition column_name (c : Column) : string :=
  match c with
  | Load => "Load"
  | PV => "PV"
  | PV_to_Load_Ratio => "PV to Load Ratio"
  | PV_minus_Load => "PV minus Load"
  end.

Record Row := mkRow {
  row_Load : float;
  row_PV : float;
  row_PV_to_Load_Ratio : float;
  row_PV_minus_Load : float
}.

Definition cell (c : Column) (r : Row) : float :=
  match c with
  | Load => row_Load r
  | PV => row_PV r
  | PV_to_Load_Ratio => row_PV_to_Load_Ratio r
  | PV_minus_Load => row_PV_minus_Load r
  end.

Definition set_cell (c : Column) (v : float) (r : Row) : Row :=
  match c with
  | Load => mkRow v (row_PV r) (row_PV_to_Load_Ratio r) (row_PV_minus_Load r)
  | PV => mkRow (row_Load r) v (row_PV_to_Load_Ratio r) (row_PV_minus_Load r)
  | PV_to_Load_Ratio => mkRow (row_Load r) (row_PV r) v (row_PV_minus_Load r)
  | PV_minus_Load => mkRow (row_Load r) (row_PV r) (row_PV_to_Load_Ratio r) v
  end.

Definition nan_row : Row := mkRow nan nan nan nan.

Record DataFrame := mkDataFrame {
  dtype_Load : option Dtype;
  dtype_PV : option Dtype;
  dtype_PV_to_Load_Ratio : option Dtype;
  dtype_PV_minus_Load : option Dtype;
  rows : list (Timestamp * Row)
}.

Definition column_dtype (c : Column) (df : DataFrame) : option Dtype :=
  match c with
  | Load => dtype_Load df
  | PV => dtype_PV df
  | PV_to_Load_Ratio => dtype_PV_to_Load_Ratio df
  | PV_minus_Load => dtype_PV_minus_Load df
  end.

Definition with_rows (rs : list (Timestamp * Row)) (df : DataFrame) : DataFrame :=
  mkDataFrame (dtype_Load df) (dtype_PV df) (dtype_PV_to_Load_Ratio df)
    (dtype_PV_minus_Load df) rs.

Definition with_dtype (c : Column) (d : Dtype) (df : DataFrame) : DataFrame :=
  match c with
  | Load =>
      mkDataFrame (Some d) (dtype_PV df) (dtype_PV_to_Load_Ratio df)
        (dtype_PV_minus_Load df) (rows df)
  | PV =>
      mkDataFrame (dtype_Load df) (Some d) (dtype_PV_to_Load_Ratio df)
        (dtype_PV_minus_Load df) (rows df)
  | PV_to_Load_Ratio =>
      mkDataFrame (dtype_Load df) (dtype_PV df) (Some d)
        (dtype_PV_minus_Load df) (rows df)
  | PV_minus_Load =>
      mkDataFrame (dtype_Load df) (dtype_PV df) (dtype_PV_to_Load_Ratio df)
        (Some d) (rows df)
  end.

(** [pd.DataFrame(columns=['Load', 'PV'])] *)
Definition empty_aggregate_profiles : DataFrame :=
  mkDataFrame (Some object) (Some object) None None [].

(** [len(df)] *)
Definition len (df : DataFrame) : nat := length (rows df).

(** [df[c]] *)
Definition getitem (c : Column) (df : DataFrame) : Outcome Series :=
  match column_dtype c df with
  | None => Raise (KeyError (column_name c))
  | Some d => Return (mkSeries d (map (fun p => (fst p, cell c (snd p))) (rows df)))
  end.

(** [df[c] = s].  A frame without rows takes the index of a non-empty
    series, its other cells being NaN; otherwise the series is reindexed to
    the frame's index, position by position when the indexes are equal and
    by label otherwise, NaN where the series has no such label.  (The
    reindexing by label is that of indexes of distinct labels.  When a
    label occurs twice, as with a shape of interval 0, and the indexes
    differ, pandas refuses the assignment with a [ValueError]; that case is
    not modelled: there the definition below answers a frame.) *)
Definition setitem (c : Column) (s : Series) (df : DataFrame) : DataFrame :=
  let new_rows :=
    match rows df, items s with
    | [], _ :: _ => map (fun p => (fst p, set_cell c (snd p) nan_row)) (items s)
    | rs, its =>
        if index_equals (labels rs) (labels its) then
          zip_with (fun r p => (fst r, set_cell c (snd p) (snd r))) rs its
        else
          map (fun r => (fst r, set_cell c (default nan (lookup_label (fst r) its)) (snd r))) rs
    end in
  with_dtype c (dtype s) (with_rows new_rows df).

(** [df.replace(np.nan, 0)]: every NaN of every column becomes 0; an
    all-NaN [object] column comes out numeric. *)
Definition replace_nan_cell (v : float) : float :=
  if PrimFloat.is_nan v then 0%float else v.

Definition replace_nan_row (r : Row) : Row :=
  mkRow (replace_nan_cell (row_Load r)) (replace_nan_cell (row_PV r))
    (replace_nan_cell (row_PV_to_Load_Ratio r))
    (replace_nan_cell (row_PV_minus_Load r)).

Definition numeric (d : option Dtype) : option Dtype :=
  match d with Some _ => Some float64 | None => None end.

Definition replace_nan_0 (df : DataFrame) : DataFrame :=
  mkDataFrame (numeric (dtype_Load df)) (numeric (dtype_PV df))
    (numeric (dtype_PV_to_Load_Ratio df)) (numeric (dtype_PV_minus_Load df))
    (map (fun p => (fst p, replace_nan_row (snd p))) (rows df)).

(** [df.between_time(start_time, end_time)], both ends included: the rows
    whose time of day lies in the window, in index order; a window whose
    start is after its end wraps around midnight. *)
Definition in_time_window (start_time end_time : Z) (t : Timestamp) : bool :=
  if start_time <=? end_time then
    (start_time <=? time_micros t) && (time_micros t <=? end_time)
  else
    (start_time <=? time_micros t) || (time_micros t <=? end_time).

Definition between_time (start_time end_time : Z) (df : DataFrame) : DataFrame :=
  with_rows (filter (fun p => in_time_window start_time end_time (fst p) = true) (rows df)) df.

(** ** OpenDSS, as the routine queries it

    [dss.PVsystems.AllNames()] and [dss.Loads.AllNames()] list the
    elements; after an element is selected by name, [dss.Properties.Value]
    reads its rating and the name of its yearly shape; after a shape is
    selected by name, [dss.LoadShape] answers for it.  The ratings are the
    values [float(...)] makes of the property strings, the interval is the
    [timedelta(seconds=dss.LoadShape.SInterval())].  The engine answers
    for every name: a failure of the engine itself is outside the model. *)
Record LoadShapeData := mkLoadShapeData {
  PMult : list float;
  SInterval : Timedelta;
  Npts : nat
}.

Record OpenDSS := mkOpenDSS {
  PVsystems_AllNames : list string;
  PVsystem_Pmpp : string -> float;
  PVsystem_yearly : string -> string;
  Loads_AllNames : list string;
  Load_kW : string -> float;
  Load_yearly : string -> string;
  LoadShape : string -> LoadShapeData
}.

(** The settings object [INPUT_SETTINGS], which the module expects its
    caller to define; the routine reads [loadshape_start_time] only. *)
Record Settings := mkSettings {
  loadshape_start_time : Timestamp
}.

(** ** [create_loadshape_pmult_dataframe] (lines 34-58) *)

(** The frame [pd.DataFrame(data, index=...)] of a list of numbers: one
    column, labelled [0], or no column at all when [data] is empty.  When
    the list and the index differ in length pandas raises a [ValueError]
    (its message, which tells the two shapes, is abridged here). *)
Record PmultFrame := mkPmultFrame {
  pmult_index : list Timestamp;
  pmult_column0 : option (list float)
}.

Definition pd_DataFrame (data : list float) (index : list Timestamp) : Outcome PmultFrame :=
  match data with
  | [] => Return (mkPmultFrame index None)
  | _ :: _ =>
      if (length data =? length index)%nat
      then Return (mkPmultFrame index (Some data))
      else Raise (ValueError "Shape of passed values does not match the index")
  end.

(** Lines 51-56: [npts] timestamps, [interval] apart, from [cur_time] on. *)
Fixpoint indices (cur_time : Timestamp) (interval : Timedelta) (npts : nat) : list Timestamp :=
  match npts with
  | O => []
  | S n => cur_time :: indices (cur_time + interval) interval n
  end.

Definition create_loadshape_pmult_dataframe
    (settings : Settings) (shape : LoadShapeData) : Outcome PmultFrame :=
  let start_time := loadshape_start_time settings in
  let data := PMult shape in
  let interval := SInterval shape in
  let npts := Npts shape in
  pd_DataFrame data (indices start_time interval npts).

(** [frame * x] *)
Definition PmultFrame_mul (f : PmultFrame) (x : float) : PmultFrame :=
  mkPmultFrame (pmult_index f)
    (map (fun v => PrimFloat.mul v x) <$> pmult_column0 f).

(** [frame[0]] *)
Definition PmultFrame_getitem0 (f : PmultFrame) : Outcome Series :=
  match pmult_column0 f with
  | None => Raise (KeyError "0")
  | Some col => Return (mkSeries float64 (zip (pmult_index f) col))
  end.

(** ** The world around a call: the log and the files written *)

Inductive LogArgs :=
| NoArgs
| StrArg (s : string)
| TimepointsArg (d : list (string * Cell)).

Record LogRecord := mkLogRecord {
  log_level : string;
  log_format : string;
  log_args : LogArgs
}.

(** The text pandas' [astype(str)] makes of a cell is not spelled out: a
    string of the report is known by the cell it renders. *)
Inductive PyStr := astype_str (c : Cell).

(** What [dump_data] is given: strings and dictionaries in key order. *)
Inductive Json :=
| JString (s : PyStr)
| JObject (members : list (string * Json)).

Record FileContent := mkFileContent {
  file_data : Json;
  file_indent : nat
}.

Record World := mkWorld {
  log : list LogRecord;
  files : gmap string FileContent
}.

Definition M (A : Type) : Type := World -> World * Outcome A.

Definition M_ret {A} (a : A) : M A := fun w => (w, Return a).

Definition M_bind {A B} (c : M A) (k : A -> M B) : M B :=
  fun w =>
    match c w with
    | (w', Return a) => k a w'
    | (w', Raise e) => (w', Raise e)
    end.

Definition lift {A} (o : Outcome A) : M A := fun w => (w, o).

Declare Scope M_scope.
Delimit Scope M_scope with M.
Notation "'let!' x ':=' c 'in' k" := (M_bind c (fun x => k))
  (at level 10, x pattern, c at level 100, k at level 200) : M_scope.

(** [logger.info(fmt, args)] *)
Definition logger_info (fmt : string) (args : LogArgs) : M unit :=
  fun w => (mkWorld (log w ++ [mkLogRecord "INFO" fmt args]) (files w), Return tt).

(** [dump_data(data, filename, indent=...)] of [jade.utils.utils] *)
Definition dump_data (data : Json) (filename : string) (indent : nat) : M unit :=
  fun w => (mkWorld (log w) (<[filename := mkFileContent data indent]> (files w)), Return tt).

(** ** [get_snapshot_timepoint] (lines 61-129) *)

(** [dict[key]] *)
Definition dict_getitem {V} (d : gmap string V) (key : string) : Outcome V :=
  match d !! key with
  | Some v => Return v
  | None => Raise (KeyError key)
  end.

(** [for x in xs: body], threading the variables the body assigns. *)
Fixpoint for_each {S} (body : S -> string -> Outcome S) (xs : list string) (s : S) : Outcome S :=
  match xs with
  | [] => Return s
  | x :: xs' => obind (body s x) (for_each body xs')
  end.

(** [timepoints.loc[label] = value]: the row is replaced where the label
    exists and appended otherwise. *)
Fixpoint loc_setitem (tps : list (string * Cell)) (label : string) (v : Cell)
    : list (string * Cell) :=
  match tps with
  | [] => [(label, v)]
  | (l, c) :: tps' =>
      if String.eqb l label then (l, v) :: tps'
      else (l, c) :: loc_setitem tps' label v
  end.

(** [timepoints.loc[label]] *)
Fixpoint loc_getitem (tps : list (string * Cell)) (label : string) : Outcome Cell :=
  match tps with
  | [] => Raise (KeyError label)
  | (l, c) :: tps' => if String.eqb l label then Return c else loc_getitem tps' label
  end.

(** [timepoints.astype(str).to_dict(orient='index')]: under each row label
    the dictionary of the row, column name to cell text.  The frame has the
    one column ['Timepoints']. *)
Definition to_dict_index (tps : list (string * Cell)) : Json :=
  JObject (map (fun p => (fst p, JObject [("Timepoints", JString (astype_str (snd p)))])) tps).

Record TimeWindow := mkTimeWindow {
  start_time : Z;
  end_time : Z
}.

(** Line 79 *)
Definition pv_generation_hours : TimeWindow :=
  mkTimeWindow (time_of_day 8 0) (time_of_day 17 0).

Section GetSnapshotTimepoint.

Variable dss : OpenDSS.
Variable INPUT_SETTINGS : Settings.

(** Lines 63-67: without PV systems every mode becomes [MAX_LOAD]. *)
Definition resolve_mode (pv_systems : list string)
    (mode : SnapshotTimePointSelectionMode) : M SnapshotTimePointSelectionMode :=
  match pv_systems with
  | [] =>
      (let! _ := logger_info "No PVSystems are present." NoArgs in
       if negb (mode_eqb mode MAX_LOAD) then
         let mode := MAX_LOAD in
         let! _ := logger_info "Changed mode to %s" (StrArg (mode_value MAX_LOAD)) in
         M_ret mode
       else M_ret mode)%M
  | _ :: _ => M_ret mode
  end.

(** Lines 68-77 *)
Definition select_column (mode : SnapshotTimePointSelectionMode) : Outcome string :=
  match mode with
  | MAX_LOAD => Return "Max Load"
  | MAX_PV_LOAD_RATIO => Return "Max PV to Load Ratio"
  | DAYTIME_MIN_LOAD => Return "Min Daytime Load"
  | MAX_PV_MINUS_LOAD => Return "Max PV minus Load"
  | NONE => Raise (AssertionError (mode_str mode ++ " is not supported"))
  end.

(** Lines 83-93, the body of the loop over the PV systems; the state is
    [aggregate_profiles] and the cache [pv_shapes]. *)
Definition pv_body (st : DataFrame * gmap string PmultFrame) (pv_name : string)
    : Outcome (DataFrame * gmap string PmultFrame) :=
  let aggregate_profiles := fst st in
  let pv_shapes := snd st in
  let pmpp := PVsystem_Pmpp dss pv_name in
  let profile_name := PVsystem_yearly dss pv_name in
  (let! pv_shapes :=
     match pv_shapes !! profile_name with
     | None =>
         let! df := create_loadshape_pmult_dataframe INPUT_SETTINGS
                      (LoadShape dss profile_name) in
         Return (<[profile_name := df]> pv_shapes)
     | Some _ => Return pv_shapes
     end in
   let! shape := dict_getitem pv_shapes profile_name in
   let! contribution := PmultFrame_getitem0 (PmultFrame_mul shape pmpp) in
   if (len aggregate_profiles =? 0)%nat then
     let aggregate_profiles := setitem PV contribution aggregate_profiles in
     let aggregate_profiles := replace_nan_0 aggregate_profiles in
     Return (aggregate_profiles, pv_shapes)
   else
     let! pv := getitem PV aggregate_profiles in
     let aggregate_profiles :=
       setitem PV (Series_binop PrimFloat.add pv contribution) aggregate_profiles in
     Return (aggregate_profiles, pv_shapes))%outcome.

(** Lines 100-109, the body of the loop over the loads. *)
Definition load_body (st : DataFrame * gmap string PmultFrame) (load_name : string)
    : Outcome (DataFrame * gmap string PmultFrame) :=
  let aggregate_profiles := fst st in
  let load_shapes := snd st in
  let kw := Load_kW dss load_name in
  let profile_name := Load_yearly dss load_name in
  (let! load_shapes :=
     match load_shapes !! profile_name with
     | None =>
         let! df := create_loadshape_pmult_dataframe INPUT_SETTINGS
                      (LoadShape dss profile_name) in
         Return (<[profile_name := df]> load_shapes)
     | Some _ => Return load_shapes
     end in
   let! shape := dict_getitem load_shapes profile_name in
   let! contribution := PmultFrame_getitem0 (PmultFrame_mul shape kw) in
   if (len aggregate_profiles =? 0)%nat then
     let aggregate_profiles := setitem Load contribution aggregate_profiles in
     Return (aggregate_profiles, load_shapes)
   else
     let! load := getitem Load aggregate_profiles in
     let aggregate_profiles :=
       setitem Load (Series_binop PrimFloat.add load contribution) aggregate_profiles in
     Return (aggregate_profiles, load_shapes))%outcome.

(** Lines 80-94: the PV column. *)
Definition aggregate_pv (pv_systems : list string) : Outcome DataFrame :=
  let aggregate_profiles := empty_aggregate_profiles in
  let pv_shapes : gmap string PmultFrame := ∅ in
  (let! st := for_each pv_body pv_systems (aggregate_profiles, pv_shapes) in
   Return (fst st))%outcome.

(** Lines 98-110: the Load column. *)
Definition aggregate_loads (loads : list string) (aggregate_profiles : DataFrame)
    : Outcome DataFrame :=
  let load_shapes : gmap string PmultFrame := ∅ in
  (let! st := for_each load_body loads (aggregate_profiles, load_shapes) in
   Return (fst st))%outcome.

(** Lines 111-113: the derived columns, when there are PV systems. *)
Definition derive_columns (pv_systems : list string) (aggregate_profiles : DataFrame)
    : Outcome DataFrame :=
  match pv_systems with
  | [] => Return aggregate_profiles
  | _ :: _ =>
      (let! pv := getitem PV aggregate_profiles in
       let! load := getitem Load aggregate_profiles in
       let aggregate_profiles :=
         setitem PV_to_Load_Ratio (Series_binop PrimFloat.div pv load) aggregate_profiles in
       let! pv := getitem PV aggregate_profiles in
       let! load := getitem Load aggregate_profiles in
       let aggregate_profiles :=
         setitem PV_minus_Load (Series_binop PrimFloat.sub pv load) aggregate_profiles in
       Return aggregate_profiles)%outcome
  end.

(** The right-hand sides of lines 116-126. *)
Definition full_horizon (c : Column) (aggregate_profiles : DataFrame) : Outcome Series :=
  getitem c aggregate_profiles.

Definition daytime (c : Column) (aggregate_profiles : DataFrame) : Outcome Series :=
  getitem c (between_time (start_time pv_generation_hours)
               (end_time pv_generation_hours) aggregate_profiles).

Definition max_load_timepoint (aggregate_profiles : DataFrame) : Outcome Cell :=
  obind (full_horizon Load aggregate_profiles) Series_idxmax.

Definition max_pv_to_load_ratio_timepoint (aggregate_profiles : DataFrame) : Outcome Cell :=
  obind (daytime PV_to_Load_Ratio aggregate_profiles) Series_idxmax.

Definition max_pv_minus_load_timepoint (aggregate_profiles : DataFrame) : Outcome Cell :=
  obind (daytime PV_minus_Load aggregate_profiles) Series_idxmax.

Definition max_pv_timepoint (aggregate_profiles : DataFrame) : Outcome Cell :=
  obind (daytime PV aggregate_profiles) Series_idxmax.

Definition min_load_timepoint (aggregate_profiles : DataFrame) : Outcome Cell :=
  obind (full_horizon Load aggregate_profiles) Series_idxmin.

Definition min_daytime_load_timepoint (aggregate_profiles : DataFrame) : Outcome Cell :=
  obind (daytime Load aggregate_profiles) Series_idxmin.

(** Lines 115-126: the frame [timepoints], row by row. *)
Definition compute_timepoints (pv_systems : list string) (aggregate_profiles : DataFrame)
    : Outcome (list (string * Cell)) :=
  let timepoints : list (string * Cell) := [] in
  (let! v := max_load_timepoint aggregate_profiles in
   let timepoints := loc_setitem timepoints "Max Load" v in
   let! timepoints :=
     match pv_systems with
     | [] => Return timepoints
     | _ :: _ =>
         let! v := max_pv_to_load_ratio_timepoint aggregate_profiles in
         let timepoints := loc_setitem timepoints "Max PV to Load Ratio" v in
         let! v := max_pv_minus_load_timepoint aggregate_profiles in
         let timepoints := loc_setitem timepoints "Max PV minus Load" v in
         let! v := max_pv_timepoint aggregate_profiles in
         let timepoints := loc_setitem timepoints "Max PV" v in
         Return timepoints
     end in
   let! v := min_load_timepoint aggregate_profiles in
   let timepoints := loc_setitem timepoints "Min Load" v in
   let! v := min_daytime_load_timepoint aggregate_profiles in
   let timepoints := loc_setitem timepoints "Min Daytime Load" v in
   Return timepoints)%outcome.

(** Lines 95-97 *)
Definition log_no_loads (loads : list string) : M unit :=
  match loads with
  | [] => logger_info "No Loads are present" NoArgs
  | _ :: _ => M_ret tt
  end.

(** Lines 79-113: the aggregate profiles of the circuit. *)
Definition build_aggregate_profiles (pv_systems : list string) : M DataFrame :=
  (let! aggregate_profiles := lift (aggregate_pv pv_systems) in
   let loads := Loads_AllNames dss in
   let! _ := log_no_loads loads in
   let! aggregate_profiles := lift (aggregate_loads loads aggregate_profiles) in
   lift (derive_columns pv_systems aggregate_profiles))%M.

Definition get_snapshot_timepoint (mode : SnapshotTimePointSelectionMode)
    (output_filename : string) : M Cell :=
  let pv_systems := PVsystems_AllNames dss in
  (let! mode := resolve_mode pv_systems mode in
   let! column := lift (select_column mode) in
   let! aggregate_profiles := build_aggregate_profiles pv_systems in
   let! timepoints := lift (compute_timepoints pv_systems aggregate_profiles) in
   let! _ := logger_info "Time points: %s" (TimepointsArg timepoints) in
   let! _ := dump_data (to_dict_index timepoints) output_filename 2 in
   lift (loc_getitem timepoints column))%M.

(** The aggregation with no cache of shapes: every device materialises its
    shape anew.  Written to be compared with [aggregate_pv] and
    [aggregate_loads]. *)
Definition pv_body_uncached (aggregate_profiles : DataFrame) (pv_name : string)
    : Outcome DataFrame :=
  let pmpp := PVsystem_Pmpp dss pv_name in
  let profile_name := PVsystem_yearly dss pv_name in
  (let! shape := create_loadshape_pmult_dataframe INPUT_SETTINGS
                   (LoadShape dss profile_name) in
   let! contribution := PmultFrame_getitem0 (PmultFrame_mul shape pmpp) in
   if (len aggregate_profiles =? 0)%nat then
     Return (replace_nan_0 (setitem PV contribution aggregate_profiles))
   else
     let! pv := getitem PV aggregate_profiles in
     Return (setitem PV (Series_binop PrimFloat.add pv contribution) aggregate_profiles))%outcome.

Definition load_body_uncached (aggregate_profiles : DataFrame) (load_name : string)
    : Outcome DataFrame :=
  let kw := Load_kW dss load_name in
  let profile_name := Load_yearly dss load_name in
  (let! shape := create_loadshape_pmult_dataframe INPUT_SETTINGS
                   (LoadShape dss profile_name) in
   let! contribution := PmultFrame_getitem0 (PmultFrame_mul shape kw) in
   if (len aggregate_profiles =? 0)%nat then
     Return (setitem Load contribution aggregate_profiles)
   else
     let! load := getitem Load aggregate_profiles in
     Return (setitem Load (Series_binop PrimFloat.add load contribution) aggregate_profiles))%outcome.

Definition aggregate_pv_uncached (pv_systems : list string) : Outcome DataFrame :=
  for_each pv_body_uncached pv_systems empty_aggregate_profiles.

Definition aggregate_loads_uncached (loads : list string) (aggregate_profiles : DataFrame)
    : Outcome DataFrame :=
  for_each load_body_uncached loads aggregate_profiles.

End GetSnapshotTimepoint.

Definition empty_world : World := mkWorld [] ∅.

(** * Error codes ([disco/exceptions.py], lines 62-130) *)

(** A class handed to [get_error_code_from_exception]: a class of the
    module, a class some other module derives from [base], or a class that
    has no base in the module (Python's own exceptions, [JadeBaseException]).
    A class is known by its qualified name. *)
Inductive PyClass :=
| DiscoClass (c : DiscoExceptionClass)
| DerivedClass (qualname : string) (base : PyClass)
| ForeignClass (qualname : string).

(** [issubclass(cls, DiscoBaseException)]: every class of the module
    derives from [DiscoBaseException] (lines 6-59). *)
Fixpoint issubclass_DiscoBaseException (cls : PyClass) : bool :=
  match cls with
  | DiscoClass _ => true
  | DerivedClass _ base => issubclass_DiscoBaseException base
  | ForeignClass _ => false
  end.

(** [str(cls)] *)
Definition class_str (cls : PyClass) : string :=
  match cls with
  | DiscoClass c => "<class 'disco.exceptions." ++ disco_class_name c ++ "'>"
  | DerivedClass qualname _ => "<class '" ++ qualname ++ "'>"
  | ForeignClass qualname => "<class '" ++ qualname ++ "'>"
  end.

(** An item of [EXCEPTIONS_TO_ERROR_CODES]; no item of the table has the
    key ["corrective_action"] that [generate_return_codes] asks for. *)
Record ErrorCodeItem := mkErrorCodeItem {
  description : string;
  error_code : Z;
  corrective_action : option string
}.

(** Lines 62-113, in the order of the dictionary. *)
Definition EXCEPTIONS_TO_ERROR_CODES : list (DiscoExceptionClass * ErrorCodeItem) :=
  [ (AnalysisConfigurationException,
     mkErrorCodeItem "The input configuration is invalid." 114 None);
    (ExceededParallelLinesLimit,
     mkErrorCodeItem "An Upgrades simulation exceeded the limit for parallel lines."
       115 None);
    (ExceededParallelTransformersLimit,
     mkErrorCodeItem
       "An Upgrades simulation exceeded the limit for parallel transformers." 116 None);
    (InvalidOpenDssElementError,
     mkErrorCodeItem "An OpenDSS element has unexpected properties." 117 None);
    (OpenDssCompileError,
     mkErrorCodeItem "OpenDSS failed to compile a model." 118 None);
    (OpenDssConvergenceError,
     mkErrorCodeItem "OpenDSS failed to find a solution." 119 None);
    (PyDssConvergenceError,
     mkErrorCodeItem "PyDSS failed to find a solution in its external controls."
       120 None);
    (PyDssConvergenceErrorCountExceeded,
     mkErrorCodeItem
       "PyDSS external controls exceeded the threshold for error counts." 121 None);
    (PyDssConvergenceMaxError,
     mkErrorCodeItem
       "PyDSS external controls exceeded the max tolerance error threshold." 122 None);
    (UpgradesExternalCatalogRequired,
     mkErrorCodeItem
       "An Upgrades simulation requires an external catalog in order to add or modify a component."
       123 None);
    (UpgradesExternalCatalogMissingEquipmentType,
     mkErrorCodeItem "The Upgrades external catalog is missing an equipment type."
       124 None);
    (UpgradesInvalidViolationIncrease,
     mkErrorCodeItem
       "An Upgrades simulation detected an invalid increase in violations." 125 None) ].

(** Two classes of the module are the same class when they have the same
    name. *)
Definition disco_class_eqb (a b : DiscoExceptionClass) : bool :=
  String.eqb (disco_class_name a) (disco_class_name b).

(** [d.get(cls)] on a dictionary keyed by classes of the module. *)
Fixpoint class_dict_get {V} (d : list (DiscoExceptionClass * V)) (cls : PyClass)
    : option V :=
  match d with
  | [] => None
  | (k, v) :: d' =>
      match cls with
      | DiscoClass c => if disco_class_eqb k c then Some v else class_dict_get d' cls
      | _ => None
      end
  end.

(** What [get_error_code_from_exception] raises is a plain [Exception]. *)
Inductive PlainException := Exception (msg : string).

(** Lines 116-125 *)
Definition get_error_code_from_exception (exception_class : PyClass)
    : Z + PlainException :=
  if negb (issubclass_DiscoBaseException exception_class) then
    inr (Exception ("exception=" ++ class_str exception_class ++ " is not handled"))
  else
    match class_dict_get EXCEPTIONS_TO_ERROR_CODES exception_class with
    | Some item => inl (error_code item)
    | None => inl 1
    end.

(** Lines 128-130 *)
Definition is_convergence_error (error_code : Z) : bool :=
  bool_decide (error_code ∈ ({[119; 120; 121; 122]} : gset Z)).

(** * The table of return codes ([docs/generate_tables.py], lines 21-39) *)

(** A [pathlib.Path] by its parts; [dir / name]. *)
Definition Path := list string.

Definition path_div (dir : Path) (name : string) : Path := dir ++ [name].

(** The characters of a string, as Python iterates over it. *)
Fixpoint chars (s : string) : list string :=
  match s with
  | EmptyString => []
  | String c s' => String c EmptyString :: chars s'
  end.

Definition TAB : string := String (Ascii.ascii_of_nat 9) EmptyString.
Definition NEWLINE : string := String (Ascii.ascii_of_nat 10) EmptyString.
Definition QUOTE : string := String (Ascii.ascii_of_nat 34) EmptyString.

(** [f_out.write(s)] on the text written so far. *)
Definition write (s : string) (f_out : string) : string := f_out ++ s.

(** A string is true when it is not empty. *)
Definition str_bool (s : string) : bool :=
  match s with EmptyString => false | String _ _ => true end.

(** Lines 29-39, the body of the loop over the items. *)
Definition write_item (f_out : string) (item : ErrorCodeItem) : string :=
  let f_out := write (pretty (error_code item)) f_out in
  let f_out := write "," f_out in
  let f_out := write QUOTE f_out in
  let f_out := write (description item) f_out in
  let f_out := write QUOTE f_out in
  let f_out :=
    match corrective_action item with
    | Some action =>
        if str_bool action then
          let f_out := write "," f_out in
          let f_out := write QUOTE f_out in
          let f_out := write action f_out in
          write QUOTE f_out
        else f_out
    | None => f_out
    end in
  write NEWLINE f_out.

(** The text files of the documentation directory, by path.  Opening a file
    for writing starts it empty; the directory is made by the caller. *)
Definition generate_return_codes (output_dir : Path) (fs : gmap Path string)
    : gmap Path string :=
  let output_file := path_div output_dir "return_codes.csv" in
  let f_out := EmptyString in
  let header := "Return Code,Description,Corrective Action" in
  let f_out := write (String.concat TAB (chars header) ++ NEWLINE) f_out in
  let f_out := write ("0,Success," ++ NEWLINE) f_out in
  let f_out := write ("1,Generic error," ++ NEWLINE) f_out in
  let f_out := fold_left write_item (map snd EXCEPTIONS_TO_ERROR_CODES) f_out in
  <[output_file := f_out]> fs.

(** * Solving with the PyDSS controls
    ([disco/extensions/upgrade_simulation/upgrades/pydss_parameters.py], lines 29-36) *)

(** The controller manager of PyDSS: what its [run_controls()] answers is
    the manager's; the circuit it solves is outside the model. *)
Record ControllerManager := mkControllerManager {
  run_controls : Outcome bool
}.

(** [logger.debug(msg)] *)
Definition logger_debug (msg : string) : M unit :=
  fun w => (mkWorld (log w ++ [mkLogRecord "DEBUG" msg NoArgs]) (files w), Return tt).

(** The keyword arguments are read at ["pydss_controller_manager"] only. *)
Definition pydss_solve_and_check (raise_exception : bool)
    (kwargs : gmap string ControllerManager) : M bool :=
  (let! _ := logger_debug "Solving circuit using PyDSS controls" in
   let! manager := lift (dict_getitem kwargs "pydss_controller_manager") in
   let! pydss_pass_flag := lift (run_controls manager) in
   let! _ :=
     if negb pydss_pass_flag then
       let! _ := logger_info "PyDSS Convergence Error" NoArgs in
       if raise_exception then
         lift (Raise (DiscoException PyDssConvergenceError
                        "PyDSS solution did not converge"))
       else M_ret tt
     else M_ret tt in
   M_ret pydss_pass_flag)%M.

(** * Pipeline templates ([disco/pipelines/base.py], lines 14-136)

    A template is the dictionary [load_data] reads from the template file.
    Its sections ("model", "prescreen", "simulation", "postprocess", as
    [TemplateSection] names them) are dictionaries from a kind of
    parameters (a value of [TemplateParams]) to a dictionary of parameters.
    The two enumerations live in [disco.pipelines.enums]; their values are
    left open below.  The other entries of a template ("inputs",
    "preconfigured", ...) are not read by the methods embedded here. *)

(** The value of a parameter: what a template file gives for an option of
    a command.  (Numbers with a fraction and lists are not covered.) *)
Inductive Value :=
| VNone
| VBool (b : bool)
| VInt (n : Z)
| VStr (s : string).

(** A dictionary of parameters, in the order of its keys. *)
Abbreviation Params := (list (string * Value)).

(** [params[param]] *)
Fixpoint params_getitem (params : Params) (param : string) : Outcome Value :=
  match params with
  | [] => Raise (KeyError param)
  | (k, v) :: params' =>
      if String.eqb k param then Return v else params_getitem params' param
  end.

(** [params[param] = value] *)
Fixpoint params_setitem (params : Params) (param : string) (value : Value) : Params :=
  match params with
  | [] => [(param, value)]
  | (k, v) :: params' =>
      if String.eqb k param then (k, value) :: params'
      else (k, v) :: params_setitem params' param value
  end.

(** [value == "null"] *)
Definition eq_null (value : Value) : bool :=
  match value with
  | VStr s => String.eqb s "null"
  | _ => false
  end.

(** [value is False], [value is None], [value is True] *)
Definition is_False (value : Value) : bool :=
  match value with VBool false => true | _ => false end.

Definition is_None (value : Value) : bool :=
  match value with VNone => true | _ => false end.

Definition is_True (value : Value) : bool :=
  match value with VBool true => true | _ => false end.

(** The text an f-string makes of a value, and the name of its type. *)
Definition value_str (value : Value) : string :=
  match value with
  | VNone => "None"
  | VBool true => "True"
  | VBool false => "False"
  | VInt n => pretty n
  | VStr s => s
  end.

Definition type_name (value : Value) : string :=
  match value with
  | VNone => "NoneType"
  | VBool _ => "bool"
  | VInt _ => "int"
  | VStr _ => "str"
  end.

(** [s.replace(old, new)] for single characters. *)
Fixpoint str_replace (old new : Ascii.ascii) (s : string) : string :=
  match s with
  | EmptyString => EmptyString
  | String c s' =>
      String (if Ascii.eqb c old then new else c) (str_replace old new s')
  end.

Definition UNDERSCORE : Ascii.ascii := Ascii.ascii_of_nat 95.
Definition DASH : Ascii.ascii := Ascii.ascii_of_nat 45.

(** [s.endswith("/")] *)
Fixpoint endswith_slash (s : string) : bool :=
  match s with
  | EmptyString => false
  | String c EmptyString => Ascii.eqb c (Ascii.ascii_of_nat 47)
  | String _ s' => endswith_slash s'
  end.

(** [os.path.join(a, b)] of [posixpath], for a string [a]. *)
Definition os_path_join (a : string) (b : Value) : Outcome string :=
  match b with
  | VStr b =>
      if String.prefix "/" b then Return b
      else if negb (str_bool a) || endswith_slash a then Return (a ++ b)%string
      else Return (a ++ "/" ++ b)%string
  | _ =>
      Raise (TypeError ("join() argument must be str, bytes, or os.PathLike object, not '"
                        ++ type_name b ++ "'"))
  end.

(** Lines 57-59: the loop that replaces ["null"] by [None]. *)
Definition null_to_None (params : Params) (item : string * Value) : Params :=
  if eq_null (snd item) then params_setitem params (fst item) VNone else params.

Definition nulls_to_None (params : Params) : Params :=
  fold_left null_to_None params params.

(** Lines 88-95, the body of the loop of [_construct_options_string]. *)
Definition append_option (temp : list string) (item : string * Value) : list string :=
  let param := fst item in
  let value := snd item in
  if eq_null value || is_False value || is_None value then temp
  else
    let dash_param := ("--" ++ str_replace UNDERSCORE DASH param)%string in
    if is_True value then temp ++ [dash_param]
    else temp ++ [(dash_param ++ "=" ++ value_str value)%string].

(** Lines 85-97 *)
Definition _construct_options_string (params : Params) : string :=
  let temp := fold_left append_option params [] in
  let options := String.concat " " temp in
  options.

(** The data of a template: section, kind of parameters, parameters. *)
Abbreviation TemplateData := (gmap string (gmap string Params)).

(** The dictionary of parameters stored under a section and a kind: the
    object that [get_command_params] returns and that its callers change
    in place. *)
Definition stored_params (section params_type : string) (data : TemplateData)
    : option Params :=
  data !! section ≫= fun sec => sec !! params_type.

Definition store_params (section params_type : string) (params : Params)
    (data : TemplateData) : TemplateData :=
  match data !! section with
  | Some sec => <[section := <[params_type := params]> sec]> data
  | None => data
  end.

(** Lines 46-60; [section] and [params_type] are the values of the
    enumeration members.  The dictionary returned is the one of the
    template, which the loop has changed. *)
Definition get_command_params (section params_type : string) (data : TemplateData)
    : Outcome (Params * TemplateData) :=
  (let! sec := dict_getitem data section in
   match sec !! params_type with
   | None =>
       Raise (KeyError ("Template section '" ++ section ++ "' does not contain '"
                        ++ params_type ++ "'."))
   | Some params =>
       let params := nulls_to_None params in
       Return (params, store_params section params_type params data)
   end)%outcome.

(** Lines 74-83 *)
Definition get_command_options (section params_type : string) (data : TemplateData)
    : Outcome string :=
  (let! sec := dict_getitem data section in
   let! params := dict_getitem sec params_type in
   let options := _construct_options_string params in
   Return options)%outcome.

(** Lines 120-125 *)
Definition remove_section (section : string) (data : TemplateData) : TemplateData :=
  match data !! section with
  | Some _ => delete section data
  | None => data
  end.

(** Lines 127-133 *)
Definition remove_params (section params_type : string) (data : TemplateData)
    : TemplateData :=
  match data !! section with
  | Some sec =>
      match sec !! params_type with
      | Some _ => <[section := delete params_type sec]> data
      | None => data
      end
  | None => data
  end.

Section PipelineTemplate.

(** The values of [TemplateSection.MODEL], [TemplateSection.PRESCREEN],
    [TemplateSection.POSTPROCESS] and of [TemplateParams.TRANSFORM_PARAMS],
    [TemplateParams.CONFIG_PARAMS], [TemplateParams.SUMITTER_PARAMS]. *)
Variables MODEL PRESCREEN POSTPROCESS : string.
Variables TRANSFORM_PARAMS CONFIG_PARAMS SUMITTER_PARAMS : string.

(** Lines 37-41 *)
Definition contains_prescreen (data : TemplateData) : bool :=
  bool_decide (is_Some (data !! PRESCREEN)).

Definition contains_postprocess (data : TemplateData) : bool :=
  bool_decide (is_Some (data !! POSTPROCESS)).

(** Lines 62-63 *)
Definition get_transform_params (section : string) (data : TemplateData)
    : Outcome (Params * TemplateData) :=
  get_command_params section TRANSFORM_PARAMS data.

(** Lines 99-106; [environ] is [os.environ]. *)
Definition get_model_transform_output (environ : gmap string string)
    (data : TemplateData) : Outcome (string * TemplateData) :=
  let pipeline_output :=
    match environ !! "JADE_PIPELINE_OUTPUT_DIR" with
    | Some dir => dir
    | None => "$JADE_PIPELINE_OUTPUT_DIR"
    end in
  (let! r := get_transform_params MODEL data in
   let params := fst r in
   let data := snd r in
   let! value := params_getitem params "output" in
   let! output := os_path_join pipeline_output value in
   Return (output, data))%outcome.

(** Lines 108-112: the parameters are those of the section "model",
    whatever [section] is, and the assignment to [params["output"]] changes
    the dictionary of the template. *)
Definition get_transform_options (section : string) (data : TemplateData)
    : Outcome (string * TemplateData) :=
  (let! r := get_transform_params MODEL data in
   let params := fst r in
   let data := snd r in
   let! value := params_getitem params "output" in
   let! output := os_path_join "$JADE_PIPELINE_OUTPUT_DIR" value in
   let params := params_setitem params "output" (VStr output) in
   let data := store_params MODEL TRANSFORM_PARAMS params data in
   let options := _construct_options_string params in
   Return (options, data))%outcome.

(** Lines 114-118 *)
Definition get_config_options (section : string) (data : TemplateData) : Outcome string :=
  get_command_options section CONFIG_PARAMS data.

Definition get_submitter_options (section : string) (data : TemplateData)
    : Outcome string :=
  get_command_options section SUMITTER_PARAMS data.

End PipelineTemplate.

(** * The vocabulary of the properties *)

(** ** The order of binary64 values

    [x <= y] and [x < y] as pandas and numpy decide them: false as soon as
    one side is NaN. *)

Definition sf_notnan (a : spec_float) : bool :=
  match a with S754_nan => false | _ => true end.

Definition float_notnan (x : float) : Prop := PrimFloat.is_nan x = false.
Definition float_le (x y : float) : Prop := PrimFloat.leb x y = true.
Definition float_lt (x y : float) : Prop := PrimFloat.ltb x y = true.

(** ** Extrema of a list

    The scan of [argmax_scan] and [argmin_scan] with the comparison left
    open: [keep x mp] tells that the extremum [mp] stays when [x] is met. *)
Fixpoint scan (keep : float -> float -> bool) (mp : float) (ind i : nat)
    (ip : list float) : nat :=
  match ip with
  | [] => ind
  | x :: ip' =>
      if negb (keep x mp) then scan keep x i (S i) ip'
      else scan keep mp ind (S i) ip'
  end.

(** Position [r] holds a best value of [l] for the order [ble], and every
    position before [r] holds a strictly worse one. *)
Definition first_best (ble blt : float -> float -> Prop) (l : list float) (r : nat) : Prop :=
  exists m, l !! r = Some m /\
    forall j v, l !! j = Some v -> ble v m /\ ((j < r)%nat -> blt v m).

(** Position [r] holds a greatest value of [l], and every position before
    [r] holds a strictly smaller one. *)
Definition first_max (l : list float) (r : nat) : Prop :=
  exists m, l !! r = Some m /\
    forall j v, l !! j = Some v ->
      float_le v m /\ ((j < r)%nat -> float_lt v m).

(** Position [r] holds a least value of [l], and every position before [r]
    holds a strictly greater one. *)
Definition first_min (l : list float) (r : nat) : Prop :=
  exists m, l !! r = Some m /\
    forall j v, l !! j = Some v ->
      float_le m v /\ ((j < r)%nat -> float_lt m v).

(** ** Columns, reports and log records *)

(** The (label, value) pairs of column [c]: the items of [df[c]]. *)
Definition column_items (c : Column) (rs : list (Timestamp * Row))
    : list (Timestamp * float) :=
  map (fun p => (fst p, cell c (snd p))) rs.

(** The record [logger.info(fmt, args)] appends to the log. *)
Definition info (fmt : string) (args : LogArgs) : LogRecord :=
  mkLogRecord "INFO" fmt args.

(** The keys of a dumped dictionary, in their order. *)
Definition report_keys (j : Json) : list string :=
  match j with
  | JObject members => map fst members
  | JString _ => []
  end.

(** The member of a dumped dictionary under [key]. *)
Definition json_member (key : string) (j : Json) : option Json :=
  match j with
  | JObject members => snd <$> List.find (fun p => String.eqb (fst p) key) members
  | JString _ => None
  end.

(** The criteria computed without PV systems, and with them. *)
Definition load_criteria : list string :=
  ["Max Load"; "Min Load"; "Min Daytime Load"].

Definition all_criteria : list string :=
  ["Max Load"; "Max PV to Load Ratio"; "Max PV minus Load"; "Max PV";
   "Min Load"; "Min Daytime Load"].

(** ** The aggregation without the cache, and what the loops maintain *)

(** Lines 79-113 with the uncached loops. *)
Definition build_aggregate_profiles_uncached (dss : OpenDSS) (settings : Settings)
    (pv_systems : list string) : M DataFrame :=
  (let! aggregate_profiles := lift (aggregate_pv_uncached dss settings pv_systems) in
   let loads := Loads_AllNames dss in
   let! _ := log_no_loads loads in
   let! aggregate_profiles :=
     lift (aggregate_loads_uncached dss settings loads aggregate_profiles) in
   lift (derive_columns pv_systems aggregate_profiles))%M.

(** ** The daily window *)

(** The time of day of [t] lies in [pv_generation_hours]. *)
Definition in_pv_generation_hours (t : Timestamp) : bool :=
  in_time_window (start_time pv_generation_hours) (end_time pv_generation_hours) t.

(** [t] is the label [idxmax] answers on the rows of the daily window:
    it lies in the window, its value in column [c] (NaN read as [-inf]) is
    greatest among the rows of the window, and it is the earliest such
    timestamp. *)
Definition earliest_max_in_window (c : Column) (df : DataFrame) (t : Timestamp) : Prop :=
  time_of_day 8 0 <= time_micros t <= time_of_day 17 0 /\
  exists r : Row, (t, r) ∈ rows df /\
    forall (t' : Timestamp) (r' : Row),
      (t', r') ∈ rows df ->
      time_of_day 8 0 <= time_micros t' <= time_of_day 17 0 ->
      float_le (fill_nan neg_infinity (cell c r')) (fill_nan neg_infinity (cell c r)) /\
      (float_le (fill_nan neg_infinity (cell c r)) (fill_nan neg_infinity (cell c r')) ->
       t <= t').

(** The same for [idxmin], NaN read as [+inf]. *)
Definition earliest_min_in_window (c : Column) (df : DataFrame) (t : Timestamp) : Prop :=
  time_of_day 8 0 <= time_micros t <= time_of_day 17 0 /\
  exists r : Row, (t, r) ∈ rows df /\
    forall (t' : Timestamp) (r' : Row),
      (t', r') ∈ rows df ->
      time_of_day 8 0 <= time_micros t' <= time_of_day 17 0 ->
      float_le (fill_nan infinity (cell c r)) (fill_nan infinity (cell c r')) /\
      (float_le (fill_nan infinity (cell c r')) (fill_nan infinity (cell c r)) ->
       t <= t').

(** The frame after the PV loop has run at least once. *)
Definition after_pv (df : DataFrame) : Prop :=
  rows df <> [] /\ dtype_Load df = Some float64 /\ dtype_PV df = Some float64.

(** The frame once any device has contributed. *)
Definition populated (df : DataFrame) : Prop :=
  rows df <> [] /\ dtype_Load df = Some float64.


(** The derived cells of a row. *)
Definition derived_row (r : Row) : Row :=
  mkRow (row_Load r) (row_PV r)
    (PrimFloat.div (row_PV r) (row_Load r))
    (PrimFloat.sub (row_PV r) (row_Load r)).

(** ** Exceptions and outcomes *)

(** [e] is no exception of DISCO. *)
Definition builtin_exception (e : PyException) : Prop :=
  match e with
  | DiscoException _ _ => False
  | _ => True
  end.

Definition raises_builtin {A} (o : Outcome A) : Prop :=
  match o with
  | Return _ => True
  | Raise e => builtin_exception e
  end.

(** The outcome of lines 79-113 and of the whole call, without the log and
    the files. *)
Definition aggregate_outcome (dss : OpenDSS) (settings : Settings) : Outcome DataFrame :=
  (let! agg := aggregate_pv dss settings (PVsystems_AllNames dss) in
   let! agg := aggregate_loads dss settings (Loads_AllNames dss) agg in
   derive_columns (PVsystems_AllNames dss) agg)%outcome.

Definition selection_outcome (dss : OpenDSS) (settings : Settings)
    (effective_mode : SnapshotTimePointSelectionMode) : Outcome Cell :=
  (let! column := select_column effective_mode in
   let! df := aggregate_outcome dss settings in
   let! tps := compute_timepoints (PVsystems_AllNames dss) df in
   loc_getitem tps column)%outcome.


(** Every frame in the cache is the frame its shape materialises to. *)
Definition cache_valid (dss : OpenDSS) (settings : Settings)
    (cache : gmap string PmultFrame) : Prop :=
  forall (name : string) (f : PmultFrame),
    cache !! name = Some f ->
    create_loadshape_pmult_dataframe settings (LoadShape dss name) = Return f.

(** The state of a cached loop against the state of the uncached one. *)
Definition same_profiles (dss : OpenDSS) (settings : Settings)
    (o : Outcome (DataFrame * gmap string PmultFrame))
    (o' : Outcome DataFrame) : Prop :=
  match o, o' with
  | Return st, Return df => fst st = df /\ cache_valid dss settings (snd st)
  | Raise e, Raise e' => e = e'
  | _, _ => False
  end.

(** ** Error codes and the table of return codes *)

(** The classes whose failure is a failure to converge. *)
Definition convergence_classes : list PyClass :=
  [DiscoClass OpenDssConvergenceError; DiscoClass PyDssConvergenceError;
   DiscoClass PyDssConvergenceErrorCountExceeded; DiscoClass PyDssConvergenceMaxError].

(** [text.split(NEWLINE)]: the lines of a text, the last one empty when the
    text ends with a newline. *)
Fixpoint split_newline (s : string) : list string :=
  match s with
  | EmptyString => [EmptyString]
  | String c s' =>
      if Ascii.eqb c (Ascii.ascii_of_nat 10) then EmptyString :: split_newline s'
      else
        match split_newline s' with
        | [] => [String c EmptyString]
        | l :: ls => String c l :: ls
        end
  end.

(** The header [generate_return_codes] means to write. *)
Definition return_codes_header : string := "Return Code,Description,Corrective Action".

(** The file [generate_return_codes] writes in [output_dir]. *)
Definition return_codes_csv (output_dir : Path) : Path :=
  path_div output_dir "return_codes.csv".

(** A row of the table for the code [n]: a line that starts with the code
    and a comma. *)
Definition row_of_code (n : Z) (line : string) : Prop :=
  String.prefix (pretty n ++ ",") line = true.

(** The codes of the rows, as the rows are checked below. *)
Definition is_row_of_some_code (line : string) : bool :=
  match line with
  | EmptyString => true
  | _ =>
      existsb (fun n => String.prefix (pretty n ++ ",") line)
        [0; 1; 114; 115; 116; 117; 118; 119; 120; 121; 122; 123; 124; 125]
  end.

(** The text of the table, as the code writes it. *)
Definition return_codes_text : string :=
  Eval vm_compute in
    default EmptyString (generate_return_codes [] ∅ !! return_codes_csv []).

(** ** The grid of a load shape and the criterion of a mode *)

(** The timestamps of a load shape, from the start time of the settings. *)
Definition grid (settings : Settings) (shape : LoadShapeData) : list Timestamp :=
  indices (loadshape_start_time settings) (SInterval shape) (Npts shape).

(** The shape of the device that contributes first: the first PV system,
    or the first load of a circuit without PV systems. *)
Definition first_shape (dss : OpenDSS) : option LoadShapeData :=
  match PVsystems_AllNames dss, Loads_AllNames dss with
  | p :: _, _ => Some (LoadShape dss (PVsystem_yearly dss p))
  | [], l :: _ => Some (LoadShape dss (Load_yearly dss l))
  | [], [] => None
  end.

(** The mode a call works with (lines 63-67). *)
Definition effective_mode (dss : OpenDSS) (mode : SnapshotTimePointSelectionMode)
    : SnapshotTimePointSelectionMode :=
  match PVsystems_AllNames dss with [] => MAX_LOAD | _ :: _ => mode end.

(** The criterion a mode stands for, on the aggregate profiles. *)
Definition criterion_of_mode (mode : SnapshotTimePointSelectionMode)
    (aggregate_profiles : DataFrame) : Outcome Cell :=
  match mode with
  | MAX_LOAD => max_load_timepoint aggregate_profiles
  | MAX_PV_LOAD_RATIO => max_pv_to_load_ratio_timepoint aggregate_profiles
  | DAYTIME_MIN_LOAD => min_daytime_load_timepoint aggregate_profiles
  | MAX_PV_MINUS_LOAD => max_pv_minus_load_timepoint aggregate_profiles
  | NONE => Raise (AssertionError (mode_str mode ++ " is not supported"))
  end.

(** ** Circuits whose shapes share one grid *)









(** Every Load cell of the frame under the label [t] is NaN. *)
Definition load_nan_at (df : DataFrame) (t : Timestamp) : Prop :=
  forall r : Row, (t, r) ∈ rows df -> PrimFloat.is_nan (row_Load r) = true.

(** ** Pipeline templates *)

(** The keys of a dictionary of parameters are distinct. *)
Definition distinct_keys (params : Params) : Prop := NoDup (map fst params).

(** An item with ["null"] read as [None]. *)
Definition null_item (item : string * Value) : string * Value :=
  if eq_null (snd item) then (fst item, VNone) else item.

(** The message of the [KeyError] of [get_command_params]. *)
Definition does_not_contain (section params_type : string) : string :=
  "Template section '" ++ section ++ "' does not contain '" ++ params_type ++ "'.".

(** The directory [get_transform_options] puts before the output. *)
Definition JADE_PIPELINE_OUTPUT_DIR : string := "$JADE_PIPELINE_OUTPUT_DIR".

(** [output] behind the directory, as [os.path.join] puts it. *)
Definition prefixed (output : string) : string :=
  (JADE_PIPELINE_OUTPUT_DIR ++ "/" ++ output)%string.

(** * Circuits used as instances *)

(** One PV system (Pmpp 5) and one load (kW 10) on the shape ["S1"], four
    hourly points from midnight. *)
Definition hourly : Timedelta := 3600 * 1000000.

Definition S1 : LoadShapeData :=
  mkLoadShapeData [0.2; 0.8; 1.0; 0.3]%float hourly 4.

Definition no_shape : LoadShapeData := mkLoadShapeData [] hourly 0.

Definition one_pv_one_load : OpenDSS :=
  mkOpenDSS
    ["pv1"]
    (fun name => if String.eqb name "pv1" then 5%float else nan)
    (fun name => if String.eqb name "pv1" then "S1" else "")
    ["load1"]
    (fun name => if String.eqb name "load1" then 10%float else nan)
    (fun name => if String.eqb name "load1" then "S1" else "")
    (fun name => if String.eqb name "S1" then S1 else no_shape).

Definition from_2020_01_01 : Settings := mkSettings (datetime 2020 1 1 0 0).


(** One load and no PV system, four hourly points from 08:00. *)
Definition DEMAND : LoadShapeData :=
  mkLoadShapeData [5; 3; 9; 1]%float hourly 4.

Definition load_only : OpenDSS :=
  mkOpenDSS
    []
    (fun _ => nan)
    (fun _ => "")
    ["load1"]
    (fun name => if String.eqb name "load1" then 1%float else nan)
    (fun name => if String.eqb name "load1" then "DEMAND" else "")
    (fun name => if String.eqb name "DEMAND" then DEMAND else no_shape).

Definition from_2020_01_01_08 : Settings := mkSettings (datetime 2020 1 1 8 0).

(** One PV system, and one load that is idle in the first hour; three
    hourly points from 08:00. *)
Definition SUN : LoadShapeData :=
  mkLoadShapeData [1; 1; 0.5]%float hourly 3.

Definition IDLE_THEN_ON : LoadShapeData :=
  mkLoadShapeData [0; 1; 1]%float hourly 3.

Definition pv_with_idle_load : OpenDSS :=
  mkOpenDSS
    ["pv1"]
    (fun name => if String.eqb name "pv1" then 5%float else nan)
    (fun name => if String.eqb name "pv1" then "SUN" else "")
    ["load1"]
    (fun name => if String.eqb name "load1" then 10%float else nan)
    (fun name => if String.eqb name "load1" then "IDLE_THEN_ON" else "")
    (fun name =>
       if String.eqb name "SUN" then SUN
       else if String.eqb name "IDLE_THEN_ON" then IDLE_THEN_ON
       else no_shape).

(** The aggregate profiles and the candidates of this circuit, as the code
    computes them. *)
Definition pv_with_idle_load_profiles : DataFrame :=
  Eval vm_compute in
    match build_aggregate_profiles pv_with_idle_load from_2020_01_01_08
            (PVsystems_AllNames pv_with_idle_load) empty_world with
    | (_, Return df) => df
    | (_, Raise _) => empty_aggregate_profiles
    end.

Definition pv_with_idle_load_timepoints : list (string * Cell) :=
  Eval vm_compute in
    match compute_timepoints (PVsystems_AllNames pv_with_idle_load)
            pv_with_idle_load_profiles with
    | Return tps => tps
    | Raise _ => []
    end.


(** Two PV systems on one shape: the second takes the frame of the shape
    from the cache, and the contributions add up. *)
Definition two_pv_one_shape : OpenDSS :=
  mkOpenDSS
    ["pv1"; "pv2"]
    (fun name => if String.eqb name "pv1" then 5%float
                 else if String.eqb name "pv2" then 3%float else nan)
    (fun name => if String.eqb name "pv1" then "S1"
                 else if String.eqb name "pv2" then "S1" else "")
    []
    (fun _ => nan)
    (fun _ => "")
    (fun name => if String.eqb name "S1" then S1 else no_shape).

(** One PV system on three hourly points and one load whose shape has
    three points two hours apart: the load has no value at 09:00. *)
Definition EVERY_OTHER_HOUR : LoadShapeData :=
  mkLoadShapeData [1; 1; 1]%float (2 * hourly) 3.

Definition pv_with_sparse_load : OpenDSS :=
  mkOpenDSS
    ["pv1"]
    (fun name => if String.eqb name "pv1" then 5%float else nan)
    (fun name => if String.eqb name "pv1" then "SUN" else "")
    ["load1"]
    (fun name => if String.eqb name "load1" then 10%float else nan)
    (fun name => if String.eqb name "load1" then "EVERY_OTHER_HOUR" else "")
    (fun name =>
       if String.eqb name "SUN" then SUN
       else if String.eqb name "EVERY_OTHER_HOUR" then EVERY_OTHER_HOUR
       else no_shape).

(** The frame of this circuit after the loop over the PV systems, and after
    the loop over the loads, as the code computes them. *)
Definition pv_with_sparse_load_after_pv : DataFrame :=
  Eval vm_compute in
    match aggregate_pv pv_with_sparse_load from_2020_01_01_08
            (PVsystems_AllNames pv_with_sparse_load) with
    | Return df => df
    | Raise _ => empty_aggregate_profiles
    end.

Definition pv_with_sparse_load_after_loads : DataFrame :=
  Eval vm_compute in
    match aggregate_loads pv_with_sparse_load from_2020_01_01_08
            (Loads_AllNames pv_with_sparse_load) pv_with_sparse_load_after_pv with
    | Return df => df
    | Raise _ => empty_aggregate_profiles
    end.

(** A template whose section "model" has transform parameters with a
    relative output, and what [get_transform_options] answers on it. *)
Definition template_with_output : TemplateData :=
  {["model" := {["transform-params" :=
      [("output", VStr "models"); ("force", VStr "null")]]}]}.

Definition transform_options_of_template : string * TemplateData :=
  match get_transform_options "model" "transform-params" "simulation"
          template_with_output with
  | Return r => r
  | Raise _ => (EmptyString, ∅)
  end.

(** * Properties of the embedding *)

(** ** The order of binary64 values

    [PrimFloat.leb] and [PrimFloat.ltb] are specified by [SFleb] and
    [SFltb] on [spec_float]; the facts that an argmax scan needs are proved
    there and transported. *)
Module FloatOrder.

Ltac sf_cases :=
  repeat match goal with
  | s : bool |- _ => destruct s
  | |- context [Z.compare ?a ?b] => destruct (Z.compare_spec a b)
  | |- context [PosDef.Pos.compare_cont Eq ?a ?b] =>
      change (PosDef.Pos.compare_cont Eq a b) with (Pos.compare a b);
      destruct (Pos.compare_spec a b)
  | H : context [Z.compare ?a ?b] |- _ => destruct (Z.compare_spec a b)
  | H : context [PosDef.Pos.compare_cont Eq ?a ?b] |- _ =>
      change (PosDef.Pos.compare_cont Eq a b) with (Pos.compare a b) in H;
      destruct (Pos.compare_spec a b)
  end; simpl in *; try congruence; try lia.

Lemma sf_le_total a b :
  sf_notnan a = true -> sf_notnan b = true ->
  SFleb a b = false -> SFltb b a = true.
Proof.
  unfold SFleb, SFltb.
  destruct a as [sa|sa| |sa ma ea], b as [sb|sb| |sb mb eb]; simpl;
    try congruence; intros _ _; sf_cases.
Qed.

Lemma sf_lt_le a b : SFltb a b = true -> SFleb a b = true.
Proof.
  unfold SFleb, SFltb. destruct (SFcompare a b) as [[]|]; congruence.
Qed.

Lemma sf_lt_not_le a b : SFltb a b = true -> SFleb b a = false.
Proof.
  unfold SFleb, SFltb.
  destruct a as [sa|sa| |sa ma ea], b as [sb|sb| |sb mb eb]; simpl;
    try congruence; sf_cases.
Qed.

Lemma sf_le_lt_trans a b c :
  SFleb a b = true -> SFltb b c = true -> SFltb a c = true.
Proof.
  unfold SFleb, SFltb.
  destruct a as [sa|sa| |sa ma ea], b as [sb|sb| |sb mb eb],
    c as [sc|sc| |sc mc ec]; simpl; try congruence; intros H1 H2; sf_cases.
Qed.

Lemma sf_lt_le_trans a b c :
  SFltb a b = true -> SFleb b c = true -> SFltb a c = true.
Proof.
  unfold SFleb, SFltb.
  destruct a as [sa|sa| |sa ma ea], b as [sb|sb| |sb mb eb],
    c as [sc|sc| |sc mc ec]; simpl; try congruence; intros H1 H2; sf_cases.
Qed.

Lemma sf_le_trans a b c :
  SFleb a b = true -> SFleb b c = true -> SFleb a c = true.
Proof.
  unfold SFleb.
  destruct a as [sa|sa| |sa ma ea], b as [sb|sb| |sb mb eb],
    c as [sc|sc| |sc mc ec]; simpl; try congruence; intros H1 H2; sf_cases.
Qed.

Lemma sf_le_refl a : sf_notnan a = true -> SFleb a a = true.
Proof.
  unfold SFleb. destruct a as [sa|sa| |sa ma ea]; simpl; try congruence;
    intros _; sf_cases.
Qed.

Lemma sf_le_nan_l a b : SFleb a b = true -> sf_notnan a = true.
Proof. unfold SFleb. destruct a, b; simpl; congruence. Qed.

Lemma sf_le_nan_r a b : SFleb a b = true -> sf_notnan b = true.
Proof. unfold SFleb. destruct a, b; simpl; congruence. Qed.

Lemma notnan_spec x : float_notnan x <-> sf_notnan (Prim2SF x) = true.
Proof.
  unfold float_notnan, PrimFloat.is_nan. rewrite FloatAxioms.eqb_spec.
  unfold SFeqb. destruct (Prim2SF x) as [s|s| |s m e]; simpl;
    try (split; congruence); try (destruct s; simpl; split; congruence).
  change (PosDef.Pos.compare_cont Eq m m) with (Pos.compare m m).
  rewrite Z.compare_refl, Pos.compare_refl.
  destruct s; simpl; split; congruence.
Qed.

Lemma le_total x y : float_notnan x -> float_notnan y -> PrimFloat.leb x y = false -> float_lt y x.
Proof.
  rewrite !notnan_spec. unfold float_lt. rewrite leb_spec, ltb_spec.
  apply sf_le_total.
Qed.

Lemma lt_le x y : float_lt x y -> float_le x y.
Proof. unfold float_lt, float_le. rewrite leb_spec, ltb_spec. apply sf_lt_le. Qed.

Lemma lt_not_le x y : float_lt x y -> PrimFloat.leb y x = false.
Proof. unfold float_lt. rewrite leb_spec, ltb_spec. apply sf_lt_not_le. Qed.

Lemma le_lt_trans x y z : float_le x y -> float_lt y z -> float_lt x z.
Proof. unfold float_lt, float_le. rewrite !leb_spec, !ltb_spec. apply sf_le_lt_trans. Qed.

Lemma lt_le_trans x y z : float_lt x y -> float_le y z -> float_lt x z.
Proof. unfold float_lt, float_le. rewrite !leb_spec, !ltb_spec. apply sf_lt_le_trans. Qed.

Lemma le_trans x y z : float_le x y -> float_le y z -> float_le x z.
Proof. unfold float_le. rewrite !leb_spec. apply sf_le_trans. Qed.

Lemma le_refl x : float_notnan x -> float_le x x.
Proof. rewrite notnan_spec. unfold float_le. rewrite leb_spec. apply sf_le_refl. Qed.

Lemma le_notnan_l x y : float_le x y -> float_notnan x.
Proof. rewrite notnan_spec. unfold float_le. rewrite leb_spec. apply sf_le_nan_l. Qed.

Lemma le_notnan_r x y : float_le x y -> float_notnan y.
Proof. rewrite notnan_spec. unfold float_le. rewrite leb_spec. apply sf_le_nan_r. Qed.

Lemma neg_infinity_le x : float_notnan x -> float_le neg_infinity x.
Proof.
  rewrite notnan_spec. unfold float_le. rewrite leb_spec.
  replace (Prim2SF neg_infinity) with (S754_infinity true) by reflexivity.
  unfold SFleb. destruct (Prim2SF x) as [s|s| |s m e]; simpl; try congruence.
  destruct s; reflexivity.
Qed.

Lemma le_infinity x : float_notnan x -> float_le x infinity.
Proof.
  rewrite notnan_spec. unfold float_le. rewrite leb_spec.
  replace (Prim2SF infinity) with (S754_infinity false) by reflexivity.
  unfold SFleb. destruct (Prim2SF x) as [s|s| |s m e]; simpl; try congruence;
    destruct s; reflexivity.
Qed.



End FloatOrder.

(** ** The scans of numpy *)

Section Scan.

(** One proof serves both scans: [keep x mp] tells that the extremum [mp]
    stays when [x] is met, [ble] and [blt] order the values by how good
    they are. *)
Variable keep : float -> float -> bool.
Variable ble blt : float -> float -> Prop.
Hypothesis keep_ble : forall x mp, keep x mp = true -> ble x mp.
Hypothesis drop_blt : forall x mp, float_notnan x -> float_notnan mp -> keep x mp = false -> blt mp x.
Hypothesis ble_refl : forall x, float_notnan x -> ble x x.
Hypothesis blt_ble : forall x y, blt x y -> ble x y.
Hypothesis ble_blt_trans : forall x y z, ble x y -> blt y z -> blt x z.

Lemma scan_spec (ip : list float) :
  forall (pre : list float) (mp : float) (ind : nat),
    Forall float_notnan ip -> float_notnan mp ->
    pre !! ind = Some mp ->
    (forall j v, pre !! j = Some v -> ble v mp /\ ((j < ind)%nat -> blt v mp)) ->
    first_best ble blt (pre ++ ip) (scan keep mp ind (length pre) ip).
Proof.
  induction ip as [|x ip IH]; intros pre mp ind Hnn Hmp Hind Hinv; simpl.
  - rewrite app_nil_r. exists mp. split; [exact Hind | exact Hinv].
  - apply Forall_cons in Hnn as [Hx Hnn].
    assert (Hlt : (ind < length pre)%nat) by (eapply lookup_lt_Some; eauto).
    replace (pre ++ x :: ip) with ((pre ++ [x]) ++ ip)
      by (rewrite <- app_assoc; reflexivity).
    replace (S (length pre)) with (length (pre ++ [x]))
      by (rewrite length_app; simpl; lia).
    destruct (keep x mp) eqn:Hk; simpl.
    + apply IH; auto.
      * rewrite lookup_app_l; auto.
      * intros j v Hj.
        destruct (decide (j < length pre)%nat) as [Hjl|Hjl].
        -- rewrite lookup_app_l in Hj by auto. apply Hinv; auto.
        -- rewrite lookup_app_r in Hj by lia.
           destruct (j - length pre)%nat eqn:E; simpl in Hj; [|discriminate].
           injection Hj as <-. split; [apply keep_ble; auto | lia].
    + assert (Hb : blt mp x) by (apply drop_blt; auto).
      apply IH; auto.
      * rewrite lookup_app_r by lia. rewrite Nat.sub_diag. reflexivity.
      * intros j v Hj.
        destruct (decide (j < length pre)%nat) as [Hjl|Hjl].
        -- rewrite lookup_app_l in Hj by auto.
           destruct (Hinv j v Hj) as [Hle _].
           split; [apply blt_ble|intros _]; eapply ble_blt_trans; eauto.
        -- rewrite lookup_app_r in Hj by lia.
           destruct (j - length pre)%nat eqn:E; simpl in Hj; [|discriminate].
           injection Hj as <-. split; [apply ble_refl; auto | lia].
Qed.

Lemma scan_first (x : float) (rest : list float) :
  Forall float_notnan (x :: rest) ->
  first_best ble blt (x :: rest) (scan keep x 0 1 rest).
Proof.
  intros Hnn. apply Forall_cons in Hnn as [Hx Hnn].
  apply (scan_spec rest [x] x 0%nat); auto.
  intros j v Hj. destruct j; simpl in Hj; [|discriminate].
  injection Hj as <-. split; [apply ble_refl; auto | lia].
Qed.

End Scan.

Lemma argmax_scan_eq (ip : list float) :
  forall mp ind i,
    argmax_scan mp ind i ip = scan (fun x mp => PrimFloat.leb x mp) mp ind i ip.
Proof. induction ip as [|x ip IH]; intros; simpl; [|rewrite !IH]; reflexivity. Qed.

Lemma argmin_scan_eq (ip : list float) :
  forall mp ind i,
    argmin_scan mp ind i ip = scan (fun x mp => PrimFloat.leb mp x) mp ind i ip.
Proof. induction ip as [|x ip IH]; intros; simpl; [|rewrite !IH]; reflexivity. Qed.

Lemma np_argmax_first_max (a : list float) :
  a <> [] -> Forall float_notnan a ->
  exists r, np_argmax a = Return r /\ first_max a r.
Proof.
  destruct a as [|x rest]; [congruence|]. intros _ Hnn.
  exists (argmax_scan x 0 1 rest). split; [reflexivity|].
  rewrite argmax_scan_eq.
  apply (scan_first (fun x mp => PrimFloat.leb x mp) float_le float_lt);
    auto.
  - intros a b Ha Hb H. apply FloatOrder.le_total; auto.
  - apply FloatOrder.le_refl.
  - apply FloatOrder.lt_le.
  - apply FloatOrder.le_lt_trans.
Qed.

Lemma np_argmin_first_min (a : list float) :
  a <> [] -> Forall float_notnan a ->
  exists r, np_argmin a = Return r /\ first_min a r.
Proof.
  destruct a as [|x rest]; [congruence|]. intros _ Hnn.
  exists (argmin_scan x 0 1 rest). split; [reflexivity|].
  rewrite argmin_scan_eq.
  apply (scan_first (fun x mp => PrimFloat.leb mp x)
           (fun v m => float_le m v) (fun v m => float_lt m v)); auto.
  - intros a b Ha Hb H. apply FloatOrder.le_total; auto.
  - apply FloatOrder.le_refl.
  - intros a b. apply FloatOrder.lt_le.
  - intros a b c Hab Hbc. eapply FloatOrder.lt_le_trans; eauto.
Qed.

(** ** [idxmax] and [idxmin] *)

Lemma fill_nan_notnan (fill : float) (vs : list float) :
  float_notnan fill -> Forall float_notnan (map (fill_nan fill) vs).
Proof.
  intros Hf. induction vs as [|v vs IH]; simpl; constructor; auto.
  unfold fill_nan. destruct (PrimFloat.is_nan v) eqn:E; auto.
Qed.



Lemma values_lookup (l : list (Timestamp * float)) (r : nat) (m : float) :
  values l !! r = Some m -> exists t, l !! r = Some (t, m).
Proof.
  unfold values. change (map snd l) with (snd <$> l).
  rewrite list_lookup_fmap. destruct (l !! r) as [[t v]|]; simpl; [|discriminate].
  intros [= <-]. eauto.
Qed.

Lemma values_nil (l : list (Timestamp * float)) : l <> [] -> values l <> [].
Proof. destruct l; simpl; congruence. Qed.

(** On a numeric, non-empty series [idxmax] does not raise: it answers the
    label of the first greatest value of the series with NaN read as
    [-inf], or [NaT] when every value is NaN. *)
Lemma Series_idxmax_spec (s : Series) :
  dtype s = float64 -> items s <> [] ->
  exists r t v,
    items s !! r = Some (t, v) /\
    first_max (map (fill_nan neg_infinity) (values (items s))) r /\
    Series_idxmax s =
      Return (if forallb PrimFloat.is_nan (values (items s)) then NaT else Some t).
Proof.
  intros Hd Hne. unfold Series_idxmax, nanargmax. rewrite Hd.
  destruct (np_argmax_first_max (map (fill_nan neg_infinity) (values (items s))))
    as (r & Hr & Hmax).
  { apply values_nil in Hne. destruct (values (items s)); simpl; congruence. }
  { apply fill_nan_notnan. reflexivity. }
  rewrite Hr. simpl.
  destruct Hmax as (m & Hm & Hall).
  assert (exists t v, items s !! r = Some (t, v)) as (t & v & Htv).
  { change (map (fill_nan neg_infinity) (values (items s)))
      with (fill_nan neg_infinity <$> values (items s)) in Hm.
    rewrite list_lookup_fmap in Hm.
    destruct (values (items s) !! r) as [v|] eqn:E; [|discriminate].
    apply values_lookup in E as [t E]. eauto. }
  exists r, t, v. split; [exact Htv|]. split; [exists m; auto|].
  destruct (forallb PrimFloat.is_nan (values (items s))); simpl; [reflexivity|].
  unfold label_at. rewrite Htv. reflexivity.
Qed.

Lemma Series_idxmin_spec (s : Series) :
  dtype s = float64 -> items s <> [] ->
  exists r t v,
    items s !! r = Some (t, v) /\
    first_min (map (fill_nan infinity) (values (items s))) r /\
    Series_idxmin s =
      Return (if forallb PrimFloat.is_nan (values (items s)) then NaT else Some t).
Proof.
  intros Hd Hne. unfold Series_idxmin, nanargmin. rewrite Hd.
  destruct (np_argmin_first_min (map (fill_nan infinity) (values (items s))))
    as (r & Hr & Hmin).
  { apply values_nil in Hne. destruct (values (items s)); simpl; congruence. }
  { apply fill_nan_notnan. reflexivity. }
  rewrite Hr. simpl.
  destruct Hmin as (m & Hm & Hall).
  assert (exists t v, items s !! r = Some (t, v)) as (t & v & Htv).
  { change (map (fill_nan infinity) (values (items s)))
      with (fill_nan infinity <$> values (items s)) in Hm.
    rewrite list_lookup_fmap in Hm.
    destruct (values (items s) !! r) as [v|] eqn:E; [|discriminate].
    apply values_lookup in E as [t E]. eauto. }
  exists r, t, v. split; [exact Htv|]. split; [exists m; auto|].
  destruct (forallb PrimFloat.is_nan (values (items s))); simpl; [reflexivity|].
  unfold label_at. rewrite Htv. reflexivity.
Qed.

(** An empty numeric series makes both reductions raise [ValueError]. *)
Lemma Series_idxmax_empty (s : Series) :
  dtype s = float64 -> items s = [] ->
  Series_idxmax s = Raise (ValueError "attempt to get argmax of an empty sequence").
Proof. intros Hd He. unfold Series_idxmax. rewrite Hd, He. reflexivity. Qed.

Lemma Series_idxmin_empty (s : Series) :
  dtype s = float64 -> items s = [] ->
  Series_idxmin s = Raise (ValueError "attempt to get argmin of an empty sequence").
Proof. intros Hd He. unfold Series_idxmin. rewrite Hd, He. reflexivity. Qed.

(** A strictly increasing index orders its labels as its positions. *)
Lemma increasing_lookup (l : list Timestamp) :
  StronglySorted Z.lt l ->
  forall i j a b, l !! i = Some a -> l !! j = Some b -> (i <= j)%nat -> a <= b.
Proof.
  induction 1 as [|x l Hs IH Hall]; intros i j a b Hi Hj Hij.
  - rewrite lookup_nil in Hi. discriminate.
  - destruct i as [|i], j as [|j]; simpl in *.
    + injection Hi as <-. injection Hj as <-. lia.
    + injection Hi as <-. rewrite Forall_forall in Hall.
      assert (x < b); [|lia]. apply Hall.
      eapply list_elem_of_lookup_2; eauto.
    + lia.
    + eapply IH; eauto. lia.
Qed.

(** ** The frame [timepoints] *)

(** What a successful pass over lines 115-126 has computed, and in which
    order the rows stand. *)
Lemma compute_timepoints_inv (pv_systems : list string) (df : DataFrame)
    (tps : list (string * Cell)) :
  compute_timepoints pv_systems df = Return tps ->
  exists c_max c_min c_day,
    max_load_timepoint df = Return c_max /\
    min_load_timepoint df = Return c_min /\
    min_daytime_load_timepoint df = Return c_day /\
    match pv_systems with
    | [] =>
        tps = [("Max Load", c_max); ("Min Load", c_min);
               ("Min Daytime Load", c_day)]
    | _ :: _ =>
        exists c_ratio c_diff c_pv,
          max_pv_to_load_ratio_timepoint df = Return c_ratio /\
          max_pv_minus_load_timepoint df = Return c_diff /\
          max_pv_timepoint df = Return c_pv /\
          tps = [("Max Load", c_max); ("Max PV to Load Ratio", c_ratio);
                 ("Max PV minus Load", c_diff); ("Max PV", c_pv);
                 ("Min Load", c_min); ("Min Daytime Load", c_day)]
    end.
Proof.
  unfold compute_timepoints.
  destruct (max_load_timepoint df) as [c1|] eqn:E1; simpl; [|discriminate].
  destruct pv_systems as [|p ps]; simpl.
  - destruct (min_load_timepoint df) as [c5|] eqn:E5; simpl; [|discriminate].
    destruct (min_daytime_load_timepoint df) as [c6|] eqn:E6; simpl; [|discriminate].
    intros [= <-]. exists c1, c5, c6. auto.
  - destruct (max_pv_to_load_ratio_timepoint df) as [c2|] eqn:E2; simpl; [|discriminate].
    destruct (max_pv_minus_load_timepoint df) as [c3|] eqn:E3; simpl; [|discriminate].
    destruct (max_pv_timepoint df) as [c4|] eqn:E4; simpl; [|discriminate].
    destruct (min_load_timepoint df) as [c5|] eqn:E5; simpl; [|discriminate].
    destruct (min_daytime_load_timepoint df) as [c6|] eqn:E6; simpl; [|discriminate].
    intros [= <-]. exists c1, c5, c6. repeat split; auto.
    exists c2, c3, c4. auto.
Qed.

(** ** The full-horizon criteria *)

Lemma column_items_lookup (c : Column) (rs : list (Timestamp * Row)) (i : nat) :
  column_items c rs !! i = (fun p => (fst p, cell c (snd p))) <$> rs !! i.
Proof.
  unfold column_items.
  change (map (fun p => (fst p, cell c (snd p))) rs)
    with ((fun p : Timestamp * Row => (fst p, cell c (snd p))) <$> rs).
  apply list_lookup_fmap.
Qed.

Lemma values_column_items_lookup (c : Column) (rs : list (Timestamp * Row)) (i : nat) :
  values (column_items c rs) !! i = (fun p => cell c (snd p)) <$> rs !! i.
Proof.
  unfold values. change (map snd (column_items c rs)) with (snd <$> column_items c rs).
  rewrite list_lookup_fmap, column_items_lookup.
  destruct (rs !! i); reflexivity.
Qed.

Lemma labels_lookup {A} (rs : list (Timestamp * A)) (i : nat) :
  labels rs !! i = fst <$> rs !! i.
Proof. unfold labels. change (map fst rs) with (fst <$> rs). apply list_lookup_fmap. Qed.




Lemma getitem_numeric (c : Column) (df : DataFrame) (d : Dtype) :
  column_dtype c df = Some d ->
  getitem c df = Return (mkSeries d (column_items c (rows df))).
Proof. intros H. unfold getitem. rewrite H. reflexivity. Qed.


(** ** One PV system and one load on the shape ["S1"] *)


(** ** Mode resolution *)

Lemma resolve_mode_no_pv (mode : SnapshotTimePointSelectionMode) (w : World) :
  resolve_mode [] mode w =
    (mkWorld
       (log w ++ [info "No PVSystems are present." NoArgs]
              ++ (if mode_eqb mode MAX_LOAD then []
                  else [info "Changed mode to %s" (StrArg "max_load")]))
       (files w),
     Return MAX_LOAD).
Proof.
  destruct w as [l f].
  destruct mode; unfold resolve_mode, M_bind, logger_info, M_ret; simpl;
    rewrite <- ?app_assoc; try rewrite app_nil_r; reflexivity.
Qed.

Lemma resolve_mode_pv (p : string) (ps : list string)
    (mode : SnapshotTimePointSelectionMode) (w : World) :
  resolve_mode (p :: ps) mode w = (w, Return mode).
Proof. reflexivity. Qed.

(** C3. Without PV systems a requested mode other than [MAX_LOAD] is
    replaced by [MAX_LOAD]; nothing is raised, the change is logged at
    level INFO after the note that no PV systems are present, and the
    criterion selected is ['Max Load'].  When the mode is [MAX_LOAD]
    already, or PV systems exist, the mode comes back unchanged and no
    change of mode is logged. *)
Theorem mode_resolution (pv_systems : list string)
    (mode : SnapshotTimePointSelectionMode) (w : World) :
  (pv_systems = [] -> mode <> MAX_LOAD ->
     resolve_mode pv_systems mode w =
       (mkWorld
          (log w ++ [info "No PVSystems are present." NoArgs;
                     info "Changed mode to %s" (StrArg (mode_value MAX_LOAD))])
          (files w),
        Return MAX_LOAD) /\
     select_column MAX_LOAD = Return "Max Load") /\
  (pv_systems = [] -> mode = MAX_LOAD ->
     resolve_mode pv_systems mode w =
       (mkWorld (log w ++ [info "No PVSystems are present." NoArgs]) (files w),
        Return mode)) /\
  (pv_systems <> [] -> resolve_mode pv_systems mode w = (w, Return mode)).
Proof.
  split; [|split].
  - intros -> Hm. split; [|reflexivity].
    rewrite resolve_mode_no_pv. destruct mode; try congruence; reflexivity.
  - intros -> ->. rewrite resolve_mode_no_pv. reflexivity.
  - intros Hne. destruct pv_systems; [congruence|]. apply resolve_mode_pv.
Qed.

Lemma mode_resolution_witness :
  resolve_mode [] MAX_PV_LOAD_RATIO empty_world =
    (mkWorld
       [info "No PVSystems are present." NoArgs;
        info "Changed mode to %s" (StrArg "max_load")] ∅,
     Return MAX_LOAD) /\
  resolve_mode [] MAX_LOAD empty_world =
    (mkWorld [info "No PVSystems are present." NoArgs] ∅, Return MAX_LOAD) /\
  resolve_mode ["pv1"] NONE empty_world = (empty_world, Return NONE).
Proof.
  split; [|split].
  - apply (proj1 (mode_resolution [] MAX_PV_LOAD_RATIO empty_world));
      [reflexivity | discriminate].
  - apply (proj1 (proj2 (mode_resolution [] MAX_LOAD empty_world)));
      reflexivity.
  - apply (proj2 (proj2 (mode_resolution ["pv1"] NONE empty_world))).
    discriminate.
Defined.

(** ** The stages of a call *)

Lemma resolve_mode_returns (pv_systems : list string)
    (mode : SnapshotTimePointSelectionMode) (w : World) :
  exists w1,
    resolve_mode pv_systems mode w =
      (w1, Return (match pv_systems with [] => MAX_LOAD | _ :: _ => mode end)) /\
    files w1 = files w.
Proof.
  destruct pv_systems as [|p ps].
  - rewrite resolve_mode_no_pv. eexists. split; reflexivity.
  - exists w. split; reflexivity.
Qed.

Lemma build_aggregate_profiles_files (dss : OpenDSS) (settings : Settings)
    (pv_systems : list string) (w w' : World) (o : Outcome DataFrame) :
  build_aggregate_profiles dss settings pv_systems w = (w', o) ->
  files w' = files w.
Proof.
  unfold build_aggregate_profiles, M_bind, lift, log_no_loads, logger_info, M_ret.
  destruct (aggregate_pv dss settings pv_systems) as [df|e];
    [|inversion 1; reflexivity].
  destruct (aggregate_loads dss settings (Loads_AllNames dss) df);
    destruct (Loads_AllNames dss) as [|l ls]; simpl;
    inversion 1; reflexivity.
Qed.

(** A call that returns went through every stage. *)
Lemma get_snapshot_timepoint_inv (dss : OpenDSS) (settings : Settings)
    (mode : SnapshotTimePointSelectionMode) (output_filename : string)
    (w w' : World) (c : Cell) :
  get_snapshot_timepoint dss settings mode output_filename w = (w', Return c) ->
  exists mode' column w1 w2 df tps,
    resolve_mode (PVsystems_AllNames dss) mode w = (w1, Return mode') /\
    select_column mode' = Return column /\
    build_aggregate_profiles dss settings (PVsystems_AllNames dss) w1
      = (w2, Return df) /\
    compute_timepoints (PVsystems_AllNames dss) df = Return tps /\
    w' = mkWorld (log w2 ++ [info "Time points: %s" (TimepointsArg tps)])
           (<[output_filename := mkFileContent (to_dict_index tps) 2]> (files w2)) /\
    loc_getitem tps column = Return c.
Proof.
  unfold get_snapshot_timepoint, M_bind, lift, logger_info, dump_data.
  destruct (resolve_mode_returns (PVsystems_AllNames dss) mode w) as (w1 & -> & _).
  destruct (select_column _) as [column|] eqn:Ecol; [|discriminate].
  destruct (build_aggregate_profiles _ _ _ w1) as [w2 [df|]] eqn:Ebuild;
    [|discriminate].
  destruct (compute_timepoints _ df) as [tps|] eqn:Etps; [|discriminate].
  simpl. intros H.
  destruct (loc_getitem tps column) as [c'|] eqn:Eget; [|discriminate].
  injection H as <- <-.
  exists (match PVsystems_AllNames dss with [] => MAX_LOAD | _ :: _ => mode end),
    column, w1, w2, df, tps.
  repeat split; auto.
Qed.

(** A call that raises has written no file. *)
Lemma get_snapshot_timepoint_raise_files (dss : OpenDSS) (settings : Settings)
    (mode : SnapshotTimePointSelectionMode) (output_filename : string)
    (w w' : World) (e : PyException) :
  get_snapshot_timepoint dss settings mode output_filename w = (w', Raise e) ->
  files w' = files w.
Proof.
  unfold get_snapshot_timepoint, M_bind, lift, logger_info, dump_data.
  destruct (resolve_mode_returns (PVsystems_AllNames dss) mode w) as (w1 & -> & Hf).
  destruct (select_column _) as [column|] eqn:Ecol;
    [|inversion 1; subst; exact Hf].
  destruct (build_aggregate_profiles _ _ _ w1) as [w2 [df|]] eqn:Ebuild;
    apply build_aggregate_profiles_files in Ebuild;
    [|inversion 1; subst; congruence].
  destruct (compute_timepoints _ df) as [tps|] eqn:Etps;
    [|inversion 1; subst; congruence].
  simpl. intros H.
  destruct (loc_getitem tps column) as [c'|] eqn:Eget; [discriminate|].
  exfalso.
  apply compute_timepoints_inv in Etps as (c1 & c5 & c6 & _ & _ & _ & Hshape).
  destruct (PVsystems_AllNames dss) as [|p ps].
  - subst tps. injection Ecol as <-. simpl in Eget. discriminate.
  - destruct Hshape as (c2 & c3 & c4 & _ & _ & _ & ->).
    destruct mode; simpl in Ecol; try discriminate; injection Ecol as <-;
      simpl in Eget; discriminate.
Qed.

Lemma report_keys_to_dict_index (tps : list (string * Cell)) :
  report_keys (to_dict_index tps) = map fst tps.
Proof.
  unfold to_dict_index, report_keys. induction tps as [|[k v] tps IH]; simpl;
    [|rewrite IH]; reflexivity.
Qed.

(** ** The candidate set and the report *)

Lemma compute_timepoints_labels (pv_systems : list string) (df : DataFrame)
    (tps : list (string * Cell)) :
  compute_timepoints pv_systems df = Return tps ->
  map fst tps =
    match pv_systems with [] => load_criteria | _ :: _ => all_criteria end.
Proof.
  intros H. apply compute_timepoints_inv in H
    as (c1 & c5 & c6 & _ & _ & _ & Hshape).
  destruct pv_systems.
  - subst. reflexivity.
  - destruct Hshape as (c2 & c3 & c4 & _ & _ & _ & ->). reflexivity.
Qed.

(** C7, as the code has it: a failing instance of the claim.  Without any
    PV system the call computes [Min Daytime Load] and writes it to the
    report, next to [Max Load] and [Min Load]. *)
Lemma min_daytime_load_without_pv :
  PVsystems_AllNames load_only = [] /\
  exists (w : World),
    get_snapshot_timepoint load_only from_2020_01_01_08 MAX_LOAD
      "snapshot_time_points.json" empty_world
      = (w, Return (Some (datetime 2020 1 1 10 0))) /\
    (report_keys ∘ file_data) <$> files w !! "snapshot_time_points.json"
      = Some ["Max Load"; "Min Load"; "Min Daytime Load"] /\
    (json_member "Min Daytime Load" ∘ file_data) <$>
        files w !! "snapshot_time_points.json"
      = Some (Some (JObject [("Timepoints",
                 JString (astype_str (Some (datetime 2020 1 1 11 0))))])) /\
    (report_keys ∘ file_data) <$> files w !! "snapshot_time_points.json"
      <> Some ["Max Load"; "Min Load"].
Proof.
  split; [reflexivity|]. eexists. split; [vm_compute; reflexivity|].
  split; [vm_compute; reflexivity|]. split; [vm_compute; reflexivity|].
  vm_compute. discriminate.
Qed.

(** C7, amended.  Every call that returns has computed [Min Daytime Load],
    the argmin of Load over the rows of the daily window, whether PV
    systems exist or not: without PV systems the candidates are
    [Max Load], [Min Load] and [Min Daytime Load]; with PV systems the
    three PV criteria are computed as well. *)
Theorem min_daytime_load_always_computed (dss : OpenDSS) (settings : Settings)
    (mode : SnapshotTimePointSelectionMode) (output_filename : string)
    (w w' : World) (c : Cell) :
  get_snapshot_timepoint dss settings mode output_filename w = (w', Return c) ->
  exists (w2 : World) (df : DataFrame) (tps : list (string * Cell)) (c_day : Cell),
    build_aggregate_profiles dss settings (PVsystems_AllNames dss)
      (fst (resolve_mode (PVsystems_AllNames dss) mode w)) = (w2, Return df) /\
    compute_timepoints (PVsystems_AllNames dss) df = Return tps /\
    map fst tps =
      match PVsystems_AllNames dss with
      | [] => ["Max Load"; "Min Load"; "Min Daytime Load"]
      | _ :: _ => ["Max Load"; "Max PV to Load Ratio"; "Max PV minus Load";
                   "Max PV"; "Min Load"; "Min Daytime Load"]
      end /\
    min_daytime_load_timepoint df = Return c_day /\
    loc_getitem tps "Min Daytime Load" = Return c_day /\
    (report_keys ∘ file_data) <$> files w' !! output_filename = Some (map fst tps).
Proof.
  intros H. apply get_snapshot_timepoint_inv in H
    as (mode' & column & w1 & w2 & df & tps & Hres & Hcol & Hbuild & Htps & -> & Hget).
  pose proof (compute_timepoints_labels _ _ _ Htps) as Hlabels.
  pose proof Htps as Hinv. apply compute_timepoints_inv in Hinv
    as (c1 & c5 & c6 & _ & _ & E6 & Hshape).
  exists w2, df, tps, c6. rewrite Hres. simpl.
  split; [exact Hbuild|]. split; [exact Htps|]. split; [exact Hlabels|].
  split; [exact E6|]. split.
  - destruct (PVsystems_AllNames dss).
    + subst tps. reflexivity.
    + destruct Hshape as (c2 & c3 & c4 & _ & _ & _ & ->). reflexivity.
  - rewrite lookup_insert_eq.
    exact (f_equal Some (report_keys_to_dict_index tps)).
Qed.

Lemma min_daytime_load_always_computed_witness :
  exists (w2 : World) (df : DataFrame) (tps : list (string * Cell)) (c_day : Cell),
    build_aggregate_profiles load_only from_2020_01_01_08
      (PVsystems_AllNames load_only)
      (fst (resolve_mode (PVsystems_AllNames load_only) MAX_LOAD empty_world))
      = (w2, Return df) /\
    compute_timepoints (PVsystems_AllNames load_only) df = Return tps /\
    map fst tps =
      match PVsystems_AllNames load_only with
      | [] => ["Max Load"; "Min Load"; "Min Daytime Load"]
      | _ :: _ => ["Max Load"; "Max PV to Load Ratio"; "Max PV minus Load";
                   "Max PV"; "Min Load"; "Min Daytime Load"]
      end /\
    min_daytime_load_timepoint df = Return c_day /\
    loc_getitem tps "Min Daytime Load" = Return c_day /\
    (report_keys ∘ file_data) <$>
      files (fst (get_snapshot_timepoint load_only from_2020_01_01_08 MAX_LOAD
                    "snapshot_time_points.json" empty_world))
        !! "snapshot_time_points.json" = Some (map fst tps).
Proof.
  apply (min_daytime_load_always_computed load_only from_2020_01_01_08 MAX_LOAD
           "snapshot_time_points.json" empty_world _
           (Some (datetime 2020 1 1 10 0))).
  vm_compute. reflexivity.
Defined.

(** C9, as the code has it: a failing instance of the claim.  The report
    does not map a criterion to a timestamp string: under each criterion
    stands the dictionary of the row, with the one key ['Timepoints']. *)
Lemma report_maps_criteria_to_records :
  exists (w : World),
    get_snapshot_timepoint pv_with_idle_load from_2020_01_01_08 MAX_LOAD
      "snapshot_time_points.json" empty_world
      = (w, Return (Some (datetime 2020 1 1 9 0))) /\
    (json_member "Max Load" ∘ file_data) <$>
        files w !! "snapshot_time_points.json"
      = Some (Some (JObject [("Timepoints",
                 JString (astype_str (Some (datetime 2020 1 1 9 0))))])) /\
    forall s : PyStr,
      (json_member "Max Load" ∘ file_data) <$>
          files w !! "snapshot_time_points.json"
        <> Some (Some (JString s)).
Proof.
  eexists. split; [vm_compute; reflexivity|].
  split; [vm_compute; reflexivity|].
  intros s. vm_compute. discriminate.
Qed.

(** C9, amended.  Every call that returns has written one report, to the
    path it was given and with indentation 2, and has touched no other
    file.  The report has one member per criterion, in the order in which
    the criteria were computed: Max Load, then (with PV systems) Max PV to
    Load Ratio, Max PV minus Load and Max PV, then Min Load, then Min
    Daytime Load.  Each member is a dictionary with the one key
    ['Timepoints'], whose value is the text of the candidate timestamp; the
    call returns the candidate of the criterion of its mode. *)
Theorem report_written (dss : OpenDSS) (settings : Settings)
    (mode : SnapshotTimePointSelectionMode) (output_filename : string)
    (w w' : World) (c : Cell) :
  get_snapshot_timepoint dss settings mode output_filename w = (w', Return c) ->
  exists (tps : list (string * Cell)) (column : string),
    files w' =
      <[output_filename :=
          mkFileContent
            (JObject
               (map (fun p => (fst p,
                               JObject [("Timepoints", JString (astype_str (snd p)))]))
                  tps))
            2]> (files w) /\
    map fst tps =
      match PVsystems_AllNames dss with
      | [] => ["Max Load"; "Min Load"; "Min Daytime Load"]
      | _ :: _ => ["Max Load"; "Max PV to Load Ratio"; "Max PV minus Load";
                   "Max PV"; "Min Load"; "Min Daytime Load"]
      end /\
    select_column
      (match PVsystems_AllNames dss with [] => MAX_LOAD | _ :: _ => mode end)
      = Return column /\
    loc_getitem tps column = Return c.
Proof.
  intros H. apply get_snapshot_timepoint_inv in H
    as (mode' & column & w1 & w2 & df & tps & Hres & Hcol & Hbuild & Htps & -> & Hget).
  destruct (resolve_mode_returns (PVsystems_AllNames dss) mode w) as (w1' & Hres' & Hf1).
  rewrite Hres in Hres'. injection Hres' as <- ->.
  apply build_aggregate_profiles_files in Hbuild.
  exists tps, column. simpl. rewrite Hbuild, Hf1.
  split; [reflexivity|]. split; [eapply compute_timepoints_labels; eauto|].
  split; assumption.
Qed.

Lemma report_written_witness :
  exists (tps : list (string * Cell)) (column : string),
    files (fst (get_snapshot_timepoint pv_with_idle_load from_2020_01_01_08
                  MAX_PV_LOAD_RATIO "snapshot_time_points.json" empty_world)) =
      <["snapshot_time_points.json" :=
          mkFileContent
            (JObject
               (map (fun p => (fst p,
                               JObject [("Timepoints", JString (astype_str (snd p)))]))
                  tps))
            2]> (files empty_world) /\
    map fst tps =
      match PVsystems_AllNames pv_with_idle_load with
      | [] => ["Max Load"; "Min Load"; "Min Daytime Load"]
      | _ :: _ => ["Max Load"; "Max PV to Load Ratio"; "Max PV minus Load";
                   "Max PV"; "Min Load"; "Min Daytime Load"]
      end /\
    select_column
      (match PVsystems_AllNames pv_with_idle_load with
       | [] => MAX_LOAD
       | _ :: _ => MAX_PV_LOAD_RATIO
       end) = Return column /\
    loc_getitem tps column = Return (Some (datetime 2020 1 1 8 0)).
Proof.
  apply (report_written pv_with_idle_load from_2020_01_01_08 MAX_PV_LOAD_RATIO
           "snapshot_time_points.json" empty_world _
           (Some (datetime 2020 1 1 8 0))).
  vm_compute. reflexivity.
Defined.

(** ** The cache of shapes *)

Section Cache.

Variable dss : OpenDSS.
Variable settings : Settings.

Lemma cache_valid_empty : cache_valid dss settings ∅.
Proof. intros name f H. rewrite lookup_empty in H. discriminate. Qed.

Lemma cache_valid_insert (cache : gmap string PmultFrame) (name : string)
    (f : PmultFrame) :
  cache_valid dss settings cache ->
  create_loadshape_pmult_dataframe settings (LoadShape dss name) = Return f ->
  cache_valid dss settings (<[name := f]> cache).
Proof.
  intros Hv Hf name' f' H.
  destruct (decide (name = name')) as [<-|Hne].
  - rewrite lookup_insert_eq in H. injection H as <-. exact Hf.
  - rewrite lookup_insert_ne in H by exact Hne. apply Hv. exact H.
Qed.

Lemma pv_body_same (df : DataFrame) (cache : gmap string PmultFrame) (pv_name : string) :
  cache_valid dss settings cache ->
  same_profiles dss settings (pv_body dss settings (df, cache) pv_name)
    (pv_body_uncached dss settings df pv_name).
Proof.
  intros Hv. unfold pv_body, pv_body_uncached. simpl fst. simpl snd.
  destruct (cache !! PVsystem_yearly dss pv_name) as [f|] eqn:Ec.
  - rewrite (Hv _ _ Ec). simpl. unfold dict_getitem. rewrite Ec. simpl.
    destruct (PmultFrame_getitem0 _) as [s|e]; simpl; [|reflexivity].
    destruct (len df =? 0)%nat; simpl; [split; auto|].
    destruct (getitem PV df); simpl; [split; auto|reflexivity].
  - destruct (create_loadshape_pmult_dataframe settings _) as [f|e] eqn:Ef;
      simpl; [|reflexivity].
    unfold dict_getitem. rewrite lookup_insert_eq. simpl.
    pose proof (cache_valid_insert _ _ _ Hv Ef) as Hv'.
    destruct (PmultFrame_getitem0 _) as [s|e]; simpl; [|reflexivity].
    destruct (len df =? 0)%nat; simpl; [split; auto|].
    destruct (getitem PV df); simpl; [split; auto|reflexivity].
Qed.

Lemma load_body_same (df : DataFrame) (cache : gmap string PmultFrame)
    (load_name : string) :
  cache_valid dss settings cache ->
  same_profiles dss settings (load_body dss settings (df, cache) load_name)
    (load_body_uncached dss settings df load_name).
Proof.
  intros Hv. unfold load_body, load_body_uncached. simpl fst. simpl snd.
  destruct (cache !! Load_yearly dss load_name) as [f|] eqn:Ec.
  - rewrite (Hv _ _ Ec). simpl. unfold dict_getitem. rewrite Ec. simpl.
    destruct (PmultFrame_getitem0 _) as [s|e]; simpl; [|reflexivity].
    destruct (len df =? 0)%nat; simpl; [split; auto|].
    destruct (getitem Load df); simpl; [split; auto|reflexivity].
  - destruct (create_loadshape_pmult_dataframe settings _) as [f|e] eqn:Ef;
      simpl; [|reflexivity].
    unfold dict_getitem. rewrite lookup_insert_eq. simpl.
    pose proof (cache_valid_insert _ _ _ Hv Ef) as Hv'.
    destruct (PmultFrame_getitem0 _) as [s|e]; simpl; [|reflexivity].
    destruct (len df =? 0)%nat; simpl; [split; auto|].
    destruct (getitem Load df); simpl; [split; auto|reflexivity].
Qed.

Lemma for_each_same
    (body : DataFrame * gmap string PmultFrame -> string ->
            Outcome (DataFrame * gmap string PmultFrame))
    (body' : DataFrame -> string -> Outcome DataFrame) :
  (forall df cache x, cache_valid dss settings cache ->
     same_profiles dss settings (body (df, cache) x) (body' df x)) ->
  forall (xs : list string) (df : DataFrame) (cache : gmap string PmultFrame),
    cache_valid dss settings cache ->
    same_profiles dss settings (for_each body xs (df, cache)) (for_each body' xs df).
Proof.
  intros Hbody. induction xs as [|x xs IH]; intros df cache Hv; simpl.
  - split; auto.
  - specialize (Hbody df cache x Hv).
    destruct (body (df, cache) x) as [[df1 cache1]|e],
      (body' df x) as [df1'|e']; simpl in *; try contradiction.
    + destruct Hbody as [<- Hv1]. apply IH. exact Hv1.
    + exact Hbody.
Qed.

Lemma aggregate_pv_uncached_eq (pv_systems : list string) :
  aggregate_pv dss settings pv_systems = aggregate_pv_uncached dss settings pv_systems.
Proof.
  unfold aggregate_pv, aggregate_pv_uncached.
  pose proof (for_each_same _ _ pv_body_same pv_systems empty_aggregate_profiles ∅
                cache_valid_empty) as H.
  destruct (for_each (pv_body dss settings) _ _) as [[df cache]|e],
    (for_each (pv_body_uncached dss settings) _ _) as [df'|e'];
    simpl in *; try contradiction.
  - destruct H as [<- _]. reflexivity.
  - subst. reflexivity.
Qed.

Lemma aggregate_loads_uncached_eq (loads : list string) (df : DataFrame) :
  aggregate_loads dss settings loads df = aggregate_loads_uncached dss settings loads df.
Proof.
  unfold aggregate_loads, aggregate_loads_uncached.
  pose proof (for_each_same _ _ load_body_same loads df ∅ cache_valid_empty) as H.
  destruct (for_each (load_body dss settings) _ _) as [[df1 cache]|e],
    (for_each (load_body_uncached dss settings) _ _) as [df'|e'];
    simpl in *; try contradiction.
  - destruct H as [<- _]. reflexivity.
  - subst. reflexivity.
Qed.

End Cache.

(** C10. The cache of shapes is transparent.  For every circuit the PV
    loop and the Load loop that reuse the frame of a shape already seen
    give the same outcome (the same aggregate profiles, or the same
    exception) as the loops that materialise the shape for every device;
    so the aggregate profiles, and the candidates computed from them, are
    the same. *)
Theorem shape_cache_transparent (dss : OpenDSS) (settings : Settings) :
  (forall pv_systems : list string,
     aggregate_pv dss settings pv_systems
       = aggregate_pv_uncached dss settings pv_systems) /\
  (forall (loads : list string) (df : DataFrame),
     aggregate_loads dss settings loads df
       = aggregate_loads_uncached dss settings loads df) /\
  (forall (pv_systems : list string) (w : World),
     build_aggregate_profiles dss settings pv_systems w
       = build_aggregate_profiles_uncached dss settings pv_systems w) /\
  (forall (pv_systems : list string) (w : World),
     M_bind (build_aggregate_profiles dss settings pv_systems)
       (fun df => lift (compute_timepoints pv_systems df)) w
     = M_bind (build_aggregate_profiles_uncached dss settings pv_systems)
         (fun df => lift (compute_timepoints pv_systems df)) w).
Proof.
  assert (Hbuild : forall pv_systems w,
             build_aggregate_profiles dss settings pv_systems w
               = build_aggregate_profiles_uncached dss settings pv_systems w).
  { intros pv_systems w.
    unfold build_aggregate_profiles, build_aggregate_profiles_uncached, M_bind, lift.
    rewrite aggregate_pv_uncached_eq.
    destruct (aggregate_pv_uncached dss settings pv_systems); [|reflexivity].
    destruct (log_no_loads (Loads_AllNames dss) w) as [w1 [[]|]]; [|reflexivity].
    rewrite aggregate_loads_uncached_eq. reflexivity. }
  split; [apply aggregate_pv_uncached_eq|].
  split; [apply aggregate_loads_uncached_eq|].
  split; [exact Hbuild|].
  intros pv_systems w. unfold M_bind. rewrite Hbuild. reflexivity.
Qed.

(** ** The daytime criteria *)

Lemma in_pv_generation_hours_spec (t : Timestamp) :
  in_pv_generation_hours t = true <->
  time_of_day 8 0 <= time_micros t <= time_of_day 17 0.
Proof.
  unfold in_pv_generation_hours, in_time_window, pv_generation_hours; simpl.
  replace (time_of_day 8 0 <=? time_of_day 17 0) with true by reflexivity.
  rewrite andb_true_iff, !Z.leb_le. reflexivity.
Qed.

Lemma filled_values_lookup (fill : float) (c : Column)
    (rs : list (Timestamp * Row)) (j : nat) :
  map (fill_nan fill) (values (column_items c rs)) !! j
    = (fun p => fill_nan fill (cell c (snd p))) <$> rs !! j.
Proof.
  change (map (fill_nan fill) (values (column_items c rs)))
    with (fill_nan fill <$> values (column_items c rs)).
  rewrite list_lookup_fmap, values_column_items_lookup.
  destruct (rs !! j); reflexivity.
Qed.

(** [idxmax] on a column of any rows, NaN included. *)
Lemma idxmax_rows (c : Column) (rs : list (Timestamp * Row)) (t : Timestamp) :
  StronglySorted Z.lt (labels rs) ->
  Series_idxmax (mkSeries float64 (column_items c rs)) = Return (Some t) ->
  exists r : Row, (t, r) ∈ rs /\
    forall (t' : Timestamp) (r' : Row), (t', r') ∈ rs ->
      float_le (fill_nan neg_infinity (cell c r')) (fill_nan neg_infinity (cell c r)) /\
      (float_le (fill_nan neg_infinity (cell c r)) (fill_nan neg_infinity (cell c r')) ->
       t <= t').
Proof.
  intros Hsorted Hres.
  destruct rs as [|row0 rs0] eqn:Ers; [discriminate|]. rewrite <- Ers in *.
  destruct (Series_idxmax_spec (mkSeries float64 (column_items c rs)))
    as (i & ti & v & Hi & Hmax & Hspec); [reflexivity|subst rs; discriminate|].
  simpl in Hi, Hmax, Hspec. rewrite Hspec in Hres.
  destruct (forallb PrimFloat.is_nan (values (column_items c rs)));
    [discriminate|]. injection Hres as ->.
  rewrite column_items_lookup in Hi.
  destruct (rs !! i) as [[t0 r]|] eqn:Ei; simpl in Hi; [|discriminate].
  injection Hi as -> <-.
  destruct Hmax as (m & Hm & Hall).
  rewrite filled_values_lookup, Ei in Hm. simpl in Hm. injection Hm as <-.
  exists r. split; [eapply list_elem_of_lookup_2; eauto|].
  intros t' r' Hin. apply list_elem_of_lookup_1 in Hin as [j Hj].
  assert (Hjv : map (fill_nan neg_infinity) (values (column_items c rs)) !! j
                = Some (fill_nan neg_infinity (cell c r')))
    by (rewrite filled_values_lookup, Hj; reflexivity).
  destruct (Hall j _ Hjv) as [Hle Hlt]. split; [exact Hle|].
  intros Hge. destruct (decide (j < i)%nat) as [Hji|Hji].
  - apply Hlt in Hji. apply FloatOrder.lt_not_le in Hji.
    unfold float_le in Hge. congruence.
  - eapply (increasing_lookup _ Hsorted i j).
    + rewrite labels_lookup, Ei. reflexivity.
    + rewrite labels_lookup, Hj. reflexivity.
    + lia.
Qed.

Lemma idxmin_rows (c : Column) (rs : list (Timestamp * Row)) (t : Timestamp) :
  StronglySorted Z.lt (labels rs) ->
  Series_idxmin (mkSeries float64 (column_items c rs)) = Return (Some t) ->
  exists r : Row, (t, r) ∈ rs /\
    forall (t' : Timestamp) (r' : Row), (t', r') ∈ rs ->
      float_le (fill_nan infinity (cell c r)) (fill_nan infinity (cell c r')) /\
      (float_le (fill_nan infinity (cell c r')) (fill_nan infinity (cell c r)) ->
       t <= t').
Proof.
  intros Hsorted Hres.
  destruct rs as [|row0 rs0] eqn:Ers; [discriminate|]. rewrite <- Ers in *.
  destruct (Series_idxmin_spec (mkSeries float64 (column_items c rs)))
    as (i & ti & v & Hi & Hmin & Hspec); [reflexivity|subst rs; discriminate|].
  simpl in Hi, Hmin, Hspec. rewrite Hspec in Hres.
  destruct (forallb PrimFloat.is_nan (values (column_items c rs)));
    [discriminate|]. injection Hres as ->.
  rewrite column_items_lookup in Hi.
  destruct (rs !! i) as [[t0 r]|] eqn:Ei; simpl in Hi; [|discriminate].
  injection Hi as -> <-.
  destruct Hmin as (m & Hm & Hall).
  rewrite filled_values_lookup, Ei in Hm. simpl in Hm. injection Hm as <-.
  exists r. split; [eapply list_elem_of_lookup_2; eauto|].
  intros t' r' Hin. apply list_elem_of_lookup_1 in Hin as [j Hj].
  assert (Hjv : map (fill_nan infinity) (values (column_items c rs)) !! j
                = Some (fill_nan infinity (cell c r')))
    by (rewrite filled_values_lookup, Hj; reflexivity).
  destruct (Hall j _ Hjv) as [Hle Hlt]. split; [exact Hle|].
  intros Hge. destruct (decide (j < i)%nat) as [Hji|Hji].
  - apply Hlt in Hji. apply FloatOrder.lt_not_le in Hji.
    unfold float_le in Hge. congruence.
  - eapply (increasing_lookup _ Hsorted i j).
    + rewrite labels_lookup, Ei. reflexivity.
    + rewrite labels_lookup, Hj. reflexivity.
    + lia.
Qed.

Lemma labels_filter_sorted (P : Timestamp -> bool) (rs : list (Timestamp * Row)) :
  StronglySorted Z.lt (labels rs) ->
  StronglySorted Z.lt (labels (filter (fun p => P (fst p) = true) rs)).
Proof.
  induction rs as [|[t r] rs IH]; intros Hs; [constructor|].
  simpl in Hs. apply StronglySorted_inv in Hs as [Hs Hall].
  rewrite filter_cons. destruct (decide (P (fst (t, r)) = true)); [|auto].
  simpl. constructor; [auto|].
  rewrite Forall_forall in Hall |- *. intros x Hx. apply Hall.
  unfold labels in *. change (map fst ?l) with (fst <$> l) in *.
  apply list_elem_of_fmap in Hx as ([t' r'] & -> & Hin).
  apply list_elem_of_filter in Hin as [_ Hin].
  apply list_elem_of_fmap. exists (t', r'). auto.
Qed.

(** Reading a column of the daily window. *)
Lemma daytime_inv (c : Column) (df : DataFrame) (s : Series) :
  daytime c df = Return s ->
  column_dtype c df = Some (dtype s) /\
  items s = column_items c
              (filter (fun p => in_pv_generation_hours (fst p) = true) (rows df)).
Proof.
  unfold daytime, getitem, between_time.
  replace (column_dtype c (with_rows _ df)) with (column_dtype c df)
    by (destruct c; reflexivity).
  destruct (column_dtype c df) as [d|]; [|discriminate].
  intros [= <-]. split; reflexivity.
Qed.

Lemma daytime_idxmax (c : Column) (df : DataFrame) (t : Timestamp) :
  StronglySorted Z.lt (labels (rows df)) ->
  obind (daytime c df) Series_idxmax = Return (Some t) ->
  earliest_max_in_window c df t.
Proof.
  intros Hsorted H.
  destruct (daytime c df) as [s|] eqn:Es; [|discriminate]. simpl in H.
  apply daytime_inv in Es as [_ Hitems].
  destruct s as [d its]. simpl in Hitems. subst its.
  destruct d; [discriminate|].
  apply idxmax_rows in H; [|apply labels_filter_sorted; exact Hsorted].
  destruct H as (r & Hin & Hall).
  apply list_elem_of_filter in Hin as [Hw Hin]. simpl in Hw.
  split; [apply in_pv_generation_hours_spec; exact Hw|].
  exists r. split; [exact Hin|].
  intros t' r' Hin' Hw'. apply Hall.
  apply list_elem_of_filter. split; [|exact Hin'].
  simpl. apply in_pv_generation_hours_spec. exact Hw'.
Qed.

Lemma daytime_idxmin (c : Column) (df : DataFrame) (t : Timestamp) :
  StronglySorted Z.lt (labels (rows df)) ->
  obind (daytime c df) Series_idxmin = Return (Some t) ->
  earliest_min_in_window c df t.
Proof.
  intros Hsorted H.
  destruct (daytime c df) as [s|] eqn:Es; [|discriminate]. simpl in H.
  apply daytime_inv in Es as [_ Hitems].
  destruct s as [d its]. simpl in Hitems. subst its.
  destruct d; [discriminate|].
  apply idxmin_rows in H; [|apply labels_filter_sorted; exact Hsorted].
  destruct H as (r & Hin & Hall).
  apply list_elem_of_filter in Hin as [Hw Hin]. simpl in Hw.
  split; [apply in_pv_generation_hours_spec; exact Hw|].
  exists r. split; [exact Hin|].
  intros t' r' Hin' Hw'. apply Hall.
  apply list_elem_of_filter. split; [|exact Hin'].
  simpl. apply in_pv_generation_hours_spec. exact Hw'.
Qed.

(** C2. On a frame whose index increases strictly, each candidate of a
    daytime criterion ([Max PV], [Max PV to Load Ratio],
    [Max PV minus Load], [Min Daytime Load]) that is a timestamp has its
    time of day in [08:00, 17:00], both ends included, so that no row
    outside the window is selected whatever its value; among the rows of
    the window it has the greatest (for [Min Daytime Load]: least) value
    of the criterion's column, and it is the earliest timestamp with that
    value. *)
Theorem daytime_criteria_in_window (pv_systems : list string) (df : DataFrame)
    (tps : list (string * Cell)) :
  StronglySorted Z.lt (labels (rows df)) ->
  compute_timepoints pv_systems df = Return tps ->
  (forall t : Timestamp,
     loc_getitem tps "Max PV" = Return (Some t) ->
     earliest_max_in_window PV df t) /\
  (forall t : Timestamp,
     loc_getitem tps "Max PV to Load Ratio" = Return (Some t) ->
     earliest_max_in_window PV_to_Load_Ratio df t) /\
  (forall t : Timestamp,
     loc_getitem tps "Max PV minus Load" = Return (Some t) ->
     earliest_max_in_window PV_minus_Load df t) /\
  (forall t : Timestamp,
     loc_getitem tps "Min Daytime Load" = Return (Some t) ->
     earliest_min_in_window Load df t).
Proof.
  intros Hsorted Htps.
  apply compute_timepoints_inv in Htps
    as (c1 & c5 & c6 & _ & _ & E6 & Hshape).
  destruct pv_systems as [|p ps].
  - subst tps.
    split; [|split; [|split]]; intros t Ht; simpl in Ht; try discriminate.
    injection Ht as ->. apply daytime_idxmin; assumption.
  - destruct Hshape as (c2 & c3 & c4 & E2 & E3 & E4 & ->).
    split; [|split; [|split]]; intros t Ht; simpl in Ht; injection Ht as ->.
    + apply daytime_idxmax; assumption.
    + apply daytime_idxmax; assumption.
    + apply daytime_idxmax; assumption.
    + apply daytime_idxmin; assumption.
Qed.

Lemma daytime_criteria_in_window_witness :
  (forall t : Timestamp,
     loc_getitem pv_with_idle_load_timepoints "Max PV" = Return (Some t) ->
     earliest_max_in_window PV pv_with_idle_load_profiles t) /\
  (forall t : Timestamp,
     loc_getitem pv_with_idle_load_timepoints "Max PV to Load Ratio" = Return (Some t) ->
     earliest_max_in_window PV_to_Load_Ratio pv_with_idle_load_profiles t) /\
  (forall t : Timestamp,
     loc_getitem pv_with_idle_load_timepoints "Max PV minus Load" = Return (Some t) ->
     earliest_max_in_window PV_minus_Load pv_with_idle_load_profiles t) /\
  (forall t : Timestamp,
     loc_getitem pv_with_idle_load_timepoints "Min Daytime Load" = Return (Some t) ->
     earliest_min_in_window Load pv_with_idle_load_profiles t).
Proof.
  apply (daytime_criteria_in_window (PVsystems_AllNames pv_with_idle_load)
           pv_with_idle_load_profiles pv_with_idle_load_timepoints).
  - vm_compute. repeat (constructor; try reflexivity).
  - vm_compute. reflexivity.
Defined.

(** ** What the aggregation establishes *)

Lemma index_equals_refl (l : list Timestamp) : index_equals l l = true.
Proof. induction l as [|x l IH]; simpl; [|rewrite Z.eqb_refl, IH]; reflexivity. Qed.

Lemma index_equals_length (a b : list Timestamp) :
  index_equals a b = true -> length a = length b.
Proof.
  revert b. induction a as [|x a IH]; intros [|y b]; simpl; try discriminate; auto.
  intros H. apply andb_true_iff in H as [_ H]. f_equal. auto.
Qed.

Lemma labels_length {A} (l : list (Timestamp * A)) : length (labels l) = length l.
Proof. unfold labels. apply length_map. Qed.

Lemma labels_zip_with_l {A B C} (f : A -> B -> C)
    (rs : list (Timestamp * A)) (its : list (Timestamp * B)) :
  length rs = length its ->
  labels (zip_with (fun r p => (fst r, f (snd r) (snd p))) rs its) = labels rs.
Proof.
  revert its. induction rs as [|r rs IH]; intros [|p its]; simpl;
    try discriminate; auto.
  intros [= H]. f_equal. auto.
Qed.

Lemma labels_map_fst {A B} (f : Timestamp * A -> B) (l : list (Timestamp * A)) :
  labels (map (fun p => (fst p, f p)) l) = labels l.
Proof. induction l as [|p l IH]; simpl; [|rewrite IH]; reflexivity. Qed.

Lemma zip_with_map_same {A B C D} (f : B -> C -> D) (g : A -> B) (h : A -> C)
    (l : list A) :
  zip_with f (map g l) (map h l) = map (fun x => f (g x) (h x)) l.
Proof. induction l as [|x l IH]; simpl; [|rewrite IH]; reflexivity. Qed.

Lemma zip_with_map_r_same {A C D} (f : A -> C -> D) (h : A -> C) (l : list A) :
  zip_with f l (map h l) = map (fun x => f x (h x)) l.
Proof. induction l as [|x l IH]; simpl; [|rewrite IH]; reflexivity. Qed.

Lemma labels_setitem (c : Column) (s : Series) (df : DataFrame) :
  labels (rows (setitem c s df)) =
    match rows df with
    | [] => labels (items s)
    | _ :: _ => labels (rows df)
    end.
Proof.
  unfold setitem.
  replace (rows (with_dtype c (dtype s) (with_rows _ df))) with
    (match rows df, items s with
     | [], _ :: _ => map (fun p => (fst p, set_cell c (snd p) nan_row)) (items s)
     | rs, its =>
         if index_equals (labels rs) (labels its) then
           zip_with (fun r p => (fst r, set_cell c (snd p) (snd r))) rs its
         else
           map (fun r => (fst r, set_cell c (default nan (lookup_label (fst r) its)) (snd r))) rs
     end) by (destruct c; reflexivity).
  destruct (rows df) as [|r rs] eqn:Er.
  - destruct (items s) as [|p its]; [reflexivity|].
    apply (labels_map_fst (fun p => set_cell c (snd p) nan_row)).
  - cbv iota zeta.
    destruct (index_equals (labels (r :: rs)) (labels (items s))) eqn:Ei.
    + apply (labels_zip_with_l (fun r v => set_cell c v r)).
      apply index_equals_length in Ei. rewrite !labels_length in Ei. exact Ei.
    + apply (labels_map_fst
               (fun r => set_cell c (default nan (lookup_label (fst r) (items s))) (snd r))).
Qed.

Lemma dtype_setitem_same (c : Column) (s : Series) (df : DataFrame) :
  column_dtype c (setitem c s df) = Some (dtype s).
Proof. destruct c; reflexivity. Qed.

Lemma dtype_setitem_other (c c' : Column) (s : Series) (df : DataFrame) :
  c <> c' -> column_dtype c' (setitem c s df) = column_dtype c' df.
Proof. destruct c, c'; try congruence; reflexivity. Qed.

Lemma labels_nil {A} (l : list (Timestamp * A)) : labels l = [] <-> l = [].
Proof. destruct l; simpl; split; congruence. Qed.

Lemma rows_setitem_nonempty (c : Column) (s : Series) (df : DataFrame) :
  rows df <> [] \/ items s <> [] -> rows (setitem c s df) <> [].
Proof.
  intros H Hnil. apply (proj2 (labels_nil _)) in Hnil.
  rewrite labels_setitem in Hnil.
  destruct (rows df); [|discriminate].
  apply (proj1 (labels_nil _)) in Hnil. destruct H as [H|H]; congruence.
Qed.

Lemma labels_replace_nan_0 (df : DataFrame) :
  labels (rows (replace_nan_0 df)) = labels (rows df).
Proof. apply (labels_map_fst (fun p => replace_nan_row (snd p))). Qed.

(** The timestamps of a shape increase strictly when its interval is
    positive. *)
Lemma indices_lower (n : nat) :
  forall (cur_time : Timestamp) (interval : Timedelta) (x : Timestamp),
    0 < interval -> x ∈ indices cur_time interval n -> cur_time <= x.
Proof.
  induction n as [|n IH]; intros cur_time interval x Hpos Hin; simpl in Hin.
  - apply elem_of_nil in Hin. destruct Hin.
  - apply elem_of_cons in Hin as [->|Hin]; [lia|].
    apply IH in Hin; lia.
Qed.

Lemma indices_sorted (n : nat) :
  forall (cur_time : Timestamp) (interval : Timedelta),
    0 < interval -> StronglySorted Z.lt (indices cur_time interval n).
Proof.
  induction n as [|n IH]; intros cur_time interval Hpos; simpl; constructor.
  - apply IH. exact Hpos.
  - apply Forall_forall. intros x Hx.
    apply indices_lower in Hx; lia.
Qed.

Lemma indices_length (n : nat) :
  forall (cur_time : Timestamp) (interval : Timedelta),
    length (indices cur_time interval n) = n.
Proof. induction n as [|n IH]; intros; simpl; [|rewrite IH]; reflexivity. Qed.

(** The contribution of a device: a numeric, non-empty series on the
    timestamps of its shape. *)
Lemma contribution_inv (settings : Settings) (shape : LoadShapeData) (x : float)
    (f : PmultFrame) (s : Series) :
  create_loadshape_pmult_dataframe settings shape = Return f ->
  PmultFrame_getitem0 (PmultFrame_mul f x) = Return s ->
  dtype s = float64 /\ items s <> [] /\
  labels (items s) =
    indices (loadshape_start_time settings) (SInterval shape) (Npts shape).
Proof.
  unfold create_loadshape_pmult_dataframe, pd_DataFrame, PmultFrame_getitem0,
    PmultFrame_mul.
  destruct (PMult shape) as [|v vs] eqn:Ep; [intros [= <-]; discriminate|].
  destruct (length (v :: vs) =? length _)%nat eqn:El; [|discriminate].
  apply Nat.eqb_eq in El.
  intros [= <-]. simpl. intros [= <-]. simpl.
  split; [reflexivity|].
  destruct (indices _ _ _) as [|t ts] eqn:Ei; [discriminate|].
  split; [discriminate|].
  simpl in El. injection El as El. simpl. f_equal.
  unfold labels. change (map fst ?l) with (fst <$> l).
  apply fst_zip. change (map ?g vs) with (g <$> vs).
  rewrite length_fmap. lia.
Qed.

Lemma Return_inj {A} (a b : A) : Return a = Return b -> a = b.
Proof. congruence. Qed.

Lemma for_each_invariant {S} (body : S -> string -> Outcome S) (I : S -> Prop) :
  (forall s x s', I s -> body s x = Return s' -> I s') ->
  forall (xs : list string) (s s' : S),
    I s -> for_each body xs s = Return s' -> I s'.
Proof.
  intros Hbody. induction xs as [|x xs IH]; intros s s' Hs H; simpl in H.
  - injection H as <-. exact Hs.
  - destruct (body s x) as [s1|] eqn:E; [|discriminate]. simpl in H.
    eapply IH; [|exact H]. eapply Hbody; eauto.
Qed.

Lemma len_zero (df : DataFrame) : (len df =? 0)%nat = true <-> rows df = [].
Proof.
  unfold len. rewrite Nat.eqb_eq. destruct (rows df); simpl; split; congruence.
Qed.

Lemma pv_body_uncached_after_pv (dss : OpenDSS) (settings : Settings)
    (df df' : DataFrame) (pv_name : string) :
  df = empty_aggregate_profiles \/ after_pv df ->
  pv_body_uncached dss settings df pv_name = Return df' ->
  after_pv df'.
Proof.
  intros Hdf. unfold pv_body_uncached.
  destruct (create_loadshape_pmult_dataframe _ _) as [f|] eqn:Ef; [|discriminate].
  cbn [obind]. destruct (PmultFrame_getitem0 _) as [s|] eqn:Es; [|discriminate].
  cbn [obind]. destruct (contribution_inv _ _ _ _ _ Ef Es) as (Hd & Hne & _).
  destruct Hdf as [->|(Hrows & HL & HP)].
  - replace (len empty_aggregate_profiles =? 0)%nat with true by reflexivity.
    cbv iota. intros H. apply Return_inj in H. subst df'. unfold after_pv. split; [|split].
    + intros Hnil. apply (proj2 (labels_nil _)) in Hnil.
      rewrite labels_replace_nan_0, labels_setitem in Hnil. simpl in Hnil.
      apply (proj1 (labels_nil _)) in Hnil. congruence.
    + reflexivity.
    + reflexivity.
  - destruct (len df =? 0)%nat eqn:El; [apply len_zero in El; congruence|].
    rewrite (getitem_numeric PV df float64 HP). cbn [obind]. intros H; apply Return_inj in H; subst df'.
    split; [apply rows_setitem_nonempty; auto|]. split.
    + rewrite <- HL. apply (dtype_setitem_other PV Load). discriminate.
    + rewrite (dtype_setitem_same PV : forall s df, dtype_PV (setitem PV s df) = _).
      simpl. rewrite Hd. reflexivity.
Qed.

Lemma load_body_uncached_populated (dss : OpenDSS) (settings : Settings)
    (df df' : DataFrame) (load_name : string) :
  rows df = [] \/ populated df ->
  load_body_uncached dss settings df load_name = Return df' ->
  populated df' /\ dtype_PV df' = dtype_PV df.
Proof.
  intros Hdf. unfold load_body_uncached.
  destruct (create_loadshape_pmult_dataframe _ _) as [f|] eqn:Ef; [|discriminate].
  cbn [obind]. destruct (PmultFrame_getitem0 _) as [s|] eqn:Es; [|discriminate].
  cbn [obind]. destruct (contribution_inv _ _ _ _ _ Ef Es) as (Hd & Hne & _).
  destruct Hdf as [Hnil|(Hrows & HL)].
  - apply len_zero in Hnil. rewrite Hnil. intros H; apply Return_inj in H; subst df'.
    split; [split|].
    + apply rows_setitem_nonempty; auto.
    + rewrite <- Hd. apply (dtype_setitem_same Load).
    + apply (dtype_setitem_other Load PV). discriminate.
  - destruct (len df =? 0)%nat eqn:El; [apply len_zero in El; congruence|].
    rewrite (getitem_numeric Load df float64 HL). cbn [obind]. intros H; apply Return_inj in H; subst df'.
    split; [split|].
    + apply rows_setitem_nonempty; auto.
    + rewrite (dtype_setitem_same Load : forall s df, dtype_Load (setitem Load s df) = _).
      simpl. rewrite Hd. reflexivity.
    + apply (dtype_setitem_other Load PV). discriminate.
Qed.

Lemma aggregate_pv_uncached_inv (dss : OpenDSS) (settings : Settings)
    (pv_systems : list string) (df : DataFrame) :
  aggregate_pv_uncached dss settings pv_systems = Return df ->
  match pv_systems with
  | [] => df = empty_aggregate_profiles
  | _ :: _ => after_pv df
  end.
Proof.
  unfold aggregate_pv_uncached. destruct pv_systems as [|p ps]; simpl.
  - intros [= <-]. reflexivity.
  - destruct (pv_body_uncached _ _ _ p) as [df1|] eqn:E1; [|discriminate].
    simpl. intros H.
    apply pv_body_uncached_after_pv in E1; [|left; reflexivity].
    eapply (for_each_invariant _ after_pv); [|exact E1|exact H].
    intros s x s' Hs Hb. eapply pv_body_uncached_after_pv; eauto.
Qed.

Lemma aggregate_loads_uncached_inv (dss : OpenDSS) (settings : Settings)
    (loads : list string) (df0 df : DataFrame) :
  rows df0 = [] \/ populated df0 ->
  aggregate_loads_uncached dss settings loads df0 = Return df ->
  match loads with
  | [] => df = df0
  | _ :: _ => populated df /\ dtype_PV df = dtype_PV df0
  end.
Proof.
  intros H0. unfold aggregate_loads_uncached. destruct loads as [|l ls]; simpl.
  - intros [= <-]. reflexivity.
  - destruct (load_body_uncached _ _ _ l) as [df1|] eqn:E1; [|discriminate].
    simpl. intros H.
    apply load_body_uncached_populated in E1; [|exact H0].
    eapply (for_each_invariant _
              (fun d => populated d /\ dtype_PV d = dtype_PV df0));
      [|exact E1|exact H].
    intros s x s' [Hs Hpv] Hb.
    eapply load_body_uncached_populated in Hb; [|right; exact Hs].
    destruct Hb as [Hp' Hpv']. split; [exact Hp'|congruence].
Qed.

Lemma Series_binop_columns (op : float -> float -> float) (d1 d2 : Dtype)
    (c1 c2 : Column) (rs : list (Timestamp * Row)) :
  Series_binop op (mkSeries d1 (column_items c1 rs)) (mkSeries d2 (column_items c2 rs))
  = mkSeries (result_dtype d1 d2)
      (map (fun q => (fst q, op (cell c1 (snd q)) (cell c2 (snd q)))) rs).
Proof.
  unfold Series_binop. simpl. f_equal.
  replace (index_equals _ _) with true.
  - unfold column_items.
    apply (zip_with_map_same (fun p q => (fst p, op (snd p) (snd q)))).
  - symmetry. unfold column_items.
    rewrite !(labels_map_fst (fun p => cell _ (snd p))).
    apply index_equals_refl.
Qed.

Lemma setitem_computed (c : Column) (d : Dtype) (g : Row -> float) (df : DataFrame) :
  setitem c (mkSeries d (map (fun q => (fst q, g (snd q))) (rows df))) df
  = with_dtype c d
      (with_rows (map (fun q => (fst q, set_cell c (g (snd q)) (snd q))) (rows df)) df).
Proof.
  unfold setitem. cbn [dtype items]. f_equal. f_equal.
  destruct (rows df) as [|r rs]; [reflexivity|]. cbv iota zeta.
  rewrite (labels_map_fst (fun q => g (snd q))), index_equals_refl.
  apply (zip_with_map_r_same
           (fun r p => (fst r, set_cell c (snd p) (snd r)))
           (fun q => (fst q, g (snd q)))).
Qed.

Lemma derive_columns_spec (p : string) (ps : list string) (agg : DataFrame)
    (d1 d2 : Dtype) :
  dtype_PV agg = Some d1 -> dtype_Load agg = Some d2 ->
  derive_columns (p :: ps) agg =
    Return (mkDataFrame (Some d2) (Some d1)
              (Some (result_dtype d1 d2)) (Some (result_dtype d1 d2))
              (map (fun q => (fst q, derived_row (snd q))) (rows agg))).
Proof.
  intros H1 H2. unfold derive_columns.
  rewrite (getitem_numeric PV agg d1 H1), (getitem_numeric Load agg d2 H2).
  cbn [obind]. rewrite Series_binop_columns.
  rewrite (setitem_computed PV_to_Load_Ratio _
             (fun r => PrimFloat.div (cell PV r) (cell Load r)) agg).
  set (agg1 := with_dtype PV_to_Load_Ratio _ _).
  rewrite (getitem_numeric PV agg1 d1 H1), (getitem_numeric Load agg1 d2 H2).
  cbn [obind]. rewrite Series_binop_columns.
  rewrite (setitem_computed PV_minus_Load _
             (fun r => PrimFloat.sub (cell PV r) (cell Load r)) agg1).
  subst agg1. unfold with_dtype, with_rows. simpl. rewrite H1, H2.
  f_equal. f_equal. rewrite map_map. reflexivity.
Qed.

(** The aggregate profiles of a circuit.  With PV systems every column is
    numeric, there is at least one row, and the derived cells of every row
    are the quotient and the difference of its PV and Load cells; with
    loads only, the Load column is numeric and there is at least one row;
    with no device at all the frame is as it was created. *)
Lemma build_aggregate_profiles_inv (dss : OpenDSS) (settings : Settings)
    (pv_systems : list string) (w w' : World) (df : DataFrame) :
  build_aggregate_profiles dss settings pv_systems w = (w', Return df) ->
  match pv_systems, Loads_AllNames dss with
  | [], [] => df = empty_aggregate_profiles
  | [], _ :: _ => populated df /\ dtype_PV_to_Load_Ratio df = None
  | _ :: _, _ =>
      exists agg : DataFrame,
        after_pv agg /\
        df = mkDataFrame (Some float64) (Some float64) (Some float64) (Some float64)
               (map (fun q => (fst q, derived_row (snd q))) (rows agg))
  end.
Proof.
  unfold build_aggregate_profiles, M_bind, lift.
  rewrite aggregate_pv_uncached_eq.
  destruct (aggregate_pv_uncached dss settings pv_systems) as [agg0|] eqn:Epv;
    [|discriminate].
  apply aggregate_pv_uncached_inv in Epv.
  destruct (log_no_loads (Loads_AllNames dss) w) as [w1 [[]|]]; [|discriminate].
  rewrite aggregate_loads_uncached_eq.
  destruct (aggregate_loads_uncached dss settings (Loads_AllNames dss) agg0)
    as [agg|] eqn:Eload; [|discriminate].
  intros H. injection H as _ Hd.
  destruct pv_systems as [|p ps].
  - subst agg0. simpl in Hd. apply Return_inj in Hd. subst df.
    pose proof Eload as Einv.
    apply aggregate_loads_uncached_inv in Einv; [|left; reflexivity].
    destruct (Loads_AllNames dss) as [|l ls]; [exact Einv|].
    destruct Einv as [Hp _]. split; [exact Hp|].
    unfold aggregate_loads_uncached in Eload. revert Eload.
    apply (for_each_invariant _ (fun d => dtype_PV_to_Load_Ratio d = None));
      [|reflexivity].
    intros s0 x s' Hs. unfold load_body_uncached.
    destruct (create_loadshape_pmult_dataframe _ _); [|discriminate].
    cbn [obind]. destruct (PmultFrame_getitem0 _); [|discriminate].
    cbn [obind]. destruct (len s0 =? 0)%nat.
    + intros H; apply Return_inj in H; subst s'.
      rewrite <- Hs. apply (dtype_setitem_other Load PV_to_Load_Ratio).
      discriminate.
    + destruct (getitem Load s0); [|discriminate]. cbn [obind].
      intros H; apply Return_inj in H; subst s'.
      rewrite <- Hs. apply (dtype_setitem_other Load PV_to_Load_Ratio).
      discriminate.
  - assert (after_pv agg) as Hagg.
    { apply aggregate_loads_uncached_inv in Eload;
        [|right; destruct Epv as (? & ? & ?); split; assumption].
      destruct (Loads_AllNames dss); [subst; exact Epv|].
      destruct Eload as [[Hr HL] HP]. destruct Epv as (_ & _ & HP0).
      split; [exact Hr|]. split; [exact HL|congruence]. }
    destruct Hagg as (Hr & HL & HP).
    rewrite (derive_columns_spec p ps agg float64 float64 HP HL) in Hd.
    apply Return_inj in Hd. exists agg. split; [repeat split; assumption|].
    symmetry. exact Hd.
Qed.

Lemma pv_body_uncached_sorted (dss : OpenDSS) (settings : Settings)
    (df df' : DataFrame) (pv_name : string) :
  (forall name, 0 < SInterval (LoadShape dss name)) ->
  StronglySorted Z.lt (labels (rows df)) ->
  pv_body_uncached dss settings df pv_name = Return df' ->
  StronglySorted Z.lt (labels (rows df')).
Proof.
  intros Hpos Hs. unfold pv_body_uncached.
  destruct (create_loadshape_pmult_dataframe _ _) as [f|] eqn:Ef; [|discriminate].
  cbn [obind]. destruct (PmultFrame_getitem0 _) as [s|] eqn:Es; [|discriminate].
  cbn [obind]. destruct (contribution_inv _ _ _ _ _ Ef Es) as (_ & _ & Hl).
  destruct (len df =? 0)%nat eqn:El.
  - intros H; apply Return_inj in H; subst df'.
    rewrite labels_replace_nan_0, labels_setitem.
    apply len_zero in El. rewrite El, Hl. apply indices_sorted. apply Hpos.
  - destruct (getitem PV df); [|discriminate]. cbn [obind].
    intros H; apply Return_inj in H; subst df'.
    rewrite labels_setitem. destruct (rows df) eqn:Er; [|exact Hs].
    exfalso. apply (proj2 (len_zero df)) in Er. congruence.
Qed.

Lemma load_body_uncached_sorted (dss : OpenDSS) (settings : Settings)
    (df df' : DataFrame) (load_name : string) :
  (forall name, 0 < SInterval (LoadShape dss name)) ->
  StronglySorted Z.lt (labels (rows df)) ->
  load_body_uncached dss settings df load_name = Return df' ->
  StronglySorted Z.lt (labels (rows df')).
Proof.
  intros Hpos Hs. unfold load_body_uncached.
  destruct (create_loadshape_pmult_dataframe _ _) as [f|] eqn:Ef; [|discriminate].
  cbn [obind]. destruct (PmultFrame_getitem0 _) as [s|] eqn:Es; [|discriminate].
  cbn [obind]. destruct (contribution_inv _ _ _ _ _ Ef Es) as (_ & _ & Hl).
  destruct (len df =? 0)%nat eqn:El.
  - intros H; apply Return_inj in H; subst df'.
    rewrite labels_setitem.
    apply len_zero in El. rewrite El, Hl. apply indices_sorted. apply Hpos.
  - destruct (getitem Load df); [|discriminate]. cbn [obind].
    intros H; apply Return_inj in H; subst df'.
    rewrite labels_setitem. destruct (rows df) eqn:Er; [|exact Hs].
    exfalso. apply (proj2 (len_zero df)) in Er. congruence.
Qed.

Lemma derive_columns_labels (pv_systems : list string) (agg df : DataFrame) :
  derive_columns pv_systems agg = Return df ->
  labels (rows df) = labels (rows agg).
Proof.
  destruct pv_systems as [|p ps].
  - intros H; apply Return_inj in H; subst df. reflexivity.
  - destruct (dtype_PV agg) as [d1|] eqn:E1;
      [|unfold derive_columns, getitem; simpl; rewrite E1; discriminate].
    destruct (dtype_Load agg) as [d2|] eqn:E2;
      [|unfold derive_columns, getitem; simpl; rewrite E1, E2; discriminate].
    rewrite (derive_columns_spec p ps agg d1 d2 E1 E2).
    intros H; apply Return_inj in H; subst df.
    apply (labels_map_fst (fun q => derived_row (snd q))).
Qed.

(** When every shape has a positive sampling interval, the index of the
    aggregate profiles increases strictly. *)
Lemma build_aggregate_profiles_sorted (dss : OpenDSS) (settings : Settings)
    (pv_systems : list string) (w w' : World) (df : DataFrame) :
  (forall name, 0 < SInterval (LoadShape dss name)) ->
  build_aggregate_profiles dss settings pv_systems w = (w', Return df) ->
  StronglySorted Z.lt (labels (rows df)).
Proof.
  intros Hpos. unfold build_aggregate_profiles, M_bind, lift.
  rewrite aggregate_pv_uncached_eq.
  destruct (aggregate_pv_uncached dss settings pv_systems) as [agg0|] eqn:Epv;
    [|discriminate].
  destruct (log_no_loads (Loads_AllNames dss) w) as [w1 [[]|]]; [|discriminate].
  rewrite aggregate_loads_uncached_eq.
  destruct (aggregate_loads_uncached dss settings (Loads_AllNames dss) agg0)
    as [agg|] eqn:Eload; [|discriminate].
  intros H. injection H as _ Hd.
  rewrite (derive_columns_labels _ _ _ Hd).
  unfold aggregate_loads_uncached in Eload.
  eapply (for_each_invariant _ (fun d => StronglySorted Z.lt (labels (rows d))));
    [| |exact Eload].
  - intros s x s' Hs Hb. eapply load_body_uncached_sorted; eauto.
  - unfold aggregate_pv_uncached in Epv.
    eapply (for_each_invariant _ (fun d => StronglySorted Z.lt (labels (rows d))));
      [| |exact Epv].
    + intros s x s' Hs Hb. eapply pv_body_uncached_sorted; eauto.
    + constructor.
Qed.

(** ** Without loads the Load column is zero *)




(** ** Division by a zero Load *)













(** ** What a call can raise *)

Lemma obind_builtin {A B} (o : Outcome A) (k : A -> Outcome B) :
  raises_builtin o -> (forall a, raises_builtin (k a)) ->
  raises_builtin (obind o k).
Proof. destruct o; simpl; auto. Qed.

Lemma for_each_builtin {S} (body : S -> string -> Outcome S) :
  (forall s x, raises_builtin (body s x)) ->
  forall xs s, raises_builtin (for_each body xs s).
Proof.
  intros Hb. induction xs as [|x xs IH]; intros s; simpl; [exact I|].
  apply obind_builtin; auto.
Qed.

Ltac builtin_cases :=
  repeat first
    [ exact I
    | progress intros
    | apply obind_builtin
    | match goal with
      | |- raises_builtin (match ?x with _ => _ end) => destruct x
      | |- raises_builtin (if ?x then _ else _) => destruct x
      end
    | progress (cbn [raises_builtin builtin_exception]) ].

Lemma create_loadshape_pmult_dataframe_builtin (settings : Settings)
    (shape : LoadShapeData) :
  raises_builtin (create_loadshape_pmult_dataframe settings shape).
Proof. unfold create_loadshape_pmult_dataframe, pd_DataFrame. builtin_cases. Qed.

Lemma PmultFrame_getitem0_builtin (f : PmultFrame) :
  raises_builtin (PmultFrame_getitem0 f).
Proof. unfold PmultFrame_getitem0. builtin_cases. Qed.

Lemma getitem_builtin (c : Column) (df : DataFrame) : raises_builtin (getitem c df).
Proof. unfold getitem. builtin_cases. Qed.

Lemma dict_getitem_builtin {V} (d : gmap string V) (key : string) :
  raises_builtin (dict_getitem d key).
Proof. unfold dict_getitem. builtin_cases. Qed.

Lemma Series_idxmax_builtin (s : Series) : raises_builtin (Series_idxmax s).
Proof. unfold Series_idxmax, nanargmax, np_argmax. builtin_cases. Qed.

Lemma Series_idxmin_builtin (s : Series) : raises_builtin (Series_idxmin s).
Proof. unfold Series_idxmin, nanargmin, np_argmin. builtin_cases. Qed.

Lemma loc_getitem_builtin (tps : list (string * Cell)) (label : string) :
  raises_builtin (loc_getitem tps label).
Proof.
  induction tps as [|[l c] tps IH]; simpl; [exact I|].
  destruct (String.eqb l label); [exact I|exact IH].
Qed.

Lemma select_column_builtin (mode : SnapshotTimePointSelectionMode) :
  raises_builtin (select_column mode).
Proof. destruct mode; exact I. Qed.

Lemma pv_body_builtin (dss : OpenDSS) (settings : Settings)
    (st : DataFrame * gmap string PmultFrame) (pv_name : string) :
  raises_builtin (pv_body dss settings st pv_name).
Proof.
  unfold pv_body. apply obind_builtin.
  - destruct (snd st !! _); [exact I|]. apply obind_builtin; [|intros; exact I].
    apply create_loadshape_pmult_dataframe_builtin.
  - intros cache. apply obind_builtin; [apply dict_getitem_builtin|].
    intros shape. apply obind_builtin; [apply PmultFrame_getitem0_builtin|].
    intros s. destruct (len (fst st) =? 0)%nat; [exact I|].
    apply obind_builtin; [apply getitem_builtin|intros; exact I].
Qed.

Lemma load_body_builtin (dss : OpenDSS) (settings : Settings)
    (st : DataFrame * gmap string PmultFrame) (load_name : string) :
  raises_builtin (load_body dss settings st load_name).
Proof.
  unfold load_body. apply obind_builtin.
  - destruct (snd st !! _); [exact I|]. apply obind_builtin; [|intros; exact I].
    apply create_loadshape_pmult_dataframe_builtin.
  - intros cache. apply obind_builtin; [apply dict_getitem_builtin|].
    intros shape. apply obind_builtin; [apply PmultFrame_getitem0_builtin|].
    intros s. destruct (len (fst st) =? 0)%nat; [exact I|].
    apply obind_builtin; [apply getitem_builtin|intros; exact I].
Qed.

Lemma derive_columns_builtin (pv_systems : list string) (df : DataFrame) :
  raises_builtin (derive_columns pv_systems df).
Proof.
  unfold derive_columns. destruct pv_systems; [exact I|].
  repeat (apply obind_builtin; [apply getitem_builtin|intros]). exact I.
Qed.

Lemma compute_timepoints_builtin (pv_systems : list string) (df : DataFrame) :
  raises_builtin (compute_timepoints pv_systems df).
Proof.
  assert (Hmax : forall o, raises_builtin o -> raises_builtin (obind o Series_idxmax))
    by (intros o Ho; apply obind_builtin; [exact Ho|apply Series_idxmax_builtin]).
  assert (Hmin : forall o, raises_builtin o -> raises_builtin (obind o Series_idxmin))
    by (intros o Ho; apply obind_builtin; [exact Ho|apply Series_idxmin_builtin]).
  unfold compute_timepoints.
  apply obind_builtin; [apply Hmax, getitem_builtin|]. intros c1.
  apply obind_builtin.
  - destruct pv_systems; [exact I|].
    repeat (apply obind_builtin; [apply Hmax, getitem_builtin|intros]). exact I.
  - intros tps. apply obind_builtin; [apply Hmin, getitem_builtin|]. intros c5.
    apply obind_builtin; [apply Hmin, getitem_builtin|]. intros; exact I.
Qed.

(** No call raises an exception of DISCO: what is raised is an
    [AssertionError], or an error of pandas or of a dictionary. *)
Lemma get_snapshot_timepoint_builtin (dss : OpenDSS) (settings : Settings)
    (mode : SnapshotTimePointSelectionMode) (output_filename : string)
    (w w' : World) (e : PyException) :
  get_snapshot_timepoint dss settings mode output_filename w = (w', Raise e) ->
  builtin_exception e.
Proof.
  unfold get_snapshot_timepoint, M_bind, lift, logger_info, dump_data.
  destruct (resolve_mode_returns (PVsystems_AllNames dss) mode w) as (w1 & -> & _).
  pose proof (select_column_builtin
                (match PVsystems_AllNames dss with [] => MAX_LOAD | _ :: _ => mode end))
    as Hsel.
  destruct (select_column _) as [column|e0]; [|intros [= _ <-]; exact Hsel].
  assert (Hbuild : forall w2 e2,
             build_aggregate_profiles dss settings (PVsystems_AllNames dss) w1
               = (w2, Raise e2) -> builtin_exception e2).
  { unfold build_aggregate_profiles, M_bind, lift. intros w2 e2.
    pose proof (for_each_builtin (pv_body dss settings) (pv_body_builtin dss settings)
                  (PVsystems_AllNames dss) (empty_aggregate_profiles, ∅)) as Hpv.
    unfold aggregate_pv.
    destruct (for_each (pv_body dss settings) _ _) as [st|e3]; simpl;
      [|intros [= _ <-]; exact Hpv].
    destruct (log_no_loads (Loads_AllNames dss) w1) as [w3 [[]|e3]] eqn:Elog.
    - pose proof (for_each_builtin (load_body dss settings) (load_body_builtin dss settings)
                    (Loads_AllNames dss) (fst st, ∅)) as Hload.
      unfold aggregate_loads.
      destruct (for_each (load_body dss settings) _ _) as [st'|e4]; simpl;
        [|intros [= _ <-]; exact Hload].
      pose proof (derive_columns_builtin (PVsystems_AllNames dss) (fst st')) as Hder.
      destruct (derive_columns _ _); [discriminate|intros [= _ <-]; exact Hder].
    - unfold log_no_loads, logger_info, M_ret in Elog.
      destruct (Loads_AllNames dss); discriminate. }
  destruct (build_aggregate_profiles _ _ _ w1) as [w2 [df|e2]] eqn:Eb;
    [|intros [= _ <-]; eapply Hbuild; reflexivity].
  pose proof (compute_timepoints_builtin (PVsystems_AllNames dss) df) as Htps.
  destruct (compute_timepoints _ df) as [tps|e3]; [|intros [= _ <-]; exact Htps].
  simpl. pose proof (loc_getitem_builtin tps column) as Hget.
  destruct (loc_getitem tps column); [discriminate|intros [= _ <-]; exact Hget].
Qed.

(** ** The outcome of a call, apart from the log and the files *)

Lemma build_aggregate_profiles_outcome (dss : OpenDSS) (settings : Settings) (w : World) :
  snd (build_aggregate_profiles dss settings (PVsystems_AllNames dss) w)
    = aggregate_outcome dss settings.
Proof.
  unfold build_aggregate_profiles, aggregate_outcome, M_bind, lift.
  destruct (aggregate_pv dss settings _) as [agg|]; [|reflexivity].
  cbn [obind].
  destruct (log_no_loads (Loads_AllNames dss) w) as [w1 [[]|e]] eqn:El.
  - destruct (aggregate_loads dss settings _ agg); reflexivity.
  - unfold log_no_loads, logger_info, M_ret in El.
    destruct (Loads_AllNames dss); discriminate.
Qed.

(** What a call returns or raises is a function of the circuit, the
    settings and the effective mode alone. *)
Lemma get_snapshot_timepoint_outcome (dss : OpenDSS) (settings : Settings)
    (mode : SnapshotTimePointSelectionMode) (output_filename : string) (w : World) :
  snd (get_snapshot_timepoint dss settings mode output_filename w)
    = selection_outcome dss settings
        (match PVsystems_AllNames dss with [] => MAX_LOAD | _ :: _ => mode end).
Proof.
  unfold get_snapshot_timepoint, selection_outcome, M_bind, lift, logger_info, dump_data.
  destruct (resolve_mode_returns (PVsystems_AllNames dss) mode w) as (w1 & -> & _).
  destruct (select_column _) as [column|]; [|reflexivity]. cbn [obind].
  rewrite <- (build_aggregate_profiles_outcome dss settings w1).
  destruct (build_aggregate_profiles _ _ _ w1) as [w2 [df|]]; [|reflexivity].
  cbn [snd obind].
  destruct (compute_timepoints _ df) as [tps|]; [|reflexivity].
  cbn [obind]. destruct (loc_getitem tps column); reflexivity.
Qed.

(** ** Unsupported modes *)

(** C6, as the code has it: a failing instance of the claim.  With PV
    systems present the mode [NONE] ends in an [AssertionError], not in the
    configuration exception of DISCO; and a PV-dependent mode requested
    without PV systems raises nothing of the kind: the call selects
    [Max Load] and returns. *)
Lemma unsupported_mode_is_assertion_error :
  get_snapshot_timepoint one_pv_one_load from_2020_01_01 NONE
    "snapshot_time_points.json" empty_world
    = (empty_world,
       Raise (AssertionError "SnapshotTimePointSelectionMode.NONE is not supported")) /\
  (forall msg : string,
     snd (get_snapshot_timepoint one_pv_one_load from_2020_01_01 NONE
            "snapshot_time_points.json" empty_world)
       <> Raise (DiscoException AnalysisConfigurationException msg)) /\
  PVsystems_AllNames load_only = [] /\
  snd (get_snapshot_timepoint load_only from_2020_01_01_08 MAX_PV_LOAD_RATIO
         "snapshot_time_points.json" empty_world)
    = Return (Some (datetime 2020 1 1 10 0)).
Proof.
  split; [vm_compute; reflexivity|].
  split; [intros msg; vm_compute; discriminate|].
  split; [reflexivity|vm_compute; reflexivity].
Qed.

(** C6, amended.  With PV systems present the mode [NONE] is the one mode
    without a criterion: the call raises an [AssertionError] saying that
    the mode is not supported, before any profile is built, and leaves the
    log and the files as they were.  Without PV systems no mode is
    rejected: every mode gives what [MAX_LOAD] gives.  No call raises an
    exception of DISCO. *)
Theorem unsupported_mode_raises_assertion_error (dss : OpenDSS) (settings : Settings)
    (output_filename : string) (w : World) :
  (PVsystems_AllNames dss <> [] ->
     get_snapshot_timepoint dss settings NONE output_filename w
       = (w, Raise (AssertionError
                      "SnapshotTimePointSelectionMode.NONE is not supported"))) /\
  (PVsystems_AllNames dss = [] ->
     forall mode : SnapshotTimePointSelectionMode,
       select_column
         (match PVsystems_AllNames dss with [] => MAX_LOAD | _ :: _ => mode end)
         = Return "Max Load" /\
       snd (get_snapshot_timepoint dss settings mode output_filename w)
         = snd (get_snapshot_timepoint dss settings MAX_LOAD output_filename w)) /\
  (forall (mode : SnapshotTimePointSelectionMode) (w' : World) (e : PyException),
     get_snapshot_timepoint dss settings mode output_filename w = (w', Raise e) ->
     forall (cls : DiscoExceptionClass) (msg : string), e <> DiscoException cls msg).
Proof.
  split; [|split].
  - intros Hpv. unfold get_snapshot_timepoint, M_bind, lift.
    destruct (PVsystems_AllNames dss) as [|p ps]; [congruence|]. reflexivity.
  - intros Hpv mode. rewrite !get_snapshot_timepoint_outcome, Hpv.
    split; reflexivity.
  - intros mode w' e H cls msg ->.
    apply get_snapshot_timepoint_builtin in H. exact H.
Qed.

Lemma unsupported_mode_raises_assertion_error_witness :
  get_snapshot_timepoint one_pv_one_load from_2020_01_01 NONE
    "snapshot_time_points.json" empty_world
    = (empty_world,
       Raise (AssertionError "SnapshotTimePointSelectionMode.NONE is not supported")) /\
  (select_column
     (match PVsystems_AllNames load_only with
      | [] => MAX_LOAD
      | _ :: _ => DAYTIME_MIN_LOAD
      end) = Return "Max Load" /\
   snd (get_snapshot_timepoint load_only from_2020_01_01_08 DAYTIME_MIN_LOAD
          "snapshot_time_points.json" empty_world)
     = snd (get_snapshot_timepoint load_only from_2020_01_01_08 MAX_LOAD
              "snapshot_time_points.json" empty_world)) /\
  (forall (cls : DiscoExceptionClass) (msg : string),
     AssertionError "SnapshotTimePointSelectionMode.NONE is not supported"
       <> DiscoException cls msg).
Proof.
  split; [|split].
  - apply (proj1 (unsupported_mode_raises_assertion_error one_pv_one_load
                    from_2020_01_01 "snapshot_time_points.json" empty_world)).
    discriminate.
  - apply (proj1 (proj2 (unsupported_mode_raises_assertion_error load_only
                           from_2020_01_01_08 "snapshot_time_points.json" empty_world))).
    reflexivity.
  - apply (proj2 (proj2 (unsupported_mode_raises_assertion_error one_pv_one_load
                           from_2020_01_01 "snapshot_time_points.json" empty_world))
             NONE empty_world).
    vm_compute. reflexivity.
Defined.

(** ** A daily window without points *)







(** ** The premises on the aggregate profiles, from the code *)

(** The frame that the aggregation builds for a circuit with at least one
    device has rows and a numeric Load column; its index increases
    strictly when the shapes have a positive sampling interval. *)
Lemma build_aggregate_profiles_premises (dss : OpenDSS) (settings : Settings)
    (w w' : World) (df : DataFrame) :
  PVsystems_AllNames dss <> [] \/ Loads_AllNames dss <> [] ->
  (forall name, 0 < SInterval (LoadShape dss name)) ->
  build_aggregate_profiles dss settings (PVsystems_AllNames dss) w = (w', Return df) ->
  dtype_Load df = Some float64 /\ rows df <> [] /\
  StronglySorted Z.lt (labels (rows df)).
Proof.
  intros Hdev Hpos Hbuild.
  pose proof (build_aggregate_profiles_sorted _ _ _ _ _ _ Hpos Hbuild) as Hs.
  apply build_aggregate_profiles_inv in Hbuild.
  destruct (PVsystems_AllNames dss) as [|p ps].
  - destruct (Loads_AllNames dss) as [|l ls]; [destruct Hdev; congruence|].
    destruct Hbuild as [[Hr HL] _]. auto.
  - destruct Hbuild as (agg & (Hr & _ & _) & ->). simpl in *.
    split; [reflexivity|]. split; [|exact Hs].
    destruct (rows agg); [congruence|discriminate].
Qed.

Example two_pv_one_shape_aggregate :
  (column_items PV ∘ rows) <$>
    match aggregate_pv two_pv_one_shape from_2020_01_01 ["pv1"; "pv2"] with
    | Return df => Some df
    | Raise _ => None
    end
  = Some [(datetime 2020 1 1 0 0, 1.6%float); (datetime 2020 1 1 1 0, 6.4%float);
          (datetime 2020 1 1 2 0, 8%float); (datetime 2020 1 1 3 0, 2.4%float)].
Proof. vm_compute. reflexivity. Qed.

(** * One PV system and one load on the shape ["S1"]: what the call does *)



(** * Error codes ([disco/exceptions.py]) *)

Lemma get_error_code_disco (c : DiscoExceptionClass) :
  exists n : Z,
    get_error_code_from_exception (DiscoClass c) = inl n /\
    n ∈ [1; 114; 115; 116; 117; 118; 119; 120; 121; 122; 123; 124; 125].
Proof.
  destruct c; eexists; (split; [vm_compute; reflexivity|]);
    repeat first [apply list_elem_of_here | apply list_elem_of_further].
Qed.

Lemma get_error_code_derived (qualname : string) (base : PyClass) (n : Z) :
  get_error_code_from_exception (DerivedClass qualname base) = inl n -> n = 1.
Proof.
  unfold get_error_code_from_exception.
  destruct (negb _); [discriminate|].
  simpl. intros [= <-]. reflexivity.
Qed.

Lemma get_error_code_foreign (qualname : string) :
  get_error_code_from_exception (ForeignClass qualname)
  = inr (Exception ("exception=" ++ class_str (ForeignClass qualname) ++ " is not handled")).
Proof. reflexivity. Qed.

Lemma get_error_code_cases (cls : PyClass) (n : Z) :
  get_error_code_from_exception cls = inl n ->
  n ∈ [1; 114; 115; 116; 117; 118; 119; 120; 121; 122; 123; 124; 125].
Proof.
  destruct cls as [c|q base|q].
  - destruct (get_error_code_disco c) as (m & -> & Hm). intros [= <-]. exact Hm.
  - intros ->%get_error_code_derived. apply list_elem_of_here.
  - rewrite get_error_code_foreign. discriminate.
Qed.

(** X1: an error code other than the generic code 1 identifies the class:
    no two classes are given the same code of the table. *)
Theorem error_code_identifies_class (cls1 cls2 : PyClass) (n : Z) :
  get_error_code_from_exception cls1 = inl n ->
  get_error_code_from_exception cls2 = inl n ->
  n <> 1 ->
  cls1 = cls2.
Proof.
  intros H1 H2 Hn.
  destruct cls1 as [c1|q1 b1|q1];
    [|apply get_error_code_derived in H1; contradiction
     |rewrite get_error_code_foreign in H1; discriminate].
  destruct cls2 as [c2|q2 b2|q2];
    [|apply get_error_code_derived in H2; contradiction
     |rewrite get_error_code_foreign in H2; discriminate].
  destruct c1; vm_compute in H1; injection H1 as <-;
    destruct c2; vm_compute in H2; first [reflexivity | discriminate | contradiction].
Qed.

Lemma error_code_identifies_class_witness :
  DiscoClass OpenDssCompileError = DiscoClass OpenDssCompileError.
Proof.
  apply (error_code_identifies_class
           (DiscoClass OpenDssCompileError) (DiscoClass OpenDssCompileError) 118);
    [reflexivity | reflexivity | discriminate].
Defined.

(** X2: [get_error_code_from_exception] raises exactly for the classes that
    do not derive from [DiscoBaseException]; for every other class it
    answers 1 or a code from 114 to 125, never the code 0 of a success; it
    answers the generic code 1 exactly for the classes that are no key of
    the table, among them [DiscoBaseException] itself,
    [AnalysisRunException] and every class derived from a class of the
    table. *)
Theorem error_code_generic_or_mapped (cls : PyClass) :
  match get_error_code_from_exception cls with
  | inl n =>
      issubclass_DiscoBaseException cls = true /\
      n <> 0 /\
      (n = 1 \/ 114 <= n <= 125) /\
      (n = 1 <-> class_dict_get EXCEPTIONS_TO_ERROR_CODES cls = None) /\
      (n = 1 <->
       cls = DiscoClass DiscoBaseException \/ cls = DiscoClass AnalysisRunException \/
       exists qualname base, cls = DerivedClass qualname base)
  | inr (Exception msg) =>
      issubclass_DiscoBaseException cls = false /\
      msg = ("exception=" ++ class_str cls ++ " is not handled")%string
  end.
Proof.
  destruct cls as [c|q base|q].
  - destruct c;
      match goal with
      | |- context [get_error_code_from_exception ?x] =>
          let v := eval vm_compute in (get_error_code_from_exception x) in
          change (get_error_code_from_exception x) with v
      end;
      match goal with
      | |- context [class_dict_get ?d ?x] =>
          let v := eval vm_compute in (class_dict_get d x) in
          change (class_dict_get d x) with v
      end;
      cbv beta iota;
      (split; [reflexivity|]);
      (split; [discriminate|]);
      (split; [first [left; reflexivity | right; lia]|]);
      (split; [split; intros; first [reflexivity | discriminate]|]);
      first [ split; [intros _; first [left; reflexivity | right; left; reflexivity]
                     |intros; reflexivity]
            | split; [discriminate|]; intros [[=]|[[=]|(? & ? & [=])]] ].
  - unfold get_error_code_from_exception.
    destruct (issubclass_DiscoBaseException (DerivedClass q base)) eqn:Hsub; simpl negb;
      cbv iota.
    + simpl class_dict_get.
      repeat split; try discriminate; try reflexivity; try (left; reflexivity).
      intros _. right; right. eauto.
    + split; reflexivity.
  - split; reflexivity.
Qed.

(** X3: an error code that [get_error_code_from_exception] answers is a
    convergence error for [is_convergence_error] exactly when the class is
    one of the four convergence classes of the module; the generic code of
    a class derived from one of them is not. *)
Theorem convergence_codes_are_convergence_classes (cls : PyClass) (n : Z) :
  get_error_code_from_exception cls = inl n ->
  (is_convergence_error n = true <-> cls ∈ convergence_classes).
Proof.
  intros H. unfold convergence_classes.
  destruct cls as [c|q base|q].
  - destruct c; vm_compute in H; injection H as <-;
      (split; [intros Hc; vm_compute in Hc;
               first [discriminate
                     | repeat first [apply list_elem_of_here | apply list_elem_of_further]]
              |intros Hin; first [reflexivity
                                 | exfalso; repeat (apply elem_of_cons in Hin as [[=]|Hin]);
                                   apply elem_of_nil in Hin; exact Hin]]).
  - apply get_error_code_derived in H. subst n.
    split; [intros Hc; vm_compute in Hc; discriminate|].
    intros Hin. exfalso. repeat (apply elem_of_cons in Hin as [[=]|Hin]).
    apply elem_of_nil in Hin; exact Hin.
  - rewrite get_error_code_foreign in H. discriminate.
Qed.

Lemma convergence_codes_are_convergence_classes_witness :
  is_convergence_error 121 = true <->
  DiscoClass PyDssConvergenceErrorCountExceeded ∈ convergence_classes.
Proof.
  apply (convergence_codes_are_convergence_classes
           (DiscoClass PyDssConvergenceErrorCountExceeded) 121).
  reflexivity.
Defined.

(** * The table of return codes ([docs/generate_tables.py]) *)

Lemma generate_return_codes_file (output_dir : Path) (fs : gmap Path string) :
  generate_return_codes output_dir fs !! return_codes_csv output_dir
  = Some (fold_left write_item (map snd EXCEPTIONS_TO_ERROR_CODES)
            (write ("1,Generic error," ++ NEWLINE)
               (write ("0,Success," ++ NEWLINE)
                  (write (String.concat TAB (chars return_codes_header) ++ NEWLINE)
                     EmptyString)))).
Proof. unfold generate_return_codes. apply lookup_insert_eq. Qed.

Lemma existsb_elem_of {A} (f : A -> bool) (l : list A) :
  existsb f l = true -> exists x, x ∈ l /\ f x = true.
Proof.
  intros (x & Hin & Hx)%existsb_exists. exists x.
  split; [apply list_elem_of_In; exact Hin | exact Hx].
Qed.

Lemma forallb_elem_of {A} (f : A -> bool) (l : list A) (x : A) :
  forallb f l = true -> x ∈ l -> f x = true.
Proof.
  intros H Hin. rewrite forallb_forall in H.
  apply H, list_elem_of_In, Hin.
Qed.

(** X4: the table [return_codes.csv] has a row for every code that
    [get_error_code_from_exception] can answer. *)
Theorem return_codes_table_lists_every_code (output_dir : Path)
    (fs : gmap Path string) (cls : PyClass) (n : Z) :
  get_error_code_from_exception cls = inl n ->
  exists text line : string,
    generate_return_codes output_dir fs !! return_codes_csv output_dir = Some text /\
    line ∈ split_newline text /\ row_of_code n line.
Proof.
  intros Hn%get_error_code_cases.
  eexists. rewrite generate_return_codes_file.
  cut (exists line, line ∈ split_newline
         (fold_left write_item (map snd EXCEPTIONS_TO_ERROR_CODES)
            (write ("1,Generic error," ++ NEWLINE)
               (write ("0,Success," ++ NEWLINE)
                  (write (String.concat TAB (chars return_codes_header) ++ NEWLINE)
                     EmptyString)))) /\ row_of_code n line).
  { intros (line & Hin & Hrow). exists line. split; [reflexivity|]. split; assumption. }
  unfold row_of_code.
  repeat (apply elem_of_cons in Hn as [->|Hn];
          [apply existsb_elem_of; vm_compute; reflexivity|]).
  apply elem_of_nil in Hn. contradiction.
Qed.

Lemma return_codes_table_lists_every_code_witness :
  exists text line : string,
    generate_return_codes ["docs"; "source"] ∅ !! return_codes_csv ["docs"; "source"]
      = Some text /\
    line ∈ split_newline text /\ row_of_code 120 line.
Proof.
  apply (return_codes_table_lists_every_code ["docs"; "source"] ∅
           (DiscoClass PyDssConvergenceError) 120).
  reflexivity.
Defined.

(** X5: after its first line, every row of [return_codes.csv] is the row of
    the code 0 of a success or of a code that
    [get_error_code_from_exception] answers for some class of the module. *)
Theorem return_codes_table_rows_are_codes (output_dir : Path)
    (fs : gmap Path string) (text line : string) :
  generate_return_codes output_dir fs !! return_codes_csv output_dir = Some text ->
  line ∈ drop 1 (split_newline text) ->
  line <> EmptyString ->
  exists n : Z,
    row_of_code n line /\
    (n = 0 \/ exists c : DiscoExceptionClass,
                get_error_code_from_exception (DiscoClass c) = inl n).
Proof.
  rewrite generate_return_codes_file. intros [= <-] Hin Hne.
  assert (Hrow : is_row_of_some_code line = true).
  { revert Hin. apply forallb_elem_of. vm_compute. reflexivity. }
  unfold is_row_of_some_code in Hrow.
  destruct line as [|a line]; [contradiction|].
  apply existsb_elem_of in Hrow as (n & Hn & Hrow).
  exists n. split; [exact Hrow|].
  clear -Hn.
  apply elem_of_cons in Hn as [->|Hn]; [left; reflexivity|right].
  apply elem_of_cons in Hn as [->|Hn]; [exists DiscoBaseException; reflexivity|].
  apply elem_of_cons in Hn as [->|Hn];
    [exists AnalysisConfigurationException; reflexivity|].
  apply elem_of_cons in Hn as [->|Hn]; [exists ExceededParallelLinesLimit; reflexivity|].
  apply elem_of_cons in Hn as [->|Hn];
    [exists ExceededParallelTransformersLimit; reflexivity|].
  apply elem_of_cons in Hn as [->|Hn]; [exists InvalidOpenDssElementError; reflexivity|].
  apply elem_of_cons in Hn as [->|Hn]; [exists OpenDssCompileError; reflexivity|].
  apply elem_of_cons in Hn as [->|Hn]; [exists OpenDssConvergenceError; reflexivity|].
  apply elem_of_cons in Hn as [->|Hn]; [exists PyDssConvergenceError; reflexivity|].
  apply elem_of_cons in Hn as [->|Hn];
    [exists PyDssConvergenceErrorCountExceeded; reflexivity|].
  apply elem_of_cons in Hn as [->|Hn]; [exists PyDssConvergenceMaxError; reflexivity|].
  apply elem_of_cons in Hn as [->|Hn];
    [exists UpgradesExternalCatalogRequired; reflexivity|].
  apply elem_of_cons in Hn as [->|Hn];
    [exists UpgradesExternalCatalogMissingEquipmentType; reflexivity|].
  apply elem_of_cons in Hn as [->|Hn];
    [exists UpgradesInvalidViolationIncrease; reflexivity|].
  apply elem_of_nil in Hn. contradiction.
Qed.

Lemma return_codes_table_rows_are_codes_witness :
  exists n : Z,
    row_of_code n "0,Success," /\
    (n = 0 \/ exists c : DiscoExceptionClass,
                get_error_code_from_exception (DiscoClass c) = inl n).
Proof.
  apply (return_codes_table_rows_are_codes ["docs"; "source"] ∅
           return_codes_text "0,Success,").
  - vm_compute. reflexivity.
  - vm_compute. apply list_elem_of_here.
  - discriminate.
Defined.

Lemma concat_chars_length (sep : Ascii.ascii) (s : string) :
  String.length (String.concat (String sep EmptyString) (chars s))
  = (2 * String.length s - 1)%nat.
Proof.
  induction s as [|c s IH]; [reflexivity|].
  destruct s as [|c' s]; [reflexivity|].
  change (chars (String c (String c' s)))
    with (String c EmptyString :: chars (String c' s)).
  change (String.concat (String sep EmptyString)
            (String c EmptyString :: chars (String c' s)))
    with (String c (String sep
            (String.concat (String sep EmptyString) (chars (String c' s))))).
  cbn [String.length]. rewrite IH. cbn [String.length]. lia.
Qed.

Lemma concat_chars_get (sep : Ascii.ascii) (s : string) (k : nat) :
  String.get (2 * k) (String.concat (String sep EmptyString) (chars s)) = String.get k s /\
  String.get (2 * k + 1) (String.concat (String sep EmptyString) (chars s))
  = if (k + 1 <? String.length s)%nat then Some sep else None.
Proof.
  revert k. induction s as [|c s IH]; intros k.
  - split; [destruct k; reflexivity|]. simpl. destruct (2 * k + 1)%nat; reflexivity.
  - destruct s as [|c' s].
    + destruct k as [|k]; [split; reflexivity|].
      replace (2 * S k + 1)%nat with (S (S (2 * k + 1))) by lia.
      replace (2 * S k)%nat with (S (S (2 * k))) by lia.
      split; simpl; [destruct k; reflexivity|].
      destruct (S k + 1 <? 1)%nat eqn:E; [apply Nat.ltb_lt in E; lia|reflexivity].
    + change (chars (String c (String c' s)))
        with (String c EmptyString :: chars (String c' s)).
      change (String.concat (String sep EmptyString)
                (String c EmptyString :: chars (String c' s)))
        with (String c (String sep
                (String.concat (String sep EmptyString) (chars (String c' s))))).
      destruct k as [|k]; [split; reflexivity|].
      replace (2 * S k + 1)%nat with (S (S (2 * k + 1))) by lia.
      replace (2 * S k)%nat with (S (S (2 * k))) by lia.
      cbn [String.get]. destruct (IH k) as [IH1 IH2]. rewrite IH1, IH2.
      split; [reflexivity|].
      change (String.length (String c (String c' s)))
        with (S (String.length (String c' s))).
      destruct (k + 1 <? String.length (String c' s))%nat eqn:E1,
               (S k + 1 <? S (String.length (String c' s)))%nat eqn:E2;
        try reflexivity;
        apply Nat.ltb_lt in E1 || apply Nat.ltb_ge in E1;
        apply Nat.ltb_lt in E2 || apply Nat.ltb_ge in E2; lia.
Qed.

(** X6: the first line of [return_codes.csv] is not the comma-separated
    header: [join] runs over the characters of the header string, so the
    line holds every character of the header followed by a tab, 81
    characters instead of 41. *)
Theorem return_codes_header_is_split_by_tabs (output_dir : Path)
    (fs : gmap Path string) :
  exists first_line rest : string,
    generate_return_codes output_dir fs !! return_codes_csv output_dir
      = Some (first_line ++ NEWLINE ++ rest)%string /\
    first_line <> return_codes_header /\
    String.length return_codes_header = 41%nat /\
    String.length first_line = 81%nat /\
    (forall k : nat,
       String.get (2 * k) first_line = String.get k return_codes_header) /\
    (forall k : nat,
       (k < 40)%nat -> String.get (2 * k + 1) first_line = Some (Ascii.ascii_of_nat 9)).
Proof.
  exists (String.concat TAB (chars return_codes_header)).
  eexists. rewrite generate_return_codes_file.
  split; [vm_compute; reflexivity|].
  split; [vm_compute; discriminate|].
  split; [reflexivity|].
  split; [unfold TAB; rewrite concat_chars_length; reflexivity|].
  split; intros k.
  - apply (concat_chars_get (Ascii.ascii_of_nat 9)).
  - intros Hk. unfold TAB.
    rewrite (proj2 (concat_chars_get (Ascii.ascii_of_nat 9) return_codes_header k)).
    change (String.length return_codes_header) with 41%nat.
    destruct (k + 1 <? 41)%nat eqn:E; [reflexivity|apply Nat.ltb_ge in E; lia].
Qed.

(** * Solving with the PyDSS controls ([pydss_parameters.py]) *)

Lemma pydss_solve_and_check_run (raise_exception : bool)
    (kwargs : gmap string ControllerManager) (manager : ControllerManager)
    (flag : bool) (w : World) :
  kwargs !! "pydss_controller_manager" = Some manager ->
  run_controls manager = Return flag ->
  pydss_solve_and_check raise_exception kwargs w =
    (mkWorld
       (log w ++ [mkLogRecord "DEBUG" "Solving circuit using PyDSS controls" NoArgs]
              ++ (if flag then [] else [info "PyDSS Convergence Error" NoArgs]))
       (files w),
     if negb flag && raise_exception
     then Raise (DiscoException PyDssConvergenceError "PyDSS solution did not converge")
     else Return flag).
Proof.
  intros Hm Hrun.
  unfold pydss_solve_and_check, M_bind, lift, logger_debug, logger_info, dict_getitem, M_ret.
  rewrite Hm, Hrun. cbn [log files].
  destruct flag, raise_exception; cbn [negb andb log files];
    rewrite <- ?app_assoc, ?app_nil_r; reflexivity.
Qed.

(** X7: when the controller manager is given and its controls answer,
    [pydss_solve_and_check] raises exactly when the controls failed and
    [raise_exception] is set; what it raises is the [PyDssConvergenceError]
    with the message "PyDSS solution did not converge", whose error code
    is 120, a convergence error for [is_convergence_error]; otherwise it
    returns the answer of the controls.  The log gets the DEBUG record
    and, exactly when the controls failed, the INFO record after it; no
    file is written. *)
Theorem pydss_solve_and_check_raises_convergence_error (raise_exception : bool)
    (kwargs : gmap string ControllerManager) (manager : ControllerManager)
    (flag : bool) (w : World) :
  kwargs !! "pydss_controller_manager" = Some manager ->
  run_controls manager = Return flag ->
  exists w' : World,
    pydss_solve_and_check raise_exception kwargs w
      = (w', if negb flag && raise_exception
             then Raise (DiscoException PyDssConvergenceError
                           "PyDSS solution did not converge")
             else Return flag) /\
    (raised (snd (pydss_solve_and_check raise_exception kwargs w)) = true
     <-> flag = false /\ raise_exception = true) /\
    get_error_code_from_exception (DiscoClass PyDssConvergenceError) = inl 120 /\
    is_convergence_error 120 = true /\
    files w' = files w /\
    log w' = log w
             ++ [mkLogRecord "DEBUG" "Solving circuit using PyDSS controls" NoArgs]
             ++ (if flag then [] else [info "PyDSS Convergence Error" NoArgs]) /\
    (info "PyDSS Convergence Error" NoArgs ∈ drop (length (log w)) (log w')
     <-> flag = false).
Proof.
  intros Hm Hrun.
  rewrite (pydss_solve_and_check_run raise_exception kwargs manager flag w Hm Hrun).
  exists (mkWorld
            (log w ++ [mkLogRecord "DEBUG" "Solving circuit using PyDSS controls" NoArgs]
                   ++ (if flag then [] else [info "PyDSS Convergence Error" NoArgs]))
            (files w)).
  split; [reflexivity|]. split.
  { cbn [snd]. destruct flag, raise_exception; cbn; split;
      first [intros [? ?]; discriminate | discriminate | intros _; auto | auto]. }
  split; [reflexivity|]. split; [reflexivity|]. split; [reflexivity|].
  split; [reflexivity|].
  cbn [log]. rewrite drop_app_length.
  destruct flag; split; try discriminate; try reflexivity.
  - intros Hin. apply elem_of_cons in Hin as [[=]|Hin].
    apply elem_of_nil in Hin. contradiction.
  - intros _. apply list_elem_of_further, list_elem_of_here.
Qed.

Lemma pydss_solve_and_check_raises_convergence_error_witness :
  exists w' : World,
    pydss_solve_and_check true
      {["pydss_controller_manager" := mkControllerManager (Return false)]} empty_world
      = (w', Raise (DiscoException PyDssConvergenceError
                      "PyDSS solution did not converge")) /\
    (raised (snd (pydss_solve_and_check true
                    {["pydss_controller_manager" := mkControllerManager (Return false)]}
                    empty_world)) = true
     <-> false = false /\ true = true) /\
    get_error_code_from_exception (DiscoClass PyDssConvergenceError) = inl 120 /\
    is_convergence_error 120 = true /\
    files w' = files empty_world /\
    log w' = log empty_world
             ++ [mkLogRecord "DEBUG" "Solving circuit using PyDSS controls" NoArgs]
             ++ [info "PyDSS Convergence Error" NoArgs] /\
    (info "PyDSS Convergence Error" NoArgs ∈ drop (length (log empty_world)) (log w')
     <-> false = false).
Proof.
  apply (pydss_solve_and_check_raises_convergence_error true
           {["pydss_controller_manager" := mkControllerManager (Return false)]}
           (mkControllerManager (Return false)) false empty_world);
    reflexivity.
Defined.

(** * More on [create_loadshape_pmult_dataframe] and [get_snapshot_timepoint] *)

Lemma indices_lookup (n : nat) :
  forall (cur_time : Timestamp) (interval : Timedelta) (k : nat),
    (k < n)%nat ->
    indices cur_time interval n !! k = Some (cur_time + Z.of_nat k * interval).
Proof.
  induction n as [|n IH]; intros cur_time interval k Hk; [lia|].
  destruct k as [|k]; simpl.
  - f_equal. lia.
  - rewrite IH by lia. f_equal. lia.
Qed.

(** X8: the frame of a load shape has [Npts] rows; row [k] is labelled
    with the start time of the settings plus [k] intervals, whatever the
    sign of the interval, and the column of the frame is the multiplier
    array as it is (there is no column when the array is empty). *)
Theorem loadshape_frame_labels (settings : Settings) (shape : LoadShapeData)
    (f : PmultFrame) :
  create_loadshape_pmult_dataframe settings shape = Return f ->
  length (pmult_index f) = Npts shape /\
  (forall k : nat,
     (k < Npts shape)%nat ->
     pmult_index f !! k
       = Some (loadshape_start_time settings + Z.of_nat k * SInterval shape)) /\
  (PMult shape <> [] -> length (PMult shape) = Npts shape) /\
  pmult_column0 f = match PMult shape with [] => None | _ :: _ => Some (PMult shape) end.
Proof.
  unfold create_loadshape_pmult_dataframe, pd_DataFrame.
  destruct (PMult shape) as [|v vs] eqn:Epm.
  - intros [= <-]. cbn [pmult_index pmult_column0].
    split; [apply indices_length|].
    split; [intros k Hk; apply indices_lookup, Hk|].
    split; [congruence|reflexivity].
  - destruct (length (v :: vs) =? length _)%nat eqn:Elen; [|discriminate].
    intros [= <-]. cbn [pmult_index pmult_column0].
    apply Nat.eqb_eq in Elen. rewrite indices_length in Elen.
    split; [apply indices_length|].
    split; [intros k Hk; apply indices_lookup, Hk|].
    split; [intros _; exact Elen|reflexivity].
Qed.

Lemma loadshape_frame_labels_witness :
  length (pmult_index (mkPmultFrame (indices (datetime 2020 1 1 0 0) hourly 4)
                         (Some (PMult S1)))) = Npts S1 /\
  (forall k : nat,
     (k < Npts S1)%nat ->
     pmult_index (mkPmultFrame (indices (datetime 2020 1 1 0 0) hourly 4)
                    (Some (PMult S1))) !! k
       = Some (loadshape_start_time from_2020_01_01 + Z.of_nat k * SInterval S1)) /\
  (PMult S1 <> [] -> length (PMult S1) = Npts S1) /\
  pmult_column0 (mkPmultFrame (indices (datetime 2020 1 1 0 0) hourly 4)
                   (Some (PMult S1)))
    = match PMult S1 with [] => None | _ :: _ => Some (PMult S1) end.
Proof.
  apply (loadshape_frame_labels from_2020_01_01 S1).
  reflexivity.
Defined.


Lemma pv_body_uncached_labels (dss : OpenDSS) (settings : Settings)
    (df df' : DataFrame) (pv_name : string) :
  pv_body_uncached dss settings df pv_name = Return df' ->
  rows df' <> [] /\
  labels (rows df') =
    match rows df with
    | [] => grid settings (LoadShape dss (PVsystem_yearly dss pv_name))
    | _ :: _ => labels (rows df)
    end.
Proof.
  unfold pv_body_uncached.
  destruct (create_loadshape_pmult_dataframe _ _) as [f|] eqn:Ef; [|discriminate].
  cbn [obind]. destruct (PmultFrame_getitem0 _) as [s|] eqn:Es; [|discriminate].
  cbn [obind]. destruct (contribution_inv _ _ _ _ _ Ef Es) as (_ & Hne & Hl).
  destruct (len df =? 0)%nat eqn:El.
  - intros H; apply Return_inj in H; subst df'.
    apply len_zero in El. split.
    + intros E. apply (proj2 (labels_nil _)) in E.
      rewrite labels_replace_nan_0, labels_setitem, El, Hl in E.
      rewrite <- Hl in E. apply (proj1 (labels_nil _)) in E. contradiction.
    + rewrite labels_replace_nan_0, labels_setitem, El. exact Hl.
  - destruct (getitem PV df); [|discriminate]. cbn [obind].
    intros H; apply Return_inj in H; subst df'.
    assert (Hr : rows df <> []).
    { intros Er. apply (proj2 (len_zero df)) in Er. congruence. }
    split; [apply rows_setitem_nonempty; left; exact Hr|].
    rewrite labels_setitem. destruct (rows df); [contradiction|reflexivity].
Qed.

Lemma load_body_uncached_labels (dss : OpenDSS) (settings : Settings)
    (df df' : DataFrame) (load_name : string) :
  load_body_uncached dss settings df load_name = Return df' ->
  rows df' <> [] /\
  labels (rows df') =
    match rows df with
    | [] => grid settings (LoadShape dss (Load_yearly dss load_name))
    | _ :: _ => labels (rows df)
    end.
Proof.
  unfold load_body_uncached.
  destruct (create_loadshape_pmult_dataframe _ _) as [f|] eqn:Ef; [|discriminate].
  cbn [obind]. destruct (PmultFrame_getitem0 _) as [s|] eqn:Es; [|discriminate].
  cbn [obind]. destruct (contribution_inv _ _ _ _ _ Ef Es) as (_ & Hne & Hl).
  destruct (len df =? 0)%nat eqn:El.
  - intros H; apply Return_inj in H; subst df'.
    apply len_zero in El. split.
    + apply rows_setitem_nonempty. right. exact Hne.
    + rewrite labels_setitem, El. exact Hl.
  - destruct (getitem Load df); [|discriminate]. cbn [obind].
    intros H; apply Return_inj in H; subst df'.
    assert (Hr : rows df <> []).
    { intros Er. apply (proj2 (len_zero df)) in Er. congruence. }
    split; [apply rows_setitem_nonempty; left; exact Hr|].
    rewrite labels_setitem. destruct (rows df); [contradiction|reflexivity].
Qed.

Lemma for_each_labels (body : DataFrame -> string -> Outcome DataFrame)
    (index_of : string -> list Timestamp) :
  (forall df x df',
     body df x = Return df' ->
     rows df' <> [] /\
     labels (rows df') = match rows df with [] => index_of x | _ :: _ => labels (rows df) end) ->
  forall (xs : list string) (df df' : DataFrame),
    for_each body xs df = Return df' ->
    labels (rows df') =
      match rows df, xs with
      | [], x :: _ => index_of x
      | _, _ => labels (rows df)
      end.
Proof.
  intros Hbody xs. induction xs as [|x xs IH]; intros df df'.
  - simpl. intros H; apply Return_inj in H; subst df'. destruct (rows df); reflexivity.
  - simpl. destruct (body df x) as [df1|] eqn:E1; [|discriminate]. cbn [obind].
    intros H. apply IH in H. destruct (Hbody _ _ _ E1) as [Hne Hl].
    destruct (rows df1) as [|r1 rs1] eqn:Er1; [contradiction|].
    rewrite H. destruct xs; exact Hl.
Qed.

Lemma build_aggregate_profiles_labels (dss : OpenDSS) (settings : Settings)
    (w w' : World) (df : DataFrame) :
  build_aggregate_profiles dss settings (PVsystems_AllNames dss) w = (w', Return df) ->
  labels (rows df) =
    match first_shape dss with
    | Some shape => grid settings shape
    | None => []
    end.
Proof.
  unfold build_aggregate_profiles, M_bind, lift.
  rewrite aggregate_pv_uncached_eq.
  destruct (aggregate_pv_uncached dss settings (PVsystems_AllNames dss))
    as [agg0|] eqn:Epv; [|discriminate].
  destruct (log_no_loads (Loads_AllNames dss) w) as [w1 [[]|]]; [|discriminate].
  rewrite aggregate_loads_uncached_eq.
  destruct (aggregate_loads_uncached dss settings (Loads_AllNames dss) agg0)
    as [agg|] eqn:Eload; [|discriminate].
  intros H. injection H as _ Hd.
  rewrite (derive_columns_labels _ _ _ Hd).
  unfold aggregate_loads_uncached in Eload.
  apply (for_each_labels _
           (fun x => grid settings (LoadShape dss (Load_yearly dss x)))
           (fun d x d' => load_body_uncached_labels dss settings d d' x)) in Eload.
  pose proof (aggregate_pv_uncached_inv _ _ _ _ Epv) as Hinv.
  unfold aggregate_pv_uncached in Epv.
  apply (for_each_labels _
           (fun x => grid settings (LoadShape dss (PVsystem_yearly dss x)))
           (fun d x d' => pv_body_uncached_labels dss settings d d' x)) in Epv.
  unfold first_shape. rewrite Eload.
  destruct (PVsystems_AllNames dss) as [|p ps].
  - subst agg0. simpl. destruct (Loads_AllNames dss); reflexivity.
  - destruct Hinv as (Hr & _). destruct (rows agg0) as [|r0 rs0]; [contradiction|].
    exact Epv.
Qed.

Lemma Series_idxmax_label (s : Series) (t : Timestamp) :
  Series_idxmax s = Return (Some t) -> t ∈ labels (items s).
Proof.
  unfold Series_idxmax. destruct (dtype s); [discriminate|].
  destruct (nanargmax _) as [[i|]|]; cbn [obind]; try discriminate.
  intros H; apply Return_inj in H. unfold label_at in H.
  destruct (items s !! i) as [[t' v]|] eqn:E; [|discriminate].
  injection H as <-. unfold labels. change (map fst (items s)) with (fst <$> items s).
  apply list_elem_of_fmap. exists (t', v). split; [reflexivity|].
  apply list_elem_of_lookup_2 with i. exact E.
Qed.

Lemma Series_idxmin_label (s : Series) (t : Timestamp) :
  Series_idxmin s = Return (Some t) -> t ∈ labels (items s).
Proof.
  unfold Series_idxmin. destruct (dtype s); [discriminate|].
  destruct (nanargmin _) as [[i|]|]; cbn [obind]; try discriminate.
  intros H; apply Return_inj in H. unfold label_at in H.
  destruct (items s !! i) as [[t' v]|] eqn:E; [|discriminate].
  injection H as <-. unfold labels. change (map fst (items s)) with (fst <$> items s).
  apply list_elem_of_fmap. exists (t', v). split; [reflexivity|].
  apply list_elem_of_lookup_2 with i. exact E.
Qed.

Lemma full_horizon_labels (c : Column) (df : DataFrame) (s : Series) :
  full_horizon c df = Return s -> labels (items s) = labels (rows df).
Proof.
  unfold full_horizon, getitem. destruct (column_dtype c df); [|discriminate].
  intros H; apply Return_inj in H; subst s. cbn [items].
  apply (labels_map_fst (fun p => cell c (snd p))).
Qed.

Lemma daytime_labels (c : Column) (df : DataFrame) (s : Series) (t : Timestamp) :
  daytime c df = Return s -> t ∈ labels (items s) -> t ∈ labels (rows df).
Proof.
  intros H%daytime_inv. destruct H as [_ H]. rewrite H. unfold column_items.
  rewrite (labels_map_fst (fun p => cell c (snd p))).
  unfold labels. change (map fst ?l) with (fst <$> l).
  intros (p & -> & Hp)%list_elem_of_fmap.
  apply list_elem_of_filter in Hp as [_ Hp].
  apply list_elem_of_fmap. exists p. split; [reflexivity|exact Hp].
Qed.

Lemma criterion_label (df : DataFrame) (o : Outcome Cell) (t : Timestamp) :
  o ∈ [max_load_timepoint df; min_load_timepoint df; min_daytime_load_timepoint df;
       max_pv_to_load_ratio_timepoint df; max_pv_minus_load_timepoint df;
       max_pv_timepoint df] ->
  o = Return (Some t) -> t ∈ labels (rows df).
Proof.
  intros Hin Ho.
  repeat (apply elem_of_cons in Hin as [->|Hin]); [..|apply elem_of_nil in Hin; contradiction].
  - unfold max_load_timepoint in Ho.
    destruct (full_horizon Load df) as [s|] eqn:E; [|discriminate]. cbn [obind] in Ho.
    rewrite <- (full_horizon_labels _ _ _ E). apply Series_idxmax_label, Ho.
  - unfold min_load_timepoint in Ho.
    destruct (full_horizon Load df) as [s|] eqn:E; [|discriminate]. cbn [obind] in Ho.
    rewrite <- (full_horizon_labels _ _ _ E). apply Series_idxmin_label, Ho.
  - unfold min_daytime_load_timepoint in Ho.
    destruct (daytime Load df) as [s|] eqn:E; [|discriminate]. cbn [obind] in Ho.
    apply (daytime_labels _ _ _ _ E), Series_idxmin_label, Ho.
  - unfold max_pv_to_load_ratio_timepoint in Ho.
    destruct (daytime PV_to_Load_Ratio df) as [s|] eqn:E; [|discriminate].
    cbn [obind] in Ho. apply (daytime_labels _ _ _ _ E), Series_idxmax_label, Ho.
  - unfold max_pv_minus_load_timepoint in Ho.
    destruct (daytime PV_minus_Load df) as [s|] eqn:E; [|discriminate].
    cbn [obind] in Ho. apply (daytime_labels _ _ _ _ E), Series_idxmax_label, Ho.
  - unfold max_pv_timepoint in Ho.
    destruct (daytime PV df) as [s|] eqn:E; [|discriminate].
    cbn [obind] in Ho. apply (daytime_labels _ _ _ _ E), Series_idxmax_label, Ho.
Qed.

Lemma selected_criterion (dss : OpenDSS) (settings : Settings)
    (mode : SnapshotTimePointSelectionMode) (output_filename : string)
    (w w' : World) (c : Cell) :
  get_snapshot_timepoint dss settings mode output_filename w = (w', Return c) ->
  exists (w1 w2 : World) (df : DataFrame),
    build_aggregate_profiles dss settings (PVsystems_AllNames dss) w1 = (w2, Return df) /\
    criterion_of_mode (effective_mode dss mode) df = Return c.
Proof.
  intros H. apply get_snapshot_timepoint_inv in H
    as (mode' & column & w1 & w2 & df & tps & Hres & Hcol & Hbuild & Htps & _ & Hget).
  exists w1, w2, df. split; [exact Hbuild|].
  destruct (resolve_mode_returns (PVsystems_AllNames dss) mode w) as (w1' & Hres' & _).
  rewrite Hres in Hres'. injection Hres' as _ ->.
  apply compute_timepoints_inv in Htps
    as (c_max & c_min & c_day & Hmax & Hmin & Hday & Htps).
  unfold effective_mode in *.
  destruct (PVsystems_AllNames dss) as [|p ps].
  - subst tps. simpl in Hcol. injection Hcol as <-. simpl in Hget.
    injection Hget as <-. exact Hmax.
  - destruct Htps as (c_ratio & c_diff & c_pv & Hratio & Hdiff & Hpv & ->).
    destruct mode; simpl in Hcol; try discriminate; injection Hcol as <-;
      simpl in Hget; injection Hget as <-; assumption.
Qed.

(** X10: a timestamp that a call returns is a timestamp of the load shape
    of the device that contributes first (the first PV system, or the first
    load of a circuit without PV systems): the start time of the settings
    plus a whole number, below [Npts], of intervals of that shape. *)
Theorem selected_timepoint_on_first_shape_grid (dss : OpenDSS) (settings : Settings)
    (mode : SnapshotTimePointSelectionMode) (output_filename : string)
    (w w' : World) (t : Timestamp) :
  get_snapshot_timepoint dss settings mode output_filename w = (w', Return (Some t)) ->
  exists (shape : LoadShapeData) (k : nat),
    first_shape dss = Some shape /\
    (k < Npts shape)%nat /\
    t = loadshape_start_time settings + Z.of_nat k * SInterval shape.
Proof.
  intros H. apply selected_criterion in H as (w1 & w2 & df & Hbuild & Hcrit).
  assert (Hin : t ∈ labels (rows df)).
  { apply (criterion_label df (criterion_of_mode (effective_mode dss mode) df));
      [|exact Hcrit].
    destruct (effective_mode dss mode); simpl criterion_of_mode;
      [| | | |simpl in Hcrit; discriminate];
      repeat first [apply list_elem_of_here | apply list_elem_of_further]. }
  rewrite (build_aggregate_profiles_labels _ _ _ _ _ Hbuild) in Hin.
  destruct (first_shape dss) as [shape|]; [|apply elem_of_nil in Hin; contradiction].
  apply list_elem_of_lookup_1 in Hin as [k Hk].
  assert (Hlt : (k < Npts shape)%nat).
  { apply lookup_lt_Some in Hk. unfold grid in Hk. rewrite indices_length in Hk. exact Hk. }
  exists shape, k. split; [reflexivity|]. split; [exact Hlt|].
  unfold grid in Hk. rewrite (indices_lookup _ _ _ _ Hlt) in Hk. congruence.
Qed.

Lemma selected_timepoint_on_first_shape_grid_witness :
  exists (shape : LoadShapeData) (k : nat),
    first_shape pv_with_idle_load = Some shape /\
    (k < Npts shape)%nat /\
    datetime 2020 1 1 9 0
      = loadshape_start_time from_2020_01_01_08 + Z.of_nat k * SInterval shape.
Proof.
  apply (selected_timepoint_on_first_shape_grid pv_with_idle_load from_2020_01_01_08
           MAX_LOAD "timepoints.json" empty_world
           (fst (get_snapshot_timepoint pv_with_idle_load from_2020_01_01_08
                   MAX_LOAD "timepoints.json" empty_world))).
  vm_compute. reflexivity.
Defined.

(** X11: the timestamp a call returns is the candidate of the criterion of
    the mode the call works with, computed on the aggregate profiles of the
    circuit: the maximum of Load for [MAX_LOAD], the daytime maximum of the
    ratio for [MAX_PV_LOAD_RATIO], the daytime minimum of Load for
    [DAYTIME_MIN_LOAD], the daytime maximum of the difference for
    [MAX_PV_MINUS_LOAD]. *)
Theorem returned_timepoint_is_criterion_of_mode (dss : OpenDSS) (settings : Settings)
    (mode : SnapshotTimePointSelectionMode) (output_filename : string)
    (w w' : World) (c : Cell) :
  get_snapshot_timepoint dss settings mode output_filename w = (w', Return c) ->
  exists df : DataFrame,
    aggregate_outcome dss settings = Return df /\
    criterion_of_mode (effective_mode dss mode) df = Return c /\
    effective_mode dss mode <> NONE.
Proof.
  intros H. apply selected_criterion in H as (w1 & w2 & df & Hbuild & Hcrit).
  exists df. split.
  - rewrite <- (build_aggregate_profiles_outcome dss settings w1), Hbuild. reflexivity.
  - split; [exact Hcrit|]. intros E. rewrite E in Hcrit. discriminate.
Qed.

Lemma returned_timepoint_is_criterion_of_mode_witness :
  exists df : DataFrame,
    aggregate_outcome pv_with_idle_load from_2020_01_01_08 = Return df /\
    criterion_of_mode (effective_mode pv_with_idle_load DAYTIME_MIN_LOAD) df
      = Return (Some (datetime 2020 1 1 8 0)) /\
    effective_mode pv_with_idle_load DAYTIME_MIN_LOAD <> NONE.
Proof.
  apply (returned_timepoint_is_criterion_of_mode pv_with_idle_load from_2020_01_01_08
           DAYTIME_MIN_LOAD "timepoints.json" empty_world
           (fst (get_snapshot_timepoint pv_with_idle_load from_2020_01_01_08
                   DAYTIME_MIN_LOAD "timepoints.json" empty_world))).
  vm_compute. reflexivity.
Defined.

(** X12: the report does not depend on the mode, on the file name or on
    what was logged and written before: two calls on one circuit that
    return, whatever their modes, write the same report. *)
Theorem report_does_not_depend_on_mode (dss : OpenDSS) (settings : Settings)
    (mode1 mode2 : SnapshotTimePointSelectionMode) (filename1 filename2 : string)
    (w1 w2 w1' w2' : World) (c1 c2 : Cell) :
  get_snapshot_timepoint dss settings mode1 filename1 w1 = (w1', Return c1) ->
  get_snapshot_timepoint dss settings mode2 filename2 w2 = (w2', Return c2) ->
  exists report : FileContent,
    files w1' !! filename1 = Some report /\ files w2' !! filename2 = Some report.
Proof.
  intros H1 H2.
  apply get_snapshot_timepoint_inv in H1
    as (m1 & col1 & wa1 & wb1 & df1 & tps1 & _ & _ & Hb1 & Ht1 & -> & _).
  apply get_snapshot_timepoint_inv in H2
    as (m2 & col2 & wa2 & wb2 & df2 & tps2 & _ & _ & Hb2 & Ht2 & -> & _).
  assert (df1 = df2) as <-.
  { pose proof (build_aggregate_profiles_outcome dss settings wa1) as E1.
    pose proof (build_aggregate_profiles_outcome dss settings wa2) as E2.
    rewrite Hb1 in E1. rewrite Hb2 in E2. simpl in E1, E2. congruence. }
  assert (tps1 = tps2) as <- by congruence.
  exists (mkFileContent (to_dict_index tps1) 2). cbn [files].
  split; apply lookup_insert_eq.
Qed.

Lemma report_does_not_depend_on_mode_witness :
  exists report : FileContent,
    files (fst (get_snapshot_timepoint pv_with_idle_load from_2020_01_01_08
                  MAX_LOAD "a.json" empty_world)) !! "a.json" = Some report /\
    files (fst (get_snapshot_timepoint pv_with_idle_load from_2020_01_01_08
                  MAX_PV_MINUS_LOAD "b.json" empty_world)) !! "b.json" = Some report.
Proof.
  apply (report_does_not_depend_on_mode pv_with_idle_load from_2020_01_01_08
           MAX_LOAD MAX_PV_MINUS_LOAD "a.json" "b.json" empty_world empty_world
           _ _ (Some (datetime 2020 1 1 9 0)) (Some (datetime 2020 1 1 8 0)));
    vm_compute; reflexivity.
Defined.

(** X13: on a circuit without PV systems and without loads the call fails
    for every mode: the frame of the profiles stays empty with columns of
    dtype [object], on which pandas refuses [idxmax] with a [TypeError].
    Both absences have been logged; no report is written. *)
Theorem empty_circuit_raises_type_error (dss : OpenDSS) (settings : Settings)
    (mode : SnapshotTimePointSelectionMode) (output_filename : string) (w : World) :
  PVsystems_AllNames dss = [] ->
  Loads_AllNames dss = [] ->
  exists w' : World,
    get_snapshot_timepoint dss settings mode output_filename w
      = (w', Raise (TypeError "reduction operation 'argmax' not allowed for this dtype")) /\
    files w' = files w /\
    info "No PVSystems are present." NoArgs ∈ log w' /\
    info "No Loads are present" NoArgs ∈ log w'.
Proof.
  intros Hpv Hl.
  unfold get_snapshot_timepoint, build_aggregate_profiles, M_bind, lift.
  rewrite Hpv, Hl.
  destruct mode; simpl; eexists; (split; [reflexivity|]); cbn [files log];
    (split; [reflexivity|]);
    rewrite !elem_of_app, !list_elem_of_singleton; unfold info; split; tauto.
Qed.

Lemma empty_circuit_raises_type_error_witness :
  exists w' : World,
    get_snapshot_timepoint (mkOpenDSS [] (fun _ => nan) (fun _ => EmptyString)
                              [] (fun _ => nan) (fun _ => EmptyString)
                              (fun _ => no_shape))
      from_2020_01_01 MAX_LOAD "timepoints.json" empty_world
      = (w', Raise (TypeError "reduction operation 'argmax' not allowed for this dtype")) /\
    files w' = files empty_world /\
    info "No PVSystems are present." NoArgs ∈ log w' /\
    info "No Loads are present" NoArgs ∈ log w'.
Proof.
  apply (empty_circuit_raises_type_error
           (mkOpenDSS [] (fun _ => nan) (fun _ => EmptyString)
              [] (fun _ => nan) (fun _ => EmptyString) (fun _ => no_shape))
           from_2020_01_01 MAX_LOAD "timepoints.json" empty_world);
    reflexivity.
Defined.

Lemma for_each_raises {S} (body : S -> string -> Outcome S) (x : string) :
  (forall s, exists e, body s x = Raise e) ->
  forall (xs : list string) (s : S),
    x ∈ xs -> exists e, for_each body xs s = Raise e.
Proof.
  intros Hx xs. induction xs as [|y xs IH]; intros s Hin.
  - apply elem_of_nil in Hin. contradiction.
  - simpl. apply elem_of_cons in Hin as [<-|Hin].
    + destruct (Hx s) as [e ->]. exists e. reflexivity.
    + destruct (body s y) as [s'|e]; [|exists e; reflexivity].
      cbn [obind]. apply IH, Hin.
Qed.

Lemma empty_multipliers_contribution (settings : Settings) (shape : LoadShapeData)
    (x : float) :
  PMult shape = [] ->
  (let! f := create_loadshape_pmult_dataframe settings shape in
   PmultFrame_getitem0 (PmultFrame_mul f x))%outcome = Raise (KeyError "0").
Proof.
  intros H. unfold create_loadshape_pmult_dataframe, pd_DataFrame. rewrite H.
  reflexivity.
Qed.

(** X14: a PV system or a load whose load shape has an empty multiplier
    array makes every call fail: the frame of such a shape has no column,
    and reading its column 0 raises the [KeyError] of pandas unless an
    earlier step has failed already.  No report is written. *)
Theorem device_without_multipliers_fails (dss : OpenDSS) (settings : Settings)
    (mode : SnapshotTimePointSelectionMode) (output_filename : string) (w : World) :
  (exists p : string,
     p ∈ PVsystems_AllNames dss /\ PMult (LoadShape dss (PVsystem_yearly dss p)) = []) \/
  (exists l : string,
     l ∈ Loads_AllNames dss /\ PMult (LoadShape dss (Load_yearly dss l)) = []) ->
  exists (w' : World) (e : PyException),
    get_snapshot_timepoint dss settings mode output_filename w = (w', Raise e) /\
    files w' = files w /\
    ((exists p ps, PVsystems_AllNames dss = p :: ps /\
                   PMult (LoadShape dss (PVsystem_yearly dss p)) = [] /\ mode <> NONE) ->
     e = KeyError "0").
Proof.
  intros Hdev.
  destruct (get_snapshot_timepoint dss settings mode output_filename w)
    as [w' o] eqn:Hcall.
  pose proof (get_snapshot_timepoint_outcome dss settings mode output_filename w) as Hout.
  rewrite Hcall in Hout. cbn [snd] in Hout.
  assert (Hagg : exists e, aggregate_outcome dss settings = Raise e).
  { unfold aggregate_outcome. rewrite aggregate_pv_uncached_eq.
    destruct Hdev as [(p & Hin & Hp)|(l & Hin & Hl)].
    - destruct (for_each_raises (pv_body_uncached dss settings) p) with
        (xs := PVsystems_AllNames dss) (s := empty_aggregate_profiles) as [e He];
        [|exact Hin|].
      + intros s. exists (KeyError "0"). unfold pv_body_uncached.
        pose proof (empty_multipliers_contribution settings _
                      (PVsystem_Pmpp dss p) Hp) as E.
        destruct (create_loadshape_pmult_dataframe _ _) as [f|]; cbn [obind] in *;
          [rewrite E; reflexivity|injection E as ->; reflexivity].
      + unfold aggregate_pv_uncached. rewrite He. exists e. reflexivity.
    - destruct (aggregate_pv_uncached dss settings (PVsystems_AllNames dss))
        as [agg|e]; [|exists e; reflexivity].
      cbn [obind]. rewrite aggregate_loads_uncached_eq.
      destruct (for_each_raises (load_body_uncached dss settings) l) with
        (xs := Loads_AllNames dss) (s := agg) as [e He]; [|exact Hin|].
      + intros s. exists (KeyError "0"). unfold load_body_uncached.
        pose proof (empty_multipliers_contribution settings _
                      (Load_kW dss l) Hl) as E.
        destruct (create_loadshape_pmult_dataframe _ _) as [f|]; cbn [obind] in *;
          [rewrite E; reflexivity|injection E as ->; reflexivity].
      + unfold aggregate_loads_uncached. rewrite He. exists e. reflexivity. }
  destruct Hagg as [e0 Hagg].
  assert (Ho : exists e, o = Raise e).
  { rewrite Hout. unfold selection_outcome.
    destruct (select_column _) as [col|e]; [|exists e; reflexivity].
    cbn [obind]. rewrite Hagg. exists e0. reflexivity. }
  destruct Ho as [e ->]. exists w', e. split; [reflexivity|].
  split; [apply (get_snapshot_timepoint_raise_files _ _ _ _ _ _ _ Hcall)|].
  intros (p & ps & Hpv & Hp & Hmode).
  unfold selection_outcome in Hout. rewrite Hpv in Hout.
  destruct mode; [| | | |contradiction]; cbn [select_column obind] in Hout;
    unfold aggregate_outcome in Hout; rewrite aggregate_pv_uncached_eq, Hpv in Hout;
    unfold aggregate_pv_uncached in Hout; cbn [for_each] in Hout;
    unfold pv_body_uncached in Hout;
    pose proof (empty_multipliers_contribution settings _ (PVsystem_Pmpp dss p) Hp) as E;
    destruct (create_loadshape_pmult_dataframe _ _) as [f|]; cbn [obind] in *;
    try rewrite E in Hout; cbn [obind] in Hout; congruence.
Qed.

Lemma device_without_multipliers_fails_witness :
  exists (w' : World) (e : PyException),
    get_snapshot_timepoint
      (mkOpenDSS ["pv1"] (fun _ => 5%float) (fun _ => "missing")
         [] (fun _ => nan) (fun _ => EmptyString) (fun _ => no_shape))
      from_2020_01_01 MAX_LOAD "timepoints.json" empty_world = (w', Raise e) /\
    files w' = files empty_world /\
    ((exists p ps,
        PVsystems_AllNames
          (mkOpenDSS ["pv1"] (fun _ => 5%float) (fun _ => "missing")
             [] (fun _ => nan) (fun _ => EmptyString) (fun _ => no_shape)) = p :: ps /\
        PMult (LoadShape
                 (mkOpenDSS ["pv1"] (fun _ => 5%float) (fun _ => "missing")
                    [] (fun _ => nan) (fun _ => EmptyString) (fun _ => no_shape))
                 (PVsystem_yearly
                    (mkOpenDSS ["pv1"] (fun _ => 5%float) (fun _ => "missing")
                       [] (fun _ => nan) (fun _ => EmptyString) (fun _ => no_shape))
                    p)) = [] /\
        MAX_LOAD <> NONE) ->
     e = KeyError "0").
Proof.
  apply (device_without_multipliers_fails
           (mkOpenDSS ["pv1"] (fun _ => 5%float) (fun _ => "missing")
              [] (fun _ => nan) (fun _ => EmptyString) (fun _ => no_shape))
           from_2020_01_01 MAX_LOAD "timepoints.json" empty_world).
  left. exists "pv1". split; [apply list_elem_of_here|reflexivity].
Defined.

(** ** Circuits whose shapes share one grid *)

Lemma zip_with_accumulate (c : Column) (rs : list (Timestamp * Row)) :
  forall (idx : list Timestamp) (col : list float),
    length idx = length col ->
    zip_with (fun r p => (fst r, set_cell c (snd p) (snd r))) rs
      (zip_with (fun p q => (fst p, PrimFloat.add (snd p) (snd q)))
         (map (fun p => (fst p, cell c (snd p))) rs) (zip idx col))
    = zip_with (fun r v => (fst r, set_cell c (PrimFloat.add (cell c (snd r)) v) (snd r)))
        rs col.
Proof.
  induction rs as [|r rs IH]; intros idx col Hlen; [reflexivity|].
  destruct col as [|v col]; destruct idx as [|t idx]; try discriminate; [reflexivity|].
  simpl. f_equal. apply IH. simpl in Hlen. lia.
Qed.

Lemma labels_zip (idx : list Timestamp) (col : list float) :
  length idx = length col -> labels (zip idx col) = idx.
Proof.
  intros H. unfold labels. change (map fst ?l) with (fst <$> l).
  apply fst_zip. lia.
Qed.


(** A device on a frame that has rows: the column takes the sum. *)
Lemma accumulate_column (c : Column) (df : DataFrame) (idx : list Timestamp)
    (col : list float) (d : Dtype) :
  rows df <> [] ->
  labels (rows df) = idx ->
  length col = length idx ->
  column_dtype c df = Some d ->
  (let! s := getitem c df in
   Return (setitem c (Series_binop PrimFloat.add s (mkSeries float64 (zip idx col))) df))%outcome
  = Return (with_dtype c (result_dtype d float64)
              (with_rows
                 (zip_with (fun r v =>
                              (fst r, set_cell c (PrimFloat.add (cell c (snd r)) v) (snd r)))
                    (rows df) col) df)).
Proof.
  intros Hne Hl Hlen Hd. unfold getitem. rewrite Hd. cbn [obind]. f_equal.
  unfold setitem, Series_binop. cbn [items dtype].
  assert (E1 : labels (map (fun p : Timestamp * Row => (fst p, cell c (snd p))) (rows df))
               = idx).
  { rewrite <- Hl. apply (labels_map_fst (fun p => cell c (snd p))). }
  assert (E2 : labels (zip idx col) = idx) by (apply labels_zip; lia).
  rewrite E1, E2, index_equals_refl.
  assert (E3 : labels (zip_with (fun p q : Timestamp * float =>
                                   (fst p, PrimFloat.add (snd p) (snd q)))
                         (map (fun p : Timestamp * Row => (fst p, cell c (snd p))) (rows df))
                         (zip idx col)) = labels (rows df)).
  { rewrite (labels_zip_with_l PrimFloat.add).
    - apply (labels_map_fst (fun p => cell c (snd p))).
    - assert (length idx = length (rows df))
        by (rewrite <- Hl; unfold labels; apply length_map).
      rewrite length_map, length_zip_with. lia. }
  destruct (rows df) as [|r rs] eqn:Er; [contradiction|].
  rewrite E3, index_equals_refl.
  rewrite (zip_with_accumulate c (r :: rs) idx col) by lia.
  reflexivity.
Qed.
















(** ** When a call returns *)




(** ** A load whose shape misses a timestamp of the frame *)

Lemma is_nan_spec (x : float) : PrimFloat.is_nan x = true <-> Prim2SF x = S754_nan.
Proof.
  pose proof (FloatOrder.notnan_spec x) as H. unfold float_notnan in H.
  destruct (PrimFloat.is_nan x); destruct (Prim2SF x); simpl in H;
    split; intros E; try reflexivity; try discriminate;
    destruct H as [H1 H2]; first [specialize (H2 eq_refl) | specialize (H1 eq_refl)];
    discriminate.
Qed.

Lemma add_nan_l (x y : float) :
  PrimFloat.is_nan x = true -> PrimFloat.is_nan (PrimFloat.add x y) = true.
Proof.
  rewrite !is_nan_spec, add_spec. intros ->. reflexivity.
Qed.

Lemma add_nan_r (x y : float) :
  PrimFloat.is_nan y = true -> PrimFloat.is_nan (PrimFloat.add x y) = true.
Proof.
  rewrite !is_nan_spec, add_spec. intros ->.
  destruct (Prim2SF x); reflexivity.
Qed.

Lemma lookup_label_None (t : Timestamp) (l : list (Timestamp * float)) :
  t ∉ labels l -> lookup_label t l = None.
Proof.
  induction l as [|[t' v] l IH]; intros Hn; [reflexivity|].
  simpl. destruct (t' =? t) eqn:E.
  - apply Z.eqb_eq in E. subst t'. exfalso. apply Hn. apply list_elem_of_here.
  - apply IH. intros Hin. apply Hn. apply list_elem_of_further. exact Hin.
Qed.

Lemma lookup_label_map_app {A} (g : Timestamp * A -> float) (t : Timestamp)
    (l : list (Timestamp * A)) (rest : list (Timestamp * float)) :
  t ∈ labels l ->
  exists p, p ∈ l /\ fst p = t /\
    lookup_label t (map (fun p => (fst p, g p)) l ++ rest) = Some (g p).
Proof.
  induction l as [|[t' a] l IH]; intros Hin.
  - apply elem_of_nil in Hin. contradiction.
  - simpl. destruct (t' =? t) eqn:E.
    + apply Z.eqb_eq in E. exists (t', a). split; [apply list_elem_of_here|].
      split; [exact E|reflexivity].
    + apply Z.eqb_neq in E. simpl in Hin. apply elem_of_cons in Hin as [Hin|Hin];
        [congruence|].
      destruct (IH Hin) as (p & Hp & Ht & Hl). exists p.
      split; [apply list_elem_of_further, Hp|]. split; assumption.
Qed.

Lemma contribution_items (settings : Settings) (shape : LoadShapeData) (x : float)
    (f : PmultFrame) (s : Series) :
  create_loadshape_pmult_dataframe settings shape = Return f ->
  PmultFrame_getitem0 (PmultFrame_mul f x) = Return s ->
  s = mkSeries float64 (zip (grid settings shape)
                          (map (fun v => PrimFloat.mul v x) (PMult shape))) /\
  length (map (fun v => PrimFloat.mul v x) (PMult shape)) = length (grid settings shape).
Proof.
  unfold create_loadshape_pmult_dataframe, pd_DataFrame, PmultFrame_getitem0,
    PmultFrame_mul, grid.
  destruct (PMult shape) as [|v vs] eqn:Ep; [intros [= <-]; discriminate|].
  destruct (length (v :: vs) =? length _)%nat eqn:El; [|discriminate].
  apply Nat.eqb_eq in El.
  intros [= <-]. cbn. intros [= <-]. split; [reflexivity|].
  rewrite <- El. cbn. rewrite length_map. reflexivity.
Qed.

Lemma index_equals_eq (a b : list Timestamp) : index_equals a b = true -> a = b.
Proof.
  revert b. induction a as [|x a IH]; intros [|y b] E; try discriminate; [reflexivity|].
  simpl in E. apply andb_prop in E as [E1 E2]. apply Z.eqb_eq in E1.
  f_equal; [exact E1|apply IH, E2].
Qed.

(** The Load column after a load has been added to a frame that has rows:
    each cell is the sum of a Load cell under the same label and of a
    value that is NaN when the load has none at the label. *)
Lemma accumulate_by_label (df : DataFrame) (d : Dtype) (idx : list Timestamp)
    (col : list float) (t : Timestamp) (r' : Row) :
  rows df <> [] -> dtype_Load df = Some d -> length col = length idx ->
  (t, r') ∈ rows (setitem Load
                    (Series_binop PrimFloat.add
                       (mkSeries d (column_items Load (rows df)))
                       (mkSeries float64 (zip idx col))) df) ->
  exists (r : Row) (x : float),
    (t, r) ∈ rows df /\
    row_Load r' = PrimFloat.add (row_Load r) x /\
    (t ∉ idx -> PrimFloat.is_nan x = true).
Proof.
  intros Hne Hd Hlen.
  destruct (index_equals (labels (rows df)) idx) eqn:Eidx.
  - apply index_equals_eq in Eidx.
    pose proof (accumulate_column Load df idx col d Hne Eidx Hlen Hd) as E.
    unfold getitem in E. cbn [column_dtype] in E. rewrite Hd in E. cbn [obind] in E.
    apply Return_inj in E. unfold column_items. rewrite E.
    cbn [rows with_dtype with_rows].
    intros Hin. apply elem_of_zip_with in Hin as ([t0 r0] & v & Heq & Hr & _).
    cbn in Heq. injection Heq as -> ->. exists r0, v. split; [exact Hr|].
    split; [reflexivity|]. intros Hn. exfalso. apply Hn. rewrite <- Eidx.
    unfold labels. change (map fst (rows df)) with (fst <$> rows df).
    apply list_elem_of_fmap. exists (t0, r0). split; [reflexivity|exact Hr].
  - unfold setitem, Series_binop. cbn [items dtype].
    assert (E2 : labels (zip idx col) = idx) by (apply labels_zip; lia).
    assert (E1 : labels (column_items Load (rows df)) = labels (rows df))
      by apply (labels_map_fst (fun p => cell Load (snd p))).
    rewrite E1, E2, Eidx.
    set (g := fun p : Timestamp * Row =>
                PrimFloat.add (row_Load (snd p))
                  (default nan (lookup_label (fst p) (zip idx col)))).
    assert (HA : map (fun p : Timestamp * float =>
                        (fst p, PrimFloat.add (snd p)
                                  (default nan (lookup_label (fst p) (zip idx col)))))
                   (column_items Load (rows df))
                 = map (fun p => (fst p, g p)) (rows df)).
    { unfold column_items. rewrite map_map. reflexivity. }
    rewrite HA. clear HA.
    set (B := map (fun q : Timestamp * float => (fst q, PrimFloat.add nan (snd q))) _).
    assert (Hx : forall p : Timestamp * Row,
              fst p ∉ idx ->
              PrimFloat.is_nan (default nan (lookup_label (fst p) (zip idx col))) = true).
    { intros p Hn. rewrite lookup_label_None; [reflexivity|]. rewrite E2. exact Hn. }
    destruct (rows df) as [|r0 rs] eqn:Er; [contradiction|].
    cbn [rows with_dtype with_rows].
    destruct (index_equals (labels (r0 :: rs))
                (labels (map (fun p => (fst p, g p)) (r0 :: rs) ++ B))) eqn:E3.
    + intros Hin. apply list_elem_of_lookup_1 in Hin as [k Hk].
      apply lookup_zip_with_Some in Hk as (r & p & Heq & Hr & Hp).
      injection Heq as -> ->.
      rewrite lookup_app_l in Hp
        by (rewrite length_map; apply lookup_lt_Some in Hr; exact Hr).
      change (map ?f ?l) with (f <$> l) in Hp. rewrite list_lookup_fmap, Hr in Hp.
      cbn in Hp. injection Hp as <-. cbn [snd fst].
      exists (snd r), (default nan (lookup_label (fst r) (zip idx col))).
      split; [destruct r; apply list_elem_of_lookup_2 with k; exact Hr|].
      split; [destruct r; reflexivity|]. apply Hx.
    + intros Hin. change (map ?f ?l) with (f <$> l) in Hin.
      apply list_elem_of_fmap in Hin as (r & Heq & Hr).
      destruct (lookup_label_map_app g (fst r) (r0 :: rs) B) as (p & Hp & Ht & Hl).
      { unfold labels. change (map fst ?l) with (fst <$> l).
        apply list_elem_of_fmap. exists r. split; [reflexivity|exact Hr]. }
      rewrite Hl in Heq.
      injection Heq as -> ->. cbn.
      exists (snd p), (default nan (lookup_label (fst p) (zip idx col))).
      split; [rewrite <- Ht; destruct p; exact Hp|].
      split; [reflexivity|]. rewrite <- Ht. apply Hx.
Qed.

Lemma load_body_uncached_nan (dss : OpenDSS) (settings : Settings)
    (df df' : DataFrame) (load_name : string) (t : Timestamp) :
  rows df <> [] ->
  load_body_uncached dss settings df load_name = Return df' ->
  load_nan_at df t \/ t ∉ grid settings (LoadShape dss (Load_yearly dss load_name)) ->
  load_nan_at df' t.
Proof.
  intros Hne. unfold load_body_uncached.
  destruct (create_loadshape_pmult_dataframe _ _) as [f|] eqn:Ef; [|discriminate].
  cbn [obind]. destruct (PmultFrame_getitem0 _) as [s|] eqn:Es; [|discriminate].
  cbn [obind]. destruct (contribution_items _ _ _ _ _ Ef Es) as [-> Hlen].
  destruct (len df =? 0)%nat eqn:El; [apply len_zero in El; contradiction|].
  unfold getitem. cbn [column_dtype].
  destruct (dtype_Load df) as [d|] eqn:Hd; [|discriminate]. cbn [obind].
  intros H Hor r' Hin. apply Return_inj in H. subst df'.
  apply (accumulate_by_label df d _ _ t r' Hne Hd Hlen) in Hin
    as (r & x & Hr & -> & Hx).
  destruct Hor as [Hnan|Hout].
  - apply add_nan_l, Hnan, Hr.
  - apply add_nan_r, Hx, Hout.
Qed.

(** X17: a load whose shape has no point at a timestamp of the frame (its
    shape is shorter, or on another grid) leaves NaN in the Load column at
    that timestamp, and the NaN stays whatever the later loads add: the
    index of the frame is not extended, and nothing replaces the NaN by
    0. *)
Theorem load_missing_a_timestamp_leaves_nan (dss : OpenDSS) (settings : Settings)
    (loads : list string) (df0 df : DataFrame) (load_name : string)
    (t : Timestamp) (r : Row) :
  rows df0 <> [] ->
  aggregate_loads dss settings loads df0 = Return df ->
  load_name ∈ loads ->
  t ∉ grid settings (LoadShape dss (Load_yearly dss load_name)) ->
  (t, r) ∈ rows df ->
  PrimFloat.is_nan (row_Load r) = true /\ labels (rows df) = labels (rows df0).
Proof.
  rewrite aggregate_loads_uncached_eq. unfold aggregate_loads_uncached.
  intros Hne Hloop Hin Hout Hr.
  assert (Hkeep : forall (ls : list string) (d d' : DataFrame),
            rows d <> [] ->
            for_each (load_body_uncached dss settings) ls d = Return d' ->
            rows d' <> [] /\ labels (rows d') = labels (rows d) /\
            (load_nan_at d t -> load_nan_at d' t)).
  { induction ls as [|l ls IH]; intros d d' Hd.
    - intros H; apply Return_inj in H; subst d'. auto.
    - cbn [for_each]. destruct (load_body_uncached dss settings d l) as [d1|] eqn:E1;
        [|discriminate]. cbn [obind]. intros H.
      destruct (load_body_uncached_labels _ _ _ _ _ E1) as [Hne1 Hl1].
      destruct (IH _ _ Hne1 H) as (Hne' & Hl' & Hnan').
      split; [exact Hne'|]. split.
      + rewrite Hl', Hl1. destruct (rows d); [contradiction|reflexivity].
      + intros Hnan. apply Hnan'.
        apply (load_body_uncached_nan _ _ _ _ _ _ Hd E1). left. exact Hnan. }
  split; [|apply (Hkeep _ _ _ Hne Hloop)].
  revert df0 Hne Hloop. induction loads as [|l ls IH]; intros df0 Hne Hloop.
  - apply elem_of_nil in Hin. contradiction.
  - cbn [for_each] in Hloop.
    destruct (load_body_uncached dss settings df0 l) as [d1|] eqn:E1; [|discriminate].
    cbn [obind] in Hloop.
    destruct (load_body_uncached_labels _ _ _ _ _ E1) as [Hne1 _].
    apply elem_of_cons in Hin as [<-|Hin].
    + destruct (Hkeep _ _ _ Hne1 Hloop) as (_ & _ & Hnan). apply Hnan; [|exact Hr].
      apply (load_body_uncached_nan _ _ _ _ _ _ Hne E1). right. exact Hout.
    + apply (IH Hin d1 Hne1 Hloop).
Qed.

Lemma load_missing_a_timestamp_leaves_nan_witness :
  PrimFloat.is_nan (row_Load (mkRow nan 5 0 0)) = true /\
  labels (rows pv_with_sparse_load_after_loads)
    = labels (rows pv_with_sparse_load_after_pv).
Proof.
  apply (load_missing_a_timestamp_leaves_nan pv_with_sparse_load from_2020_01_01_08
           ["load1"] pv_with_sparse_load_after_pv pv_with_sparse_load_after_loads
           "load1" (datetime 2020 1 1 9 0) (mkRow nan 5 0 0)).
  - discriminate.
  - vm_compute. reflexivity.
  - apply list_elem_of_here.
  - vm_compute. intros H.
    repeat (apply elem_of_cons in H as [H|H]; [discriminate|]).
    apply elem_of_nil in H. exact H.
  - vm_compute. apply list_elem_of_further, list_elem_of_here.
Defined.

(** * Pipeline templates ([disco/pipelines/base.py]) *)

Lemma params_setitem_fresh (done rest : Params) (k : string) (v v' : Value) :
  k ∉ map fst done ->
  params_setitem (done ++ (k, v) :: rest) k v' = done ++ (k, v') :: rest.
Proof.
  induction done as [|[k0 v0] done IH]; intros Hn; simpl.
  - rewrite String.eqb_refl. reflexivity.
  - destruct (String.eqb k0 k) eqn:E.
    + apply String.eqb_eq in E. subst k0. exfalso. apply Hn. apply list_elem_of_here.
    + rewrite IH; [reflexivity|]. intros Hin. apply Hn.
      apply list_elem_of_further. exact Hin.
Qed.

Lemma fst_null_item (item : string * Value) : fst (null_item item) = fst item.
Proof. unfold null_item. destruct (eq_null (snd item)); reflexivity. Qed.

Lemma nulls_to_None_from (todo : Params) :
  forall done : Params,
    distinct_keys (done ++ todo) ->
    fold_left null_to_None todo (done ++ todo) = done ++ map null_item todo.
Proof.
  induction todo as [|[k v] todo IH]; intros done Hd; [reflexivity|].
  cbn [fold_left map].
  assert (Hk : k ∉ map fst done).
  { unfold distinct_keys in Hd. rewrite map_app in Hd.
    apply NoDup_app in Hd as (_ & Hd & _). intros Hin. apply (Hd k Hin).
    apply list_elem_of_here. }
  assert (Hstep : null_to_None (done ++ (k, v) :: todo) (k, v)
                  = (done ++ [null_item (k, v)]) ++ todo).
  { unfold null_to_None, null_item. cbn [fst snd]. rewrite <- app_assoc.
    destruct (eq_null v); [|reflexivity].
    apply params_setitem_fresh. exact Hk. }
  rewrite Hstep, IH.
  - rewrite <- app_assoc. reflexivity.
  - unfold distinct_keys in *. rewrite <- app_assoc. cbn [app].
    rewrite map_app in *. cbn [map] in *. rewrite fst_null_item. exact Hd.
Qed.

Lemma nulls_to_None_map (params : Params) :
  distinct_keys params -> nulls_to_None params = map null_item params.
Proof. intros Hd. apply (nulls_to_None_from params []). exact Hd. Qed.

Lemma append_option_null_item (temp : list string) (item : string * Value) :
  append_option temp (null_item item) = append_option temp item.
Proof.
  destruct item as [k v]. unfold null_item. cbn [fst snd].
  destruct (eq_null v) eqn:E; [|reflexivity].
  unfold append_option. cbn [fst snd]. rewrite E. reflexivity.
Qed.

Lemma options_of_null_items (params : Params) :
  forall temp : list string,
    fold_left append_option (map null_item params) temp
    = fold_left append_option params temp.
Proof.
  induction params as [|item params IH]; intros temp; [reflexivity|].
  cbn [map fold_left]. rewrite append_option_null_item. apply IH.
Qed.

Lemma null_item_idempotent (item : string * Value) :
  null_item (null_item item) = null_item item.
Proof.
  unfold null_item. destruct item as [k v]. cbn [fst snd].
  destruct (eq_null v) eqn:E; cbn [fst snd eq_null]; [reflexivity|].
  rewrite E. reflexivity.
Qed.

Lemma distinct_keys_null_items (params : Params) :
  distinct_keys params -> distinct_keys (map null_item params).
Proof.
  unfold distinct_keys. rewrite map_map.
  rewrite (map_ext (fun x => fst (null_item x)) fst fst_null_item). auto.
Qed.

Lemma get_command_params_inv (section params_type : string) (data : TemplateData)
    (params : Params) (data' : TemplateData) :
  get_command_params section params_type data = Return (params, data') ->
  exists (sec : gmap string Params) (stored : Params),
    data !! section = Some sec /\ sec !! params_type = Some stored /\
    params = nulls_to_None stored /\
    data' = <[section := <[params_type := params]> sec]> data.
Proof.
  unfold get_command_params, dict_getitem, store_params.
  destruct (data !! section) as [sec|] eqn:Es; [|discriminate]. cbn [obind].
  destruct (sec !! params_type) as [stored|] eqn:Ep; [|discriminate].
  cbv zeta. intros H. apply Return_inj in H. injection H as <- <-.
  exists sec, stored. auto.
Qed.

(** X18: the options of a command are the same before and after
    [get_command_params] has replaced the ["null"] values of the template
    by [None]: [_construct_options_string] leaves both out.  So
    [get_command_options] answers the same for every section and kind of
    parameters, whether or not [get_command_params] was called before on
    the same template. *)
Theorem options_unchanged_by_get_command_params (section params_type : string)
    (data data' : TemplateData) (params : Params) :
  (forall stored, stored_params section params_type data = Some stored ->
                  distinct_keys stored) ->
  get_command_params section params_type data = Return (params, data') ->
  get_command_options section params_type data
    = Return (_construct_options_string params) /\
  forall section' params_type' : string,
    get_command_options section' params_type' data'
    = get_command_options section' params_type' data.
Proof.
  intros Hd H.
  apply get_command_params_inv in H as (sec & stored & Es & Ep & -> & ->).
  assert (Hopt : _construct_options_string (nulls_to_None stored)
                 = _construct_options_string stored).
  { rewrite nulls_to_None_map.
    - unfold _construct_options_string. rewrite options_of_null_items. reflexivity.
    - apply Hd. unfold stored_params. rewrite Es. exact Ep. }
  split.
  - unfold get_command_options, dict_getitem. rewrite Es. cbn [obind]. rewrite Ep.
    cbn [obind]. rewrite Hopt. reflexivity.
  - intros section' params_type'. unfold get_command_options, dict_getitem.
    destruct (decide (section' = section)) as [->|Hs].
    + rewrite lookup_insert_eq, Es. cbn [obind].
      destruct (decide (params_type' = params_type)) as [->|Hp].
      * rewrite lookup_insert_eq, Ep. cbn [obind]. rewrite Hopt. reflexivity.
      * rewrite lookup_insert_ne by congruence. reflexivity.
    + rewrite lookup_insert_ne by congruence. reflexivity.
Qed.

Lemma options_unchanged_by_get_command_params_witness :
  get_command_options "simulation" "config-params"
    {["simulation" := {["config-params" :=
         [("order_by_penetration", VBool true); ("reports_filename", VStr "null");
          ("cli_run", VBool false); ("volt_var", VInt 2)]]}]}
    = Return (_construct_options_string
                [("order_by_penetration", VBool true); ("reports_filename", VNone);
                 ("cli_run", VBool false); ("volt_var", VInt 2)]) /\
  forall section' params_type' : string,
    get_command_options section' params_type'
      (<["simulation" := <["config-params" :=
            [("order_by_penetration", VBool true); ("reports_filename", VNone);
             ("cli_run", VBool false); ("volt_var", VInt 2)]]>
          {["config-params" :=
             [("order_by_penetration", VBool true); ("reports_filename", VStr "null");
              ("cli_run", VBool false); ("volt_var", VInt 2)]]}]>
         {["simulation" := {["config-params" :=
             [("order_by_penetration", VBool true); ("reports_filename", VStr "null");
              ("cli_run", VBool false); ("volt_var", VInt 2)]]}]})
    = get_command_options section' params_type'
        {["simulation" := {["config-params" :=
           [("order_by_penetration", VBool true); ("reports_filename", VStr "null");
            ("cli_run", VBool false); ("volt_var", VInt 2)]]}]}.
Proof.
  apply (options_unchanged_by_get_command_params "simulation" "config-params").
  - intros stored. vm_compute. intros [= <-].
    repeat (constructor; [vm_compute; intros H;
                          repeat (apply elem_of_cons in H as [H|H]; [discriminate|]);
                          apply elem_of_nil in H; exact H|]).
    constructor.
  - vm_compute. reflexivity.
Defined.

Lemma null_items_id (params : Params) :
  (forall item, item ∈ params -> eq_null (snd item) = false) ->
  map null_item params = params.
Proof.
  induction params as [|item params IH]; intros H; [reflexivity|].
  cbn [map]. rewrite IH by (intros i Hi; apply H, list_elem_of_further, Hi).
  unfold null_item. rewrite (H item (list_elem_of_here _ _)). reflexivity.
Qed.

Lemma null_item_not_null (item : string * Value) : eq_null (snd (null_item item)) = false.
Proof.
  unfold null_item. destruct (eq_null (snd item)) eqn:E; [reflexivity|exact E].
Qed.

Lemma null_items_settled (stored : Params) :
  distinct_keys stored -> nulls_to_None (map null_item stored) = map null_item stored.
Proof.
  intros Hd. rewrite nulls_to_None_map by apply distinct_keys_null_items, Hd.
  apply null_items_id. intros item Hin.
  change (map ?f ?l) with (f <$> l) in Hin.
  apply list_elem_of_fmap in Hin as (item0 & -> & _). apply null_item_not_null.
Qed.

(** X19: after [get_command_params] the template is settled: the
    dictionary returned has the keys of the stored one in their order, no
    value ["null"] (each has become [None], every other value is kept), it
    is the dictionary the template now stores, and a second call returns
    the same dictionary and leaves the template as it is. *)
Theorem get_command_params_settles (section params_type : string)
    (data data' : TemplateData) (params : Params) :
  (forall stored, stored_params section params_type data = Some stored ->
                  distinct_keys stored) ->
  get_command_params section params_type data = Return (params, data') ->
  (exists stored : Params,
     stored_params section params_type data = Some stored /\
     map fst params = map fst stored /\
     forall (k : string) (v : Value),
       (k, v) ∈ stored -> (k, if eq_null v then VNone else v) ∈ params) /\
  (forall (k : string) (v : Value), (k, v) ∈ params -> eq_null v = false) /\
  stored_params section params_type data' = Some params /\
  get_command_params section params_type data' = Return (params, data').
Proof.
  intros Hd H.
  apply get_command_params_inv in H as (sec & stored & Es & Ep & -> & ->).
  assert (Hst : stored_params section params_type data = Some stored).
  { unfold stored_params. rewrite Es. exact Ep. }
  specialize (Hd stored Hst). rewrite (nulls_to_None_map stored Hd).
  split.
  { exists stored. split; [exact Hst|]. split.
    - rewrite map_map. apply map_ext, fst_null_item.
    - intros k v Hin. change (map ?f ?l) with (f <$> l).
      apply list_elem_of_fmap. exists (k, v). split; [|exact Hin].
      unfold null_item. cbn [fst snd]. destruct (eq_null v); reflexivity. }
  split.
  { intros k v Hin. change (map ?f ?l) with (f <$> l) in Hin.
    apply list_elem_of_fmap in Hin as (item & Heq & _).
    pose proof (null_item_not_null item) as Hn. rewrite <- Heq in Hn. exact Hn. }
  split.
  { unfold stored_params. rewrite lookup_insert_eq. cbn. apply lookup_insert_eq. }
  unfold get_command_params, dict_getitem, store_params.
  rewrite lookup_insert_eq. cbn [obind]. rewrite lookup_insert_eq. cbv zeta.
  rewrite (null_items_settled stored Hd), !insert_insert_eq. reflexivity.
Qed.

Lemma get_command_params_settles_witness :
  (exists stored : Params,
     stored_params "model" "transform-params"
       {["model" := {["transform-params" :=
           [("output", VStr "models"); ("force", VStr "null")]]}]} = Some stored /\
     map fst [("output", VStr "models"); ("force", VNone)] = map fst stored /\
     forall (k : string) (v : Value),
       (k, v) ∈ stored ->
       (k, if eq_null v then VNone else v) ∈ [("output", VStr "models"); ("force", VNone)]) /\
  (forall (k : string) (v : Value),
     (k, v) ∈ [("output", VStr "models"); ("force", VNone)] -> eq_null v = false) /\
  stored_params "model" "transform-params"
    (snd (match get_command_params "model" "transform-params"
                  {["model" := {["transform-params" :=
                      [("output", VStr "models"); ("force", VStr "null")]]}]} with
          | Return r => r
          | Raise _ => ([], ∅)
          end))
    = Some [("output", VStr "models"); ("force", VNone)] /\
  get_command_params "model" "transform-params"
    (snd (match get_command_params "model" "transform-params"
                  {["model" := {["transform-params" :=
                      [("output", VStr "models"); ("force", VStr "null")]]}]} with
          | Return r => r
          | Raise _ => ([], ∅)
          end))
    = Return ([("output", VStr "models"); ("force", VNone)],
              snd (match get_command_params "model" "transform-params"
                           {["model" := {["transform-params" :=
                               [("output", VStr "models"); ("force", VStr "null")]]}]} with
                   | Return r => r
                   | Raise _ => ([], ∅)
                   end)).
Proof.
  apply (get_command_params_settles "model" "transform-params"
           {["model" := {["transform-params" :=
               [("output", VStr "models"); ("force", VStr "null")]]}]}).
  - intros stored. vm_compute. intros [= <-].
    repeat (constructor; [vm_compute; intros H;
                          repeat (apply elem_of_cons in H as [H|H]; [discriminate|]);
                          apply elem_of_nil in H; exact H|]).
    constructor.
  - vm_compute. reflexivity.
Defined.

Lemma params_getitem_setitem (params : Params) (k : string) (v : Value) :
  params_getitem (params_setitem params k v) k = Return v.
Proof.
  induction params as [|[k0 v0] params IH]; simpl.
  - rewrite String.eqb_refl. reflexivity.
  - destruct (String.eqb k0 k) eqn:E; simpl; rewrite E; [reflexivity|exact IH].
Qed.

Lemma params_getitem_elem (params : Params) (k : string) (v : Value) :
  params_getitem params k = Return v -> (k, v) ∈ params.
Proof.
  induction params as [|[k0 v0] params IH]; simpl; [discriminate|].
  destruct (String.eqb k0 k) eqn:E.
  - apply String.eqb_eq in E. subst k0. intros H; apply Return_inj in H; subst v0.
    apply list_elem_of_here.
  - intros H. apply list_elem_of_further, IH, H.
Qed.

Lemma params_setitem_keys (params : Params) (k : string) (v0 v : Value) :
  params_getitem params k = Return v0 ->
  map fst (params_setitem params k v) = map fst params.
Proof.
  induction params as [|[k1 v1] params IH]; simpl; [discriminate|].
  destruct (String.eqb k1 k) eqn:E; [reflexivity|].
  intros H. simpl. rewrite (IH H). reflexivity.
Qed.

Lemma params_setitem_elem (params : Params) (k : string) (v : Value)
    (item : string * Value) :
  item ∈ params_setitem params k v -> item = (k, v) \/ item ∈ params.
Proof.
  induction params as [|[k1 v1] params IH]; simpl.
  - intros H. apply list_elem_of_singleton in H. left. exact H.
  - destruct (String.eqb k1 k) eqn:E.
    + apply String.eqb_eq in E. subst k1. intros H.
      apply elem_of_cons in H as [H|H]; [left; exact H|].
      right. apply list_elem_of_further, H.
    + intros H. apply elem_of_cons in H as [H|H].
      * right. rewrite H. apply list_elem_of_here.
      * destruct (IH H) as [H'|H']; [left; exact H'|].
        right. apply list_elem_of_further, H'.
Qed.

Lemma os_path_join_output_dir (value : Value) (joined : string) :
  os_path_join JADE_PIPELINE_OUTPUT_DIR value = Return joined ->
  exists output : string,
    value = VStr output /\
    joined = (if String.prefix "/" output then output else prefixed output) /\
    String.eqb joined "null" = false.
Proof.
  destruct value as [| b | n | output]; try discriminate.
  unfold os_path_join, prefixed.
  change (negb (str_bool JADE_PIPELINE_OUTPUT_DIR) || endswith_slash JADE_PIPELINE_OUTPUT_DIR)
    with false. cbv iota.
  destruct (String.prefix "/" output) eqn:E; intros H; apply Return_inj in H; subst joined;
    exists output; (split; [reflexivity|]); (split; [rewrite E; reflexivity|]).
  - destruct (String.eqb output "null") eqn:En; [|reflexivity].
    apply String.eqb_eq in En. subst output. discriminate.
  - reflexivity.
Qed.

Lemma get_command_params_stored (section params_type : string) (data : TemplateData)
    (sec : gmap string Params) (stored : Params) :
  data !! section = Some sec -> sec !! params_type = Some stored ->
  get_command_params section params_type data
  = Return (nulls_to_None stored,
            <[section := <[params_type := nulls_to_None stored]> sec]> data).
Proof.
  intros Es Ep. unfold get_command_params, dict_getitem, store_params.
  rewrite Es. cbn [obind]. rewrite Ep. reflexivity.
Qed.

(** X20: [get_transform_options] changes the template: the output of the
    transform parameters of the section "model" is stored behind
    [$JADE_PIPELINE_OUTPUT_DIR], unless it is an absolute path.  A second
    call on the same template returns again, for any [section] argument,
    and puts the directory before the stored output once more. *)
Theorem get_transform_options_prefixes_output_again
    (MODEL TRANSFORM_PARAMS section section' : string)
    (data data1 : TemplateData) (options : string) :
  (forall stored, stored_params MODEL TRANSFORM_PARAMS data = Some stored ->
                  distinct_keys stored) ->
  get_transform_options MODEL TRANSFORM_PARAMS section data = Return (options, data1) ->
  exists (output : string) (params1 : Params),
    (exists stored : Params,
       stored_params MODEL TRANSFORM_PARAMS data = Some stored /\
       ("output", VStr output) ∈ stored) /\
    stored_params MODEL TRANSFORM_PARAMS data1 = Some params1 /\
    params_getitem params1 "output"
      = Return (VStr (if String.prefix "/" output then output else prefixed output)) /\
    exists (options2 : string) (data2 : TemplateData) (params2 : Params),
      get_transform_options MODEL TRANSFORM_PARAMS section' data1
        = Return (options2, data2) /\
      stored_params MODEL TRANSFORM_PARAMS data2 = Some params2 /\
      params_getitem params2 "output"
        = Return (VStr (if String.prefix "/" output then output
                        else prefixed (prefixed output))).
Proof.
  intros Hd H. unfold get_transform_options, get_transform_params in H.
  destruct (get_command_params MODEL TRANSFORM_PARAMS data) as [[params dataA]|] eqn:E1;
    [|discriminate].
  apply get_command_params_inv in E1 as (sec & stored & Es & Ep & -> & ->).
  assert (Hst : stored_params MODEL TRANSFORM_PARAMS data = Some stored).
  { unfold stored_params. rewrite Es. exact Ep. }
  specialize (Hd stored Hst). rewrite (nulls_to_None_map stored Hd) in H.
  cbn [obind fst snd] in H.
  destruct (params_getitem (map null_item stored) "output") as [value|] eqn:Eget;
    [|discriminate].
  cbn [obind] in H.
  destruct (os_path_join "$JADE_PIPELINE_OUTPUT_DIR" value) as [joined|] eqn:Ejoin;
    [|discriminate].
  cbn [obind] in H. apply Return_inj in H. injection H as _ <-.
  destruct (os_path_join_output_dir value joined Ejoin) as (output & -> & Hj & Hnull).
  set (params1 := params_setitem (map null_item stored) "output" (VStr joined)) in *.
  exists output, params1.
  split.
  { exists stored. split; [exact Hst|].
    apply params_getitem_elem in Eget. change (map ?f ?l) with (f <$> l) in Eget.
    apply list_elem_of_fmap in Eget as ([k v] & Heq & Hin).
    unfold null_item in Heq. cbn [fst snd] in Heq.
    destruct (eq_null v); [discriminate|]. rewrite Heq. exact Hin. }
  assert (Hst1 : stored_params MODEL TRANSFORM_PARAMS
                   (store_params MODEL TRANSFORM_PARAMS params1
                      (<[MODEL := <[TRANSFORM_PARAMS := map null_item stored]> sec]> data))
                 = Some params1).
  { unfold stored_params, store_params. rewrite lookup_insert_eq.
    rewrite lookup_insert_eq. cbn. apply lookup_insert_eq. }
  split; [exact Hst1|].
  split; [unfold params1; rewrite params_getitem_setitem, Hj; reflexivity|].
  (* the second call *)
  assert (Hsettled : nulls_to_None params1 = params1).
  { rewrite nulls_to_None_map.
    - apply null_items_id. intros item Hin. unfold params1 in Hin.
      apply params_setitem_elem in Hin as [->|Hin]; [exact Hnull|].
      change (map ?f ?l) with (f <$> l) in Hin.
      apply list_elem_of_fmap in Hin as (item0 & -> & _). apply null_item_not_null.
    - unfold distinct_keys, params1.
      rewrite (params_setitem_keys _ _ _ _ Eget).
      apply distinct_keys_null_items, Hd. }
  assert (Hdata1 : store_params MODEL TRANSFORM_PARAMS params1
                     (<[MODEL := <[TRANSFORM_PARAMS := map null_item stored]> sec]> data)
                   = <[MODEL := <[TRANSFORM_PARAMS := params1]>
                                  (<[TRANSFORM_PARAMS := map null_item stored]> sec)]>
                       (<[MODEL := <[TRANSFORM_PARAMS := map null_item stored]> sec]> data)).
  { unfold store_params. rewrite lookup_insert_eq. reflexivity. }
  rewrite Hdata1 in Hst1.
  unfold get_transform_options, get_transform_params. rewrite Hdata1.
  rewrite (get_command_params_stored MODEL TRANSFORM_PARAMS _ _ params1
             (lookup_insert_eq _ _ _) (lookup_insert_eq _ _ _)).
  rewrite Hsettled. cbn [obind fst snd].
  assert (Eget1 : params_getitem params1 "output" = Return (VStr joined))
    by apply params_getitem_setitem.
  rewrite Eget1. cbn [obind].
  assert (Ejoin2 : os_path_join "$JADE_PIPELINE_OUTPUT_DIR" (VStr joined)
                   = Return (if String.prefix "/" output then output
                             else prefixed (prefixed output))).
  { rewrite Hj. unfold os_path_join.
    destruct (String.prefix "/" output) eqn:E; [rewrite E; reflexivity|reflexivity]. }
  rewrite Ejoin2. cbn [obind].
  eexists _, _, _. split; [reflexivity|].
  split.
  - unfold stored_params, store_params. rewrite !lookup_insert_eq. cbn.
    apply lookup_insert_eq.
  - apply params_getitem_setitem.
Qed.

Lemma get_transform_options_prefixes_output_again_witness :
  exists (output : string) (params1 : Params),
    (exists stored : Params,
       stored_params "model" "transform-params" template_with_output = Some stored /\
       ("output", VStr output) ∈ stored) /\
    stored_params "model" "transform-params" (snd transform_options_of_template)
      = Some params1 /\
    params_getitem params1 "output"
      = Return (VStr (if String.prefix "/" output then output else prefixed output)) /\
    exists (options2 : string) (data2 : TemplateData) (params2 : Params),
      get_transform_options "model" "transform-params" "prescreen"
        (snd transform_options_of_template) = Return (options2, data2) /\
      stored_params "model" "transform-params" data2 = Some params2 /\
      params_getitem params2 "output"
        = Return (VStr (if String.prefix "/" output then output
                        else prefixed (prefixed output))).
Proof.
  apply (get_transform_options_prefixes_output_again "model" "transform-params"
           "simulation" "prescreen" template_with_output
           (snd transform_options_of_template) (fst transform_options_of_template)).
  - intros stored. vm_compute. intros [= <-].
    repeat (constructor; [vm_compute; intros H;
                          repeat (apply elem_of_cons in H as [H|H]; [discriminate|]);
                          apply elem_of_nil in H; exact H|]).
    constructor.
  - vm_compute. reflexivity.
Defined.

(** X21: [remove_params] does not fail, also when the section or the kind
    of parameters is missing, and leaves every other dictionary of
    parameters as it is; after it [get_command_params] raises a
    [KeyError]: with the message of the template when the section exists,
    with the name of the section otherwise.  [get_command_params] raises
    exactly when the template stores no dictionary under the section and
    the kind. *)
Theorem get_command_params_after_remove_params (section params_type : string)
    (data : TemplateData) :
  get_command_params section params_type (remove_params section params_type data)
    = Raise (KeyError (match data !! section with
                       | Some _ => does_not_contain section params_type
                       | None => section
                       end)) /\
  (forall section' params_type' : string,
     (section', params_type') <> (section, params_type) ->
     stored_params section' params_type' (remove_params section params_type data)
     = stored_params section' params_type' data) /\
  ((exists e, get_command_params section params_type data = Raise e) <->
   stored_params section params_type data = None).
Proof.
  unfold remove_params, get_command_params, dict_getitem, stored_params,
    does_not_contain.
  destruct (data !! section) as [sec|] eqn:Es.
  - destruct (sec !! params_type) as [stored|] eqn:Ep.
    + split; [|split].
      * rewrite lookup_insert_eq. cbn [obind]. rewrite lookup_delete_eq. reflexivity.
      * intros section' params_type' Hne.
        destruct (decide (section' = section)) as [->|Hs].
        -- rewrite lookup_insert_eq, Es. cbn.
           apply lookup_delete_ne. congruence.
        -- rewrite lookup_insert_ne by congruence. reflexivity.
      * cbn [obind mbind option_bind]. rewrite Ep. cbv zeta.
        split; [intros [e H]; discriminate|intros H; cbn in H; congruence].
    + split; [|split].
      * rewrite Es. cbn [obind]. rewrite Ep. reflexivity.
      * reflexivity.
      * cbn [obind]. rewrite Ep. split; [intros _; cbn; exact Ep|eauto].
  - split; [|split].
    + rewrite Es. reflexivity.
    + reflexivity.
    + cbn [obind]. split; [reflexivity|eauto].
Qed.
